(** * helmboot: secret-manager kind resolution, secrets YAML export and
      boot Job log tailing

    A shallow embedding of three pieces of the helmboot CLI:

    - package [factory]: [KindResolver] ([CreateSecretManager],
      [resolveKind], [resolveRequirements]);
    - package [secrets]: the [secrets yaml] command ([YAMLOptions.Run],
      [loadSecretFile], [generateSecretsYAML]);
    - package [run]: [HelmBootOptions.findRequirementsAndGitURL] and
      [HelmBootOptions.tailJobLogs].

    Go functions that return [(value, error)] are modelled as pairs whose
    second component is an [option error] ([None] is Go's [nil]); a Go
    pointer that may be [nil] is an [option].  Everything the code asks of
    the outside (the Kubernetes API, the file system, the environment, the
    jx helper library) is answered by a [World]; each such request is also
    recorded in a log, so that a statement can say which requests a function
    made and in which order. *)

From Stdlib Require Import ZArith Ascii String Strings.Byte.
From stdpp Require Import base strings list gmap.

Open Scope string_scope.
Open Scope list_scope.
Open Scope nat_scope.

(** ** Errors *)

(** The reason carried by a Kubernetes API status error. *)
Inductive StatusReason :=
| StatusReasonNotFound
| StatusReasonOther (reason : string).

(** Go [error] values: an API status error, a plain message
    ([fmt.Errorf], [errors.Errorf]), or an error wrapped with a message
    by [errors.Wrap] / [errors.Wrapf]. *)
Inductive error :=
| StatusError (reason : StatusReason) (message : string)
| errorString (message : string)
| withMessage (cause : error) (message : string).

(** [apierrors.IsNotFound]: the error itself is a status error whose reason
    is NotFound. *)
Definition IsNotFound (err : error) : bool :=
  match err with
  | StatusError StatusReasonNotFound _ => true
  | _ => false
  end.

(** The guard [err != nil && !apierrors.IsNotFound(err)]: the error when
    the guard holds, [None] when it does not. *)
Definition notFoundIsNil (err : option error) : option error :=
  match err with
  | Some e => if IsNotFound e then None else Some e
  | None => None
  end.

(** [errors.Wrap(err, message)] for a non-nil [err]. *)
Definition Wrap (err : error) (message : string) : error :=
  withMessage err message.

(** [fmt.Errorf] / [errors.Errorf] once the format has been expanded. *)
Definition Errorf (message : string) : error := errorString message.

(** [err.Error()]. *)
Fixpoint Error (err : error) : string :=
  match err with
  | StatusError _ message => message
  | errorString message => message
  | withMessage cause message => message +:+ ": " +:+ Error cause
  end.

(** [errors.Cause(err)]: the innermost wrapped error. *)
Fixpoint Cause (err : error) : error :=
  match err with
  | withMessage cause _ => Cause cause
  | _ => err
  end.

(** ** Data *)

(** [config.RequirementsConfig], restricted to the fields this code reads. *)
Record ClusterConfig := { Provider : string; ClusterName : string }.
Record RequirementsConfig := { Cluster : ClusterConfig }.

(** The 'dev' [Environment] custom resource: [Spec.Source.URL] and
    [Spec.TeamSettings] (whose boot requirements are an embedded YAML
    string). *)
Record TeamSettings := { BootRequirements : string }.
Record Environment := { SourceURL : string; Settings : TeamSettings }.

(** A Kubernetes [Secret]: only [Data] is read. *)
Record Secret := { Data : gmap string (list byte) }.

(** The tree handed to [yaml.Marshal]: [map[string]interface{}] whose
    leaves are strings. *)
#[warnings="-register-all"]
Inductive Value :=
| VString (s : string)
| VMap (m : gmap string Value).

(** Constants of packages that are imported by the code: [secretmgr]
    ([KindLocal], [KindGoogleSecretManager], [LocalSecret],
    [LocalSecretKey]), jx's [cloud.GKE] and
    [util.DefaultFileWritePermissions]. *)
Record Constants := {
  KindLocal : string;
  KindGoogleSecretManager : string;
  LocalSecret : string;
  LocalSecretKey : string;
  GKE : string;
  DefaultFileWritePermissions : Z;
}.

(** ** Requests to the outside world *)

Inductive Call :=
| CallCreateKubeClient
| CallCreateJXClient
| CallSecretsGet (ns name : string)
| CallGetDevEnvironment (ns : string)
| CallGetRequirementsConfigFromTeamSettings (settings : TeamSettings)
| CallLoadRequirementsConfig (dir : string)
| CallNewSecretManager (kind : string) (requirements : RequirementsConfig)
| CallGetenv (name : string)
| CallFileExists (fileName : string)
| CallReadFile (fileName : string)
| CallMarshal (values : Value)
| CallWriteFile (fileName : string) (data : list byte) (perm : Z)
| CallDebugf (message : string)
| CallInfof (message : string)
| CallFindGitConfigDir (dir : string)
| CallDiscoverUpstreamGitURL (gitConfDir : string)
| CallWaitForReadyPodForSelectorLabels (ns : string)
| CallTailLogs (ns pod containerName : string).

(** What the outside world answers.  The Kubernetes and jx clients are
    opaque handles, so only the namespace they come with is kept.  The two
    requests of the log-tailing loop are answered per attempt (the number of
    earlier attempts is the first argument), since a pod that was ready once
    need not be ready again.  Three fields stand for library code rather
    than for the cluster or the machine: [world_RangeOrder] is the order in
    which Go's [range] visits the entries of a map (unspecified by the
    language), [world_TrimSpace] is [strings.TrimSpace] and
    [world_ColorInfo] is jx's [util.ColorInfo]. *)
Record World := {
  SecretManager : Type;
  world_CreateKubeClient : string * option error;
  world_CreateJXClient : string * option error;
  world_SecretsGet : string -> string -> Secret * option error;
  world_GetDevEnvironment : string -> option Environment * option error;
  world_GetRequirementsConfigFromTeamSettings :
    TeamSettings -> option RequirementsConfig * option error;
  world_LoadRequirementsConfig :
    string -> option RequirementsConfig * string * option error;
  world_NewSecretManager :
    string -> RequirementsConfig -> option SecretManager * option error;
  world_Getenv : string -> string;
  world_FileExists : string -> bool * option error;
  world_ReadFile : string -> list byte * option error;
  world_WriteFile : string -> list byte -> Z -> option error;
  world_Marshal : Value -> list byte * option error;
  world_RangeOrder :
    gmap string (list byte) -> list (string * list byte);
  world_TrimSpace : string -> string;
  world_ColorInfo : string -> string;
  world_FindGitConfigDir : string -> string * string * option error;
  world_DiscoverUpstreamGitURL : string -> string * option error;
  world_WaitForReadyPodForSelectorLabels :
    nat -> string -> string * option error;
  world_TailLogs : nat -> string -> string -> string -> option error;
}.

(** ** A computation that logs its requests *)

Definition M (A : Type) : Type := (A * list Call)%type.

Definition ret {A} (a : A) : M A := (a, []).

Definition bind {A B} (m : M A) (f : A -> M B) : M B :=
  let (b, l2) := f m.1 in (b, m.2 ++ l2).

Definition request {A} (c : Call) (answer : A) : M A := (answer, [c]).

Declare Scope go_scope.
Delimit Scope go_scope with go.
Notation "'let*' x ':=' m 'in' k" := (bind m (fun x => k))
  (at level 10, x name, m at level 100, k at level 200) : go_scope.
Notation "'let*' ' pat ':=' m 'in' k" :=
  (bind m (fun x => match x with pat => k end))
  (at level 10, pat pattern, m at level 100, k at level 200) : go_scope.
Open Scope go_scope.

(** The value a computation returns and the requests it made. *)
Definition result {A} (m : M A) : A := m.1.
Definition calls {A} (m : M A) : list Call := m.2.

(** ** Requests common to the three packages *)

Section Requests.

Context (w : World).

Definition CreateKubeClient : M (string * option error) :=
  request CallCreateKubeClient (world_CreateKubeClient w).

Definition CreateJXClient : M (string * option error) :=
  request CallCreateJXClient (world_CreateJXClient w).

Definition SecretsGet (ns name : string) : M (Secret * option error) :=
  request (CallSecretsGet ns name) (world_SecretsGet w ns name).

Definition GetDevEnvironment (ns : string)
  : M (option Environment * option error) :=
  request (CallGetDevEnvironment ns) (world_GetDevEnvironment w ns).

Definition GetRequirementsConfigFromTeamSettings (settings : TeamSettings)
  : M (option RequirementsConfig * option error) :=
  request (CallGetRequirementsConfigFromTeamSettings settings)
          (world_GetRequirementsConfigFromTeamSettings w settings).

Definition LoadRequirementsConfig (dir : string)
  : M (option RequirementsConfig * string * option error) :=
  request (CallLoadRequirementsConfig dir) (world_LoadRequirementsConfig w dir).

Definition Getenv (name : string) : M string :=
  request (CallGetenv name) (world_Getenv w name).

Definition Debugf (message : string) : M unit :=
  request (CallDebugf message) tt.

Definition Infof (message : string) : M unit :=
  request (CallInfof message) tt.

End Requests.

(** [util.MissingOption(name)]: the name of the option goes through
    [util.ColorInfo], as it does in the log messages. *)
Definition MissingOption (w : World) (name : string) : error :=
  Errorf ("Missing option: --" +:+ world_ColorInfo w name).

(** ** Package factory: KindResolver *)

Module factory.
Section factory.

Context (c : Constants) (w : World).

(** The [KindResolver] struct; its [Factory] is the [World]. *)
Record KindResolver := { Kind : string; Dir : string }.

Definition NewSecretManager (kind : string) (requirements : RequirementsConfig)
  : M (option (SecretManager w) * option error) :=
  request (CallNewSecretManager kind requirements)
          (world_NewSecretManager w kind requirements).

Definition resolveKind (requirements : RequirementsConfig)
  : M (string * option error) :=
  if decide (Provider (Cluster requirements) = GKE c) then
    (* lets check if we have a Local secret otherwise default to Google *)
    let* '(ns, err) := CreateKubeClient w in
    match err with
    | Some e => ret ("", Some (Wrap e "failed to create Kubernetes client"))
    | None =>
        let name := LocalSecret c in
        let* '(_, err) := SecretsGet w ns name in
        match err with
        | Some e =>
            if negb (IsNotFound e) then
              ret ("", Some (Wrap e ("failed to get Secret " +:+ name
                                       +:+ " in namespace " +:+ ns)))
            else
              (* no secret so lets assume gcloud *)
              ret (KindGoogleSecretManager c, None)
        | None => ret (KindLocal c, None)
        end
    end
  else ret (KindLocal c, None).

Definition resolveRequirements (r : KindResolver)
  : M (option RequirementsConfig * string * option error) :=
  let* '(ns, err) := CreateJXClient w in
  match err with
  | Some e => ret (None, ns, Some (Wrap e "failed to create JX Client"))
  | None =>
      let* '(dev, err) := GetDevEnvironment w ns in
      let fromFile :=
        let* '(requirements, _, err) := LoadRequirementsConfig w (Dir r) in
        match err with
        | Some e =>
            ret (requirements, ns,
                 Some (Wrap e ("failed to requirements YAML file from "
                                 +:+ Dir r)))
        | None => ret (requirements, ns, None)
        end in
      match notFoundIsNil err with
      | Some e =>
          ret (None, ns,
               Some (Wrap e "failed to find the 'dev' Environment resource"))
      | None =>
          match dev with
          | Some d =>
              let* '(requirements, err) :=
                GetRequirementsConfigFromTeamSettings w (Settings d) in
              match err, requirements with
              | Some e, _ =>
                  ret (None, ns,
                       Some (Wrap e ("failed to unmarshal requirements from 'dev' Environment in namespace "
                                       +:+ ns)))
              | None, Some req => ret (Some req, ns, None)
              | None, None => fromFile
              end
          | None => fromFile
          end
      end
  end.

(** Lines 44-47 of [CreateSecretManager]: if we can't find one default to
    local Secrets. *)
Definition defaultKind (kind : string) : string :=
  if decide (kind = "") then KindLocal c else kind.

(** [CreateSecretManager] returns the resolver as it leaves it ([r.Kind] is
    assigned) next to the Go results. *)
Definition CreateSecretManager (r : KindResolver)
  : M (KindResolver * (option (SecretManager w) * option error)) :=
  (* lets try find the requirements from the cluster or locally *)
  let* '(requirements, ns, err) := resolveRequirements r in
  match err with
  | Some e => ret (r, (None, Some e))
  | None =>
      match requirements with
      | None =>
          ret (r, (None,
                   Some (Errorf ("failed to resolve the jx-requirements.yml from the file system or the 'dev' Environment in namespace "
                                   +:+ ns))))
      | Some requirements =>
          if decide (Kind r = "") then
            let* '(kind, err) := resolveKind requirements in
            let r := {| Kind := kind; Dir := Dir r |} in
            match err with
            | Some e => ret (r, (None, Some e))
            | None =>
                let r := {| Kind := defaultKind (Kind r); Dir := Dir r |} in
                let* sm := NewSecretManager (Kind r) requirements in
                ret (r, sm)
            end
          else
            let* sm := NewSecretManager (Kind r) requirements in
            ret (r, sm)
      end
  end.

End factory.
End factory.

(** ** Go's [strings] package, for the one-byte separators the code uses *)

(** [strings.Split(s, sep)] for a one-byte separator: all the pieces
    between occurrences of [sep]; never empty. *)
Fixpoint Split (s : string) (sep : ascii) : list string :=
  match s with
  | EmptyString => [EmptyString]
  | String ch rest =>
      if decide (ch = sep) then EmptyString :: Split rest sep
      else match Split rest sep with
           | piece :: pieces => String ch piece :: pieces
           | [] => [String ch EmptyString]
           end
  end.

(** The text before and after the first [sep], when there is one. *)
Fixpoint cut (s : string) (sep : ascii) : option (string * string) :=
  match s with
  | EmptyString => None
  | String ch rest =>
      if decide (ch = sep) then Some (EmptyString, rest)
      else match cut rest sep with
           | Some (before, after) => Some (String ch before, after)
           | None => None
           end
  end.

(** [strings.SplitN(s, sep, 2)] for a one-byte separator. *)
Definition SplitN2 (s : string) (sep : ascii) : list string :=
  match cut s sep with
  | Some (before, after) => [before; after]
  | None => [s]
  end.

(** [strings.HasPrefix]. *)
Definition HasPrefix (s prefix : string) : bool := String.prefix prefix s.

(** ** Nested maps addressed by dotted paths *)

(** The map found under [k], or the fresh map that is put there when [k]
    holds none (part of [SetMapValueViaPath] below). *)
Definition childMap (m : gmap string Value) (k : string) : gmap string Value :=
  match m !! k with
  | Some (VMap child) => child
  | _ => ∅
  end.

(** The loop of [SetMapValueViaPath] (below) over the pieces of the path:
    walk into (or create) the child map of every piece but the last, and set
    the last one to [value]. *)
Fixpoint setPath (m : gmap string Value) (paths : list string) (value : Value)
  : gmap string Value :=
  match paths with
  | [] => m
  | k :: rest =>
      match rest with
      | [] => <[k := value]> m
      | _ :: _ => <[k := VMap (setPath (childMap m k) rest value)]> m
      end
  end.

(** Modelled from the spec: [util.SetMapValueViaPath] of the jx library,
    whose source is not part of this repository.  The spec gives it
    dotted-path semantics: key [a.b.c] becomes the nested map
    [a: {b: {c: value}}].  An entry that stands where a map is needed, or a
    map that stands where the value goes, is replaced. *)
Definition SetMapValueViaPath (m : gmap string Value) (path : string)
  (value : Value) : gmap string Value :=
  setPath m (Split path ".") value.

(** Reading a tree along a path: the entry the last piece names, inside the
    maps the earlier pieces name. *)
Fixpoint lookupPath (paths : list string) (m : gmap string Value)
  : option Value :=
  match paths with
  | [] => None
  | k :: rest =>
      match rest with
      | [] => m !! k
      | _ :: _ =>
          match m !! k with
          | Some (VMap child) => lookupPath rest child
          | _ => None
          end
      end
  end.

(** The loop [for k, v := range secretData] of [generateSecretsYAML], over
    the entries in the order in which they are visited. *)
Definition expandEntries (entries : list (string * list byte))
  : gmap string Value :=
  foldl (λ secrets kv,
           SetMapValueViaPath secrets kv.1 (VString (string_of_list_byte kv.2)))
        ∅ entries.

(** No key of the data, read as a dotted path, runs through another key. *)
Definition prefixFree (secretData : gmap string (list byte)) : Prop :=
  ∀ k1 k2, is_Some (secretData !! k1) → is_Some (secretData !! k2) →
           Split k1 "." `prefix_of` Split k2 "." → k1 = k2.

(** ** Package secrets: the [secrets yaml] command *)

Module secrets.
Section secrets.

Context (c : Constants) (w : World).

(** The [YAMLOptions] struct; its [JXFactory] is the [World]. *)
Record YAMLOptions := {
  SecretName : string;
  SecretFile : string;
  OutFile : string;
  BatchMode : bool;
  Verbose : bool;
}.

Definition FileExists (fileName : string) : M (bool * option error) :=
  request (CallFileExists fileName) (world_FileExists w fileName).

Definition ReadFile (fileName : string) : M (list byte * option error) :=
  request (CallReadFile fileName) (world_ReadFile w fileName).

Definition WriteFile (fileName : string) (data : list byte) (perm : Z)
  : M (option error) :=
  request (CallWriteFile fileName data perm) (world_WriteFile w fileName data perm).

Definition Marshal (values : Value) : M (list byte * option error) :=
  request (CallMarshal values) (world_Marshal w values).

Definition TrimSpace (s : string) : string := world_TrimSpace w s.

(** The body of the loop of [loadSecretFile] over the lines of the file. *)
Definition loadSecretLine (answer : gmap string (list byte)) (l : string)
  : gmap string (list byte) :=
  let line := TrimSpace l in
  if bool_decide (line = "") || HasPrefix line "#" then answer
  else
    match SplitN2 line ":" with
    | [key; value] =>
        <[TrimSpace key := list_byte_of_string (TrimSpace value)]> answer
    | _ => answer
    end.

(** loadSecretFile loads a secret file of lines of the form "foo: bar".
    Go's nil map and its empty map are both [∅]. *)
Definition loadSecretFile (fileName : string)
  : M (gmap string (list byte) * option error) :=
  let* '(exists_, err) := FileExists fileName in
  match err with
  | Some e =>
      ret (∅, Some (Wrap e ("failed to check if secret file " +:+ fileName
                              +:+ " exists")))
  | None =>
      if negb exists_ then
        ret (∅, Some (Errorf ("secret file " +:+ fileName
                                +:+ " does not exist")))
      else
        let* '(data, err) := ReadFile fileName in
        match err with
        | Some e =>
            ret (∅, Some (Wrap e ("failed to load secret file " +:+ fileName
                                    +:+ " exists")))
        | None =>
            ret (foldl loadSecretLine ∅
                       (Split (string_of_list_byte data) "010"),
                 None)
        end
  end.

(** The nested map built by the loop of [generateSecretsYAML]; the order in
    which Go ranges over [secretData] is the world's choice. *)
Definition expandSecrets (secretData : gmap string (list byte))
  : gmap string Value :=
  expandEntries (world_RangeOrder w secretData).

Definition generateSecretsYAML (fileName : string)
  (secretData : gmap string (list byte)) : M (option error) :=
  let data := default [] (secretData !! LocalSecretKey c) in
  let* '(data, err) :=
    if decide (length data = 0) then
      let secrets := expandSecrets secretData in
      let values := {[ "secrets" := VMap secrets ]} in
      Marshal (VMap values)
    else ret (data, None) in
  match err with
  | Some e => ret (Some (Wrap e "failed to marshal data to YAML"))
  | None =>
      let* err := WriteFile fileName data (DefaultFileWritePermissions c) in
      match err with
      | Some e => ret (Some (Wrap e ("failed to save file " +:+ fileName)))
      | None =>
          let* _ := Infof ("generated secrets file "
                             +:+ world_ColorInfo w fileName) in
          ret None
      end
  end.

(** Run implements the command; the options are returned as the command
    leaves them ([o.OutFile] may be assigned). *)
Definition Run (o : YAMLOptions) : M (YAMLOptions * option error) :=
  let* '(ns, err) := CreateKubeClient w in
  match err with
  | Some e => ret (o, Some e)
  | None =>
      let* secretFile :=
        if decide (SecretFile o = "") then Getenv w "JXL_SECRET_FILE"
        else ret (SecretFile o) in
      let* '(data, err) :=
        if decide (secretFile ≠ "") then
          let* '(data, err) := loadSecretFile secretFile in
          match err with
          | Some e => ret (data, Some e)
          | None =>
              if decide (size data = 0) then
                ret (data, Some (Errorf ("no data for secret file "
                                           +:+ secretFile)))
              else ret (data, None)
          end
        else
          let* secretName :=
            if decide (SecretName o = "") then Getenv w "JXL_SECRET_NAME"
            else ret (SecretName o) in
          let secretName :=
            if decide (secretName = "") then LocalSecret c else secretName in
          let* '(secret, err) := SecretsGet w ns secretName in
          match err with
          | Some e =>
              if IsNotFound e then
                ret (∅, Some (Errorf ("could not read Secret " +:+ secretName
                                        +:+ " in namespace " +:+ ns)))
              else
                ret (∅, Some (Wrap e ("failed to read Secret " +:+ secretName
                                        +:+ " in namespace " +:+ ns)))
          | None =>
              let data := Data secret in
              if decide (size data = 0) then
                ret (data, Some (Errorf ("no data for Secret " +:+ secretName
                                           +:+ " in namespace " +:+ ns)))
              else ret (data, None)
          end in
      match err with
      | Some e => ret (o, Some e)
      | None =>
          let* o :=
            if decide (OutFile o = "") then
              let* out := Getenv w "JX_SECRETS_YAML" in
              ret {| SecretName := SecretName o; SecretFile := SecretFile o;
                     OutFile := out; BatchMode := BatchMode o;
                     Verbose := Verbose o |}
            else ret o in
          if decide (OutFile o = "") then ret (o, Some (MissingOption w "out"))
          else
            let* err := generateSecretsYAML (OutFile o) data in
            ret (o, err)
      end
  end.

End secrets.
End secrets.

(** ** The machine the boot Job is launched from *)

(** [util.Command], with the fields that are set here. *)
Record Command := {
  CommandDir : string;
  CommandName : string;
  CommandArgs : list string;
}.

(** Requests of [RunBootJob] to the local machine: a temporary directory,
    a git clone, a subprocess. *)
Inductive HostCall :=
| CallTempDir (dir pattern : string)
| CallClone (url dir : string)
| CallRunWithoutRetry (command : Command).

(** What the local machine answers; [host_GetBootJobCommand] is
    [reqhelpers.GetBootJobCommand], which builds the command that installs
    the boot Job. *)
Record Host := {
  host_TempDir : string → string → string * option error;
  host_Clone : string → string → option error;
  host_RunWithoutRetry : Command → string * option error;
  host_GetBootJobCommand : RequirementsConfig → string → Command;
}.

(** A computation that logs requests to the cluster and to the machine, in
    the order in which they are made. *)
Definition Event : Type := Call + HostCall.

Definition Job (A : Type) : Type := (A * list Event)%type.

Definition retJob {A} (a : A) : Job A := (a, []).

Definition bindJob {A B} (m : Job A) (f : A → Job B) : Job B :=
  let (b, l2) := f m.1 in (b, m.2 ++ l2).

(** A computation of the cluster side, run as part of a job. *)
Definition cluster {A} (m : M A) : Job A := (m.1, inl <$> m.2).

Definition hostRequest {A} (c : HostCall) (answer : A) : Job A :=
  (answer, [inr c]).

(** The value a job returns and the requests it made. *)
Definition outcome {A} (m : Job A) : A := m.1.
Definition events {A} (m : Job A) : list Event := m.2.

Notation "'let+' x ':=' m 'in' k" := (bindJob m (fun x => k))
  (at level 10, x name, m at level 100, k at level 200) : go_scope.
Notation "'let+' ' pat ':=' m 'in' k" :=
  (bindJob m (fun x => match x with pat => k end))
  (at level 10, pat pattern, m at level 100, k at level 200) : go_scope.

(** How a call of [RunBootJob] ends: it returns, it dereferences a nil
    [requirements], or its log-tailing loop is still going. *)
Inductive JobResult :=
| Returned (err : option error)
| Panicked
| StillTailing.

(** ** Package run: the boot Job runner *)

Module run.
Section run.

Context (w : World).

(** The [HelmBootOptions] struct, with the fields of the embedded
    [boot.BootOptions] that are read here; [JXFactory] and [Gitter] are the
    [World]. *)
Record HelmBootOptions := {
  Dir : string;
  GitURL : string;
  BatchMode : bool;
  JobMode : bool;
}.

Definition FindGitConfigDir (dir : string)
  : M (string * string * option error) :=
  request (CallFindGitConfigDir dir) (world_FindGitConfigDir w dir).

Definition DiscoverUpstreamGitURL (gitConfDir : string)
  : M (string * option error) :=
  request (CallDiscoverUpstreamGitURL gitConfDir)
          (world_DiscoverUpstreamGitURL w gitConfDir).

Definition WaitForReadyPodForSelectorLabels (attempt : nat) (ns : string)
  : M (string * option error) :=
  request (CallWaitForReadyPodForSelectorLabels ns)
          (world_WaitForReadyPodForSelectorLabels w attempt ns).

Definition TailLogs (attempt : nat) (ns pod containerName : string)
  : M (option error) :=
  request (CallTailLogs ns pod containerName)
          (world_TailLogs w attempt ns pod containerName).

Definition findGitURLFromDir (o : HelmBootOptions) : M (string * option error) :=
  let dir := Dir o in
  let* '(_, gitConfDir, err) := FindGitConfigDir dir in
  match err with
  | Some e =>
      ret ("", Some (Wrap e ("there was a problem obtaining the git config dir of directory "
                               +:+ dir)))
  | None =>
      if decide (gitConfDir = "") then
        ret ("", Some (Errorf ("no .git directory could be found from dir "
                                 +:+ dir)))
      else DiscoverUpstreamGitURL gitConfDir
  end.

(** findRequirementsAndGitURL tries to find the current boot configuration
    from the cluster *)
Definition findRequirementsAndGitURL (o : HelmBootOptions)
  : M (option RequirementsConfig * string * option error) :=
  let requirements : option RequirementsConfig := None in
  let gitURL := "" in
  let* '(ns, err) := CreateJXClient w in
  match err with
  | Some e => ret (requirements, gitURL, Some e)
  | None =>
      let* '(devEnv, err) := GetDevEnvironment w ns in
      match notFoundIsNil err with
      | Some e => ret (requirements, gitURL, Some e)
      | None =>
          let* '(requirements, gitURL) :=
            match devEnv with
            | Some d =>
                let gitURL := SourceURL d in
                let* '(requirements, err) :=
                  GetRequirementsConfigFromTeamSettings w (Settings d) in
                match err with
                | Some e =>
                    let* _ := Debugf ("failed to load requirements from team settings "
                                        +:+ Error e) in
                    ret (requirements, gitURL)
                | None => ret (requirements, gitURL)
                end
            | None => ret (requirements, gitURL)
            end in
          let gitURL := if decide (GitURL o ≠ "") then GitURL o else gitURL in
          let* '(requirements, err) :=
            match requirements with
            | None =>
                let* '(requirements, _, err) :=
                  LoadRequirementsConfig w (Dir o) in
                ret (requirements, err)
            | Some _ => ret (requirements, None)
            end in
          match err with
          | Some e => ret (requirements, gitURL, Some e)
          | None =>
              if decide (gitURL = "") then
                (* lets try find the git URL from *)
                let* '(gitURL, err) := findGitURLFromDir o in
                match err with
                | Some e => ret (requirements, gitURL, Some e)
                | None => ret (requirements, gitURL, None)
                end
              else ret (requirements, gitURL, None)
          end
      end
  end.

(** How one pass through the body of the [for] loop of [tailJobLogs] ends:
    with a [return], or at the bottom of the body, from where the loop goes
    round again.  Either way the value of the variable [err] is kept. *)
Inductive LoopStep :=
| Return (err : option error)
| Again (err : option error).

Definition tailJobLogsBody (attempt : nat) (ns : string) (err : option error)
  : M LoopStep :=
  let containerName := "boot" in
  match err with
  | Some e => ret (Return (Some e))
  | None =>
      let* '(pod, err) := WaitForReadyPodForSelectorLabels attempt ns in
      match err with
      | Some e => ret (Return (Some e))
      | None =>
          if decide (pod = "") then
            ret (Return (Some (Errorf ("No pod found for namespace " +:+ ns
                                         +:+ " with selector map[job-name:jx-boot]"))))
          else
            let* err := TailLogs attempt ns pod containerName in
            match err with
            | Some _ => ret (Return None)
            | None => ret (Again err)
            end
      end
  end.

(** The [for] loop, run for at most [fuel] passes: [None] when the loop is
    still going after them. *)
Fixpoint tailJobLogsLoop (fuel attempt : nat) (ns : string)
  (err : option error) : M (option (option error)) :=
  match fuel with
  | O => ret None
  | S fuel =>
      let* step := tailJobLogsBody attempt ns err in
      match step with
      | Return r => ret (Some r)
      | Again err => tailJobLogsLoop fuel (S attempt) ns err
      end
  end.

Definition tailJobLogs (fuel : nat) : M (option (option error)) :=
  let* '(ns, err) := CreateKubeClient w in
  match err with
  | Some e => ret (Some (Some e))
  | None => tailJobLogsLoop fuel 0 ns err
  end.

Context (h : Host).

Definition TempDir (dir pattern : string) : Job (string * option error) :=
  hostRequest (CallTempDir dir pattern) (host_TempDir h dir pattern).

Definition Clone (url dir : string) : Job (option error) :=
  hostRequest (CallClone url dir) (host_Clone h url dir).

Definition RunWithoutRetry (command : Command) : Job (string * option error) :=
  hostRequest (CallRunWithoutRetry command) (host_RunWithoutRetry h command).

(** The loop of [hasHelmRelease] over the lines of [helm list --short]. *)
Fixpoint hasLine (releaseName : string) (lines : list string) : bool :=
  match lines with
  | [] => false
  | line :: lines =>
      if decide (world_TrimSpace w line = releaseName) then true
      else hasLine releaseName lines
  end.

Definition hasHelmRelease (releaseName : string) : Job (bool * option error) :=
  let c := {| CommandDir := ""; CommandName := "helm";
              CommandArgs := ["list"; "--short"] |} in
  let+ '(text, err) := RunWithoutRetry c in
  match err with
  | Some e => retJob (false, Some (Wrap e "failed to run: helm list"))
  | None =>
      let lines := Split (world_TrimSpace w text) "010" in
      retJob (hasLine releaseName lines, None)
  end.

(** RunBootJob runs the boot installer Job; its log-tailing loop is given
    [fuel] passes. *)
Definition RunBootJob (fuel : nat) (o : HelmBootOptions) : Job JobResult :=
  let+ '(requirements, gitURL, err) := cluster (findRequirementsAndGitURL o) in
  match err with
  | Some e => retJob (Returned (Some e))
  | None =>
  if decide (gitURL = "") then retJob (Returned (Some (MissingOption w "git-url")))
  else
  match requirements with
  | None => retJob Panicked
  | Some requirements =>
  let clusterName := ClusterName (Cluster requirements) in
  let+ _ := cluster (Infof ("running helmboot Job for cluster "
                              +:+ world_ColorInfo w clusterName
                              +:+ " with git URL "
                              +:+ world_ColorInfo w gitURL)) in
  let+ '(tempDir, err) := TempDir "" "jx-boot-" in
  match err with
  | Some e => retJob (Returned (Some (Wrap e "failed to create temp dir")))
  | None =>
  let installerGitURL :=
    "https://github.com/jenkins-x-labs/jenkins-x-installer.git" in
  let+ _ := cluster (Infof ("cloning " +:+ installerGitURL +:+ " to "
                              +:+ tempDir)) in
  let+ err := Clone installerGitURL tempDir in
  match err with
  | Some e =>
      retJob (Returned (Some (Wrap e ("failed to git clone " +:+ installerGitURL
                                        +:+ " to dir " +:+ tempDir))))
  | None =>
  let+ '(flag, err) := hasHelmRelease "jx-boot" in
  match err with
  | Some e => retJob (Returned (Some e))
  | None =>
  let+ err :=
    if flag then
      let+ _ := cluster (Infof "uninstalling old jx-boot chart ...") in
      let c := {| CommandDir := tempDir; CommandName := "helm";
                  CommandArgs := ["uninstall"; "jx-boot"] |} in
      let+ '(_, err) := RunWithoutRetry c in
      retJob err
    else retJob None in
  match err with
  | Some e => retJob (Returned (Some (Wrap e "failed to remove old jx-boot chart")))
  | None =>
  let c := host_GetBootJobCommand h requirements gitURL in
  let c := {| CommandDir := tempDir; CommandName := CommandName c;
              CommandArgs := CommandArgs c |} in
  let commandLine :=
    CommandName c +:+ " " +:+ String.concat " " (CommandArgs c) in
  let+ _ := cluster (Infof ("running the command:

" +:+ world_ColorInfo w commandLine +:+ "

")) in
  let+ '(_, err) := RunWithoutRetry c in
  match err with
  | Some e =>
      retJob (Returned (Some (Wrap e ("failed to run command "
                                        +:+ commandLine))))
  | None =>
  let+ tailed := cluster (tailJobLogs fuel) in
  match tailed with
  | Some err => retJob (Returned err)
  | None => retJob StillTailing
  end end end end end end end end.

End run.
End run.

(** ** Sample clusters

    Concrete constants and worlds on which the definitions above are run. *)

(** The two kinds are named as the spec names them; the secret name, its
    raw-YAML key, the provider tag and the file mode (0644) are sample
    values. *)
Definition sampleConstants : Constants := {|
  KindLocal := "local";
  KindGoogleSecretManager := "google-secret-manager";
  LocalSecret := "jx-boot-secrets";
  LocalSecretKey := "secrets.yaml";
  GKE := "gke";
  DefaultFileWritePermissions := 420;
|}.

(** White space of the ASCII range, on which this trimming agrees with
    [strings.TrimSpace]. *)
Definition asciiSpace (ch : ascii) : bool :=
  let n := nat_of_ascii ch in
  bool_decide (n = 32) || (bool_decide (9 ≤ n) && bool_decide (n ≤ 13)).

Fixpoint trimLeft (s : string) : string :=
  match s with
  | EmptyString => EmptyString
  | String ch rest => if asciiSpace ch then trimLeft rest else s
  end.

Definition trimSpaceASCII (s : string) : string :=
  String.rev (trimLeft (String.rev (trimLeft s))).

(** A plain rendering of a tree as block YAML, [fuel] levels deep. *)
Fixpoint renderYAML (fuel : nat) (indent : string) (m : gmap string Value)
  : string :=
  match fuel with
  | O => ""
  | S fuel =>
      foldr (λ kv rest,
               match kv.2 with
               | VString s => indent +:+ kv.1 +:+ ": " +:+ s +:+ "
" +:+ rest
               | VMap child =>
                   indent +:+ kv.1 +:+ ":
" +:+ renderYAML fuel ("  " +:+ indent) child +:+ rest
               end)
            "" (map_to_list m)
  end.

Definition sampleMarshal (values : Value) : list byte * option error :=
  match values with
  | VString s => (list_byte_of_string s, None)
  | VMap m => (list_byte_of_string (renderYAML 16 "" m), None)
  end.

(** The error the API server gives for an object that does not exist, and
    one it gives when the request is refused. *)
Definition notFound (name : string) : error :=
  StatusError StatusReasonNotFound (name +:+ " not found").

Definition forbidden (name : string) : error :=
  StatusError (StatusReasonOther "Forbidden") (name +:+ " is forbidden").

(** Secrets of the cluster, by name. *)
Definition secretsOf (secrets : gmap string Secret) (ns name : string)
  : Secret * option error :=
  match secrets !! name with
  | Some s => (s, None)
  | None => ({| Data := ∅ |}, Some (notFound name))
  end.

(** A world made of: the namespace of the cluster, its secrets, its 'dev'
    environment, the parser of team settings, the requirements files by
    directory, the files on disk, the process environment, and what pod
    discovery and log tailing answer on each attempt. *)
Definition sampleWorld
  (ns : string)
  (secretsGet : string → string → Secret * option error)
  (dev : option Environment * option error)
  (parse : TeamSettings → option RequirementsConfig * option error)
  (requirementsFiles : gmap string RequirementsConfig)
  (files : gmap string (list byte))
  (env : gmap string string)
  (waitForPod : nat → string * option error)
  (tail : nat → option error) : World := {|
  SecretManager := string;
  world_CreateKubeClient := (ns, None);
  world_CreateJXClient := (ns, None);
  world_SecretsGet := secretsGet;
  world_GetDevEnvironment := λ _, dev;
  world_GetRequirementsConfigFromTeamSettings := parse;
  world_LoadRequirementsConfig := λ dir,
    match requirementsFiles !! dir with
    | Some req => (Some req, dir +:+ "/jx-requirements.yml", None)
    | None => (None, "", Some (errorString "jx-requirements.yml file not found"))
    end;
  world_NewSecretManager := λ kind _, (Some kind, None);
  world_Getenv := λ name, default "" (env !! name);
  world_FileExists := λ f, (bool_decide (is_Some (files !! f)), None);
  world_ReadFile := λ f,
    match files !! f with
    | Some data => (data, None)
    | None => ([], Some (errorString ("open " +:+ f +:+ ": no such file or directory")))
    end;
  world_WriteFile := λ _ _ _, None;
  world_Marshal := sampleMarshal;
  world_RangeOrder := map_to_list;
  world_TrimSpace := trimSpaceASCII;
  world_ColorInfo := λ s, s;
  world_FindGitConfigDir := λ dir, (dir, dir +:+ "/.git", None);
  world_DiscoverUpstreamGitURL := λ _, ("https://github.com/acme/environment-dev.git", None);
  world_WaitForReadyPodForSelectorLabels := λ attempt _, waitForPod attempt;
  world_TailLogs := λ attempt _ _ _, tail attempt;
|}.

Definition gkeRequirements : RequirementsConfig :=
  {| Cluster := {| Provider := "gke"; ClusterName := "prod" |} |}.

Definition eksRequirements : RequirementsConfig :=
  {| Cluster := {| Provider := "eks"; ClusterName := "prod" |} |}.

Definition noParse (settings : TeamSettings)
  : option RequirementsConfig * option error := (None, None).

(** A cluster without secrets and without a 'dev' environment. *)
Definition freshCluster : World :=
  sampleWorld "jx" (secretsOf ∅) (None, Some (notFound "dev")) noParse
              ∅ ∅ ∅ (λ _, ("", None)) (λ _, None).

(** A cluster that holds the marker secret. *)
Definition bootedCluster : World :=
  sampleWorld "jx"
    (secretsOf {[ "jx-boot-secrets" :=
                    {| Data := {[ "adminUser.password" :=
                                    list_byte_of_string "s3cret" ]} |} ]})
    (None, Some (notFound "dev")) noParse
    ∅ ∅ ∅ (λ _, ("", None)) (λ _, None).

(** A cluster whose API server refuses to show secrets. *)
Definition lockedCluster : World :=
  sampleWorld "jx" (λ _ name, ({| Data := ∅ |}, Some (forbidden name)))
              (None, Some (notFound "dev")) noParse
              {[ "." := gkeRequirements ]} ∅ ∅ (λ _, ("", None)) (λ _, None).

Definition devEnvironment : Environment :=
  {| SourceURL := "https://github.com/acme/environment-dev.git";
     Settings := {| BootRequirements := "cluster: [" |} |}.

Definition parseFailure : error :=
  errorString "failed to unmarshal requirements from team settings".

(** A cluster whose 'dev' environment carries boot requirements that do not
    parse (the parser gives no document), while the current directory holds
    a requirements file. *)
Definition brokenDevCluster : World :=
  sampleWorld "jx" (secretsOf ∅) (Some devEnvironment, None)
              (λ _, (None, Some parseFailure))
              {[ "." := gkeRequirements ]} ∅ ∅ (λ _, ("", None)) (λ _, None).

Definition podGone : error :=
  errorString "timed out waiting for a ready pod".

(** A boot Job whose pod is ready once: its log stream ends without an
    error, and no pod is ready afterwards. *)
Definition finishedJob : World :=
  sampleWorld "jx" (secretsOf ∅) (None, Some (notFound "dev")) noParse ∅ ∅ ∅
              (λ attempt, match attempt with
                          | O => ("jx-boot-x7k2p", None)
                          | S _ => ("", Some podGone)
                          end)
              (λ _, None).

(** A boot Job whose log stream cannot be followed. *)
Definition unreadableJob : World :=
  sampleWorld "jx" (secretsOf ∅) (None, Some (notFound "dev")) noParse ∅ ∅ ∅
              (λ _, ("jx-boot-x7k2p", None))
              (λ _, Some (errorString "exec: kubectl: executable file not found")).

(** A machine on which [JXL_SECRET_FILE] names a file that holds a comment
    and blank lines only, and [JX_SECRETS_YAML] names the output file. *)
Definition commentsOnlyFile : World :=
  sampleWorld "jx" (secretsOf ∅) (None, Some (notFound "dev")) noParse ∅
    {[ "/secrets/boot" := list_byte_of_string "# no secrets yet

   " ]}
    {[ "JXL_SECRET_FILE" := "/secrets/boot";
       "JX_SECRETS_YAML" := "/tmp/secrets.yaml" ]}
    (λ _, ("", None)) (λ _, None).

(** A machine on which [JXL_SECRET_FILE] names a file that is not there. *)
Definition missingFile : World :=
  sampleWorld "jx" (secretsOf ∅) (None, Some (notFound "dev")) noParse ∅ ∅
    {[ "JXL_SECRET_FILE" := "/secrets/boot";
       "JX_SECRETS_YAML" := "/tmp/secrets.yaml" ]}
    (λ _, ("", None)) (λ _, None).

(** A cluster whose marker secret has no data. *)
Definition emptySecretCluster : World :=
  sampleWorld "jx" (secretsOf {[ "jx-boot-secrets" := {| Data := ∅ |} ]})
    (None, Some (notFound "dev")) noParse ∅ ∅
    {[ "JX_SECRETS_YAML" := "/tmp/secrets.yaml" ]}
    (λ _, ("", None)) (λ _, None).

(** A machine whose secret file holds two entries. *)
Definition secretsFile : World :=
  sampleWorld "jx" (secretsOf ∅) (None, Some (notFound "dev")) noParse ∅
    {[ "/secrets/boot" := list_byte_of_string "# boot secrets
adminUser.password: s3cret
  pipelineUser.token : abc:def
not an entry" ]}
    {[ "JXL_SECRET_FILE" := "/secrets/boot";
       "JX_SECRETS_YAML" := "/tmp/secrets.yaml" ]}
    (λ _, ("", None)) (λ _, None).

Definition yamlOptions : secrets.YAMLOptions :=
  {| secrets.SecretName := ""; secrets.SecretFile := ""; secrets.OutFile := "";
     secrets.BatchMode := true; secrets.Verbose := false |}.

(** ** More sample clusters and machines *)

(** The same world, except that no client can be created. *)
Definition withoutClients (w : World) (e : error) : World := {|
  SecretManager := SecretManager w;
  world_CreateKubeClient := ("", Some e);
  world_CreateJXClient := ("", Some e);
  world_SecretsGet := world_SecretsGet w;
  world_GetDevEnvironment := world_GetDevEnvironment w;
  world_GetRequirementsConfigFromTeamSettings :=
    world_GetRequirementsConfigFromTeamSettings w;
  world_LoadRequirementsConfig := world_LoadRequirementsConfig w;
  world_NewSecretManager := world_NewSecretManager w;
  world_Getenv := world_Getenv w;
  world_FileExists := world_FileExists w;
  world_ReadFile := world_ReadFile w;
  world_WriteFile := world_WriteFile w;
  world_Marshal := world_Marshal w;
  world_RangeOrder := world_RangeOrder w;
  world_TrimSpace := world_TrimSpace w;
  world_ColorInfo := world_ColorInfo w;
  world_FindGitConfigDir := world_FindGitConfigDir w;
  world_DiscoverUpstreamGitURL := world_DiscoverUpstreamGitURL w;
  world_WaitForReadyPodForSelectorLabels :=
    world_WaitForReadyPodForSelectorLabels w;
  world_TailLogs := world_TailLogs w;
|}.

Definition noKubeConfig : error :=
  errorString "invalid configuration: no configuration has been provided".

(** A machine without access to any cluster, whose secret file holds two
    entries. *)
Definition offline : World := withoutClients secretsFile noKubeConfig.

(** A parser of team settings that accepts them. *)
Definition parseAsGKE (settings : TeamSettings)
  : option RequirementsConfig * option error := (Some gkeRequirements, None).

(** A booted cluster: its 'dev' environment carries requirements that
    parse, its marker secret exists, and the current directory holds a
    different requirements file. *)
Definition devCluster : World :=
  sampleWorld "jx"
    (secretsOf {[ "jx-boot-secrets" :=
                    {| Data := {[ "adminUser.password" :=
                                    list_byte_of_string "s3cret" ]} |} ]})
    (Some devEnvironment, None) parseAsGKE
    {[ "." := eksRequirements ]} ∅
    {[ "JX_SECRETS_YAML" := "/tmp/secrets.yaml" ]}
    (λ _, ("jx-boot-x7k2p", None)) (λ _, None).

(** A cluster whose API server refuses to show the 'dev' environment. *)
Definition guardedCluster : World :=
  sampleWorld "jx" (secretsOf ∅) (None, Some (forbidden "dev")) noParse
              {[ "." := gkeRequirements ]} ∅ ∅ (λ _, ("", None)) (λ _, None).

(** A cluster without a 'dev' environment, seen from a checkout that holds
    a requirements file. *)
Definition checkout : World :=
  sampleWorld "jx" (secretsOf ∅) (None, Some (notFound "dev")) noParse
              {[ "." := gkeRequirements ]} ∅ ∅
              (λ _, ("jx-boot-x7k2p", None)) (λ _, None).

(** A cluster in which no pod of the boot Job is found. *)
Definition noPodJob : World :=
  sampleWorld "jx" (secretsOf ∅) (None, Some (notFound "dev")) noParse ∅ ∅ ∅
              (λ _, ("", None)) (λ _, None).

(** The command that installs the boot Job, as a sample. *)
Definition bootJobCommand (requirements : RequirementsConfig)
  (gitURL : string) : Command :=
  {| CommandDir := "";
     CommandName := "helm";
     CommandArgs := ["install"; "jx-boot"; "--set";
                     "boot.clusterName=" +:+ ClusterName (Cluster requirements);
                     "--set"; "boot.bootGitURL=" +:+ gitURL; "."] |}.

(** A machine on which [helm list --short] prints [releases] and on which
    the commands chosen by [fails] exit with an error. *)
Definition sampleHost (releases : string) (fails : Command → bool) : Host := {|
  host_TempDir := λ _ pattern, ("/tmp/" +:+ pattern +:+ "402911", None);
  host_Clone := λ _ _, None;
  host_RunWithoutRetry := λ command,
    if fails command then ("", Some (errorString "exit status 1"))
    else if decide (CommandArgs command = ["list"; "--short"])
         then (releases, None)
         else ("", None);
  host_GetBootJobCommand := bootJobCommand;
|}.

(** A machine without helm releases, and one that has an old boot chart. *)
Definition cleanHost : Host := sampleHost "" (λ _, false).

Definition upgradedHost : Host :=
  sampleHost "jenkins
jx-boot
" (λ _, false).

Definition bootOptions : run.HelmBootOptions :=
  {| run.Dir := "."; run.GitURL := ""; run.BatchMode := true;
     run.JobMode := true |}.

(** The calls to the machine in a log, in order. *)
Definition hostCalls (log : list Event) : list HostCall :=
  omap (λ e, match e with inr c => Some c | inl _ => None end) log.

Arguments hostCalls : simpl never.

(** The entry a line of a secret file stands for, if any: what the body of
    the loop of [loadSecretFile] inserts. *)
Definition entryOf (w : World) (l : string) : option (string * list byte) :=
  let line := world_TrimSpace w l in
  if bool_decide (line = "") || HasPrefix line "#" then None
  else
    match cut line ":" with
    | Some (key, value) =>
        Some (world_TrimSpace w key,
              list_byte_of_string (world_TrimSpace w value))
    | None => None
    end.

(** ** The steps of [YAMLOptions.Run], one by one *)

Section RunSteps.

Context (c : Constants) (w : World).

(** The secret file that [Run] uses: the option, or else
    [JXL_SECRET_FILE]. *)
Definition secretFileOf (o : secrets.YAMLOptions) : string :=
  if decide (secrets.SecretFile o = "") then world_Getenv w "JXL_SECRET_FILE"
  else secrets.SecretFile o.

(** The name of the Secret that [Run] reads: the option, or else
    [JXL_SECRET_NAME], or else [LocalSecret]. *)
Definition secretNameOf (o : secrets.YAMLOptions) : string :=
  let secretName :=
    if decide (secrets.SecretName o = "") then world_Getenv w "JXL_SECRET_NAME"
    else secrets.SecretName o in
  if decide (secretName = "") then LocalSecret c else secretName.

(** The file that [Run] writes: the option, or else [JX_SECRETS_YAML]. *)
Definition outFileOf (o : secrets.YAMLOptions) : string :=
  if decide (secrets.OutFile o = "") then world_Getenv w "JX_SECRETS_YAML"
  else secrets.OutFile o.

(** Lines 174-177 of [Run]. *)
Definition chooseSecretFile (o : secrets.YAMLOptions) : M string :=
  if decide (secrets.SecretFile o = "") then Getenv w "JXL_SECRET_FILE"
  else ret (secrets.SecretFile o).

(** Lines 181-187 of [Run]: the data of a secret file. *)
Definition dataFromFile (secretFile : string)
  : M (gmap string (list byte) * option error) :=
  let* '(data, err) := secrets.loadSecretFile w secretFile in
  match err with
  | Some e => ret (data, Some e)
  | None =>
      if decide (size data = 0) then
        ret (data, Some (Errorf ("no data for secret file " +:+ secretFile)))
      else ret (data, None)
  end.

(** Lines 189-207 of [Run]: the data of a Secret of the cluster. *)
Definition dataFromCluster (o : secrets.YAMLOptions) (ns : string)
  : M (gmap string (list byte) * option error) :=
  let* secretName :=
    if decide (secrets.SecretName o = "") then Getenv w "JXL_SECRET_NAME"
    else ret (secrets.SecretName o) in
  let secretName :=
    if decide (secretName = "") then LocalSecret c else secretName in
  let* '(secret, err) := SecretsGet w ns secretName in
  match err with
  | Some e =>
      if IsNotFound e then
        ret (∅, Some (Errorf ("could not read Secret " +:+ secretName
                                +:+ " in namespace " +:+ ns)))
      else
        ret (∅, Some (Wrap e ("failed to read Secret " +:+ secretName
                                +:+ " in namespace " +:+ ns)))
  | None =>
      let data := Data secret in
      if decide (size data = 0) then
        ret (data, Some (Errorf ("no data for Secret " +:+ secretName
                                   +:+ " in namespace " +:+ ns)))
      else ret (data, None)
  end.

(** Lines 210-212 of [Run]. *)
Definition chooseOutFile (o : secrets.YAMLOptions) : M secrets.YAMLOptions :=
  if decide (secrets.OutFile o = "") then
    let* out := Getenv w "JX_SECRETS_YAML" in
    ret {| secrets.SecretName := secrets.SecretName o;
           secrets.SecretFile := secrets.SecretFile o;
           secrets.OutFile := out;
           secrets.BatchMode := secrets.BatchMode o;
           secrets.Verbose := secrets.Verbose o |}
  else ret o.

(** [Run], put together from its steps. *)
Definition runSteps (o : secrets.YAMLOptions)
  : M (secrets.YAMLOptions * option error) :=
  let* '(ns, err) := CreateKubeClient w in
  match err with
  | Some e => ret (o, Some e)
  | None =>
      let* secretFile := chooseSecretFile o in
      let* '(data, err) :=
        if decide (secretFile ≠ "") then dataFromFile secretFile
        else dataFromCluster o ns in
      match err with
      | Some e => ret (o, Some e)
      | None =>
          let* o := chooseOutFile o in
          if decide (secrets.OutFile o = "") then
            ret (o, Some (MissingOption w "out"))
          else
            let* err := secrets.generateSecretsYAML c w (secrets.OutFile o) data in
            ret (o, err)
      end
  end.

End RunSteps.

(** The same world, except for what loading the requirements file and
    discovering the upstream git URL answer. *)
Definition withCheckout (w : World)
  (load : string → option RequirementsConfig * string * option error)
  (discover : string → string * option error) : World := {|
  SecretManager := SecretManager w;
  world_CreateKubeClient := world_CreateKubeClient w;
  world_CreateJXClient := world_CreateJXClient w;
  world_SecretsGet := world_SecretsGet w;
  world_GetDevEnvironment := world_GetDevEnvironment w;
  world_GetRequirementsConfigFromTeamSettings :=
    world_GetRequirementsConfigFromTeamSettings w;
  world_LoadRequirementsConfig := load;
  world_NewSecretManager := world_NewSecretManager w;
  world_Getenv := world_Getenv w;
  world_FileExists := world_FileExists w;
  world_ReadFile := world_ReadFile w;
  world_WriteFile := world_WriteFile w;
  world_Marshal := world_Marshal w;
  world_RangeOrder := world_RangeOrder w;
  world_TrimSpace := world_TrimSpace w;
  world_ColorInfo := world_ColorInfo w;
  world_FindGitConfigDir := world_FindGitConfigDir w;
  world_DiscoverUpstreamGitURL := discover;
  world_WaitForReadyPodForSelectorLabels :=
    world_WaitForReadyPodForSelectorLabels w;
  world_TailLogs := world_TailLogs w;
|}.

(** A checkout whose git configuration names no upstream. *)
Definition noUpstream : World :=
  withCheckout checkout (world_LoadRequirementsConfig checkout)
               (λ _, ("", None)).

(** A cluster whose 'dev' environment names its source but carries no
    requirements, seen from a directory for which loading the requirements
    file gives neither a document nor an error. *)
Definition noRequirements : World :=
  withCheckout
    (sampleWorld "jx" (secretsOf ∅) (Some devEnvironment, None) noParse
                 ∅ ∅ ∅ (λ _, ("", None)) (λ _, None))
    (λ _, (None, "", None))
    (λ _, ("", None)).

(** ** The nested document, specified *)

(** Two paths of which one runs through the other (or that are equal). *)
Definition comparable (p q : list string) : Prop :=
  p `prefix_of` q ∨ q `prefix_of` p.

(** What a nested map holds at a path: a string, or a map. *)
Definition leafAt (m : gmap string Value) (p : list string) (s : string)
  : Prop :=
  lookupPath p m = Some (VString s).

Definition mapAt (m : gmap string Value) (p : list string) : Prop :=
  ∃ child, lookupPath p m = Some (VMap child).

(** An entry with path [p] and value [v] is kept by a visiting order when
    it is visited and no entry visited after it has a path comparable to
    [p]. *)
Definition kept (entries : list (string * list byte)) (p : list string)
  (v : list byte) : Prop :=
  ∃ before k after,
    entries = before ++ (k, v) :: after
    ∧ Split k "." = p
    ∧ Forall (λ kv, ¬ comparable p (Split kv.1 ".")) after.

(** [secrets] is the expansion of the entries in their visiting order: its
    strings are the values of the kept entries, at their paths, and its maps
    are what lies on the way to a kept entry. *)
Definition expansionOf (entries : list (string * list byte))
  (secrets : gmap string Value) : Prop :=
  (∀ p s, leafAt secrets p s
          ↔ ∃ v, kept entries p v ∧ s = string_of_list_byte v)
  ∧ (∀ p, mapAt secrets p
          ↔ p ≠ [] ∧ ∃ v more, kept entries (p ++ more) v ∧ more ≠ []).

(** [secrets] is the nested document of the data, whatever the order: its
    strings are the values of the data, each at the dotted path of its key,
    and its maps are what lies on the way to a key (key [a.b.c] with value
    [v] gives [a: {b: {c: v}}]). *)
Definition nestedOf (secretData : gmap string (list byte))
  (secrets : gmap string Value) : Prop :=
  (∀ p s, leafAt secrets p s
          ↔ ∃ k v, secretData !! k = Some v ∧ Split k "." = p
                   ∧ s = string_of_list_byte v)
  ∧ (∀ p, mapAt secrets p
          ↔ p ≠ [] ∧ ∃ k more, is_Some (secretData !! k)
                               ∧ Split k "." = p ++ more ∧ more ≠ []).

(** The number of strings and maps in a value. *)
Fixpoint valueSize (v : Value) : nat :=
  match v with
  | VString _ => 1
  | VMap m => S (map_fold (λ _ v' n, valueSize v' + n) 0 m)
  end.

(** The writes to files in a log, in order. *)
Definition fileWrites (log : list Call) : list (string * list byte * Z) :=
  omap (λ call, match call with
                | CallWriteFile fileName data perm => Some (fileName, data, perm)
                | _ => None
                end) log.

Arguments fileWrites : simpl never.

(** The same world on a terminal with colours: [util.ColorInfo] wraps its
    text in the escape codes for green. *)
Definition coloured (w : World) : World := {|
  SecretManager := SecretManager w;
  world_CreateKubeClient := world_CreateKubeClient w;
  world_CreateJXClient := world_CreateJXClient w;
  world_SecretsGet := world_SecretsGet w;
  world_GetDevEnvironment := world_GetDevEnvironment w;
  world_GetRequirementsConfigFromTeamSettings :=
    world_GetRequirementsConfigFromTeamSettings w;
  world_LoadRequirementsConfig := world_LoadRequirementsConfig w;
  world_NewSecretManager := world_NewSecretManager w;
  world_Getenv := world_Getenv w;
  world_FileExists := world_FileExists w;
  world_ReadFile := world_ReadFile w;
  world_WriteFile := world_WriteFile w;
  world_Marshal := world_Marshal w;
  world_RangeOrder := world_RangeOrder w;
  world_TrimSpace := world_TrimSpace w;
  world_ColorInfo := λ s,
    String (ascii_of_nat 27) "[32m" +:+ s +:+ String (ascii_of_nat 27) "[0m";
  world_FindGitConfigDir := world_FindGitConfigDir w;
  world_DiscoverUpstreamGitURL := world_DiscoverUpstreamGitURL w;
  world_WaitForReadyPodForSelectorLabels :=
    world_WaitForReadyPodForSelectorLabels w;
  world_TailLogs := world_TailLogs w;
|}.

(** * Properties *)

(** ** The logging computation *)

Lemma bind_result {A B} (m : M A) (f : A → M B) :
  result (bind m f) = result (f (result m)).
Proof. unfold bind, result. by destruct (f m.1). Qed.

Lemma bind_calls {A B} (m : M A) (f : A → M B) :
  calls (bind m f) = calls m ++ calls (f (result m)).
Proof. unfold bind, calls, result. by destruct (f m.1). Qed.

(** Membership of a request in an explicit log. *)
Ltac in_calls :=
  solve [unfold calls, ret in *; cbn [fst snd] in *;
         repeat first [rewrite elem_of_app | rewrite elem_of_cons
                      | rewrite elem_of_nil];
         intuition (subst; eauto; congruence)].

(** ** Kind resolution *)

(** Which requests [resolveKind] makes. *)
Lemma resolveKind_calls c w requirements call :
  call ∈ calls (factory.resolveKind c w requirements) →
  call = CallCreateKubeClient ∨ ∃ ns name, call = CallSecretsGet ns name.
Proof.
  unfold factory.resolveKind. case_decide; [|by intros ?%elem_of_nil].
  unfold CreateKubeClient, SecretsGet, bind, request; cbn.
  destruct (world_CreateKubeClient w) as [ns [e|]]; cbn.
  - in_calls.
  - destruct (world_SecretsGet w ns (LocalSecret c)) as [s [e|]]; cbn;
      [destruct (IsNotFound e); cbn|];
      in_calls.
Qed.

(** Which requests [resolveRequirements] makes. *)
Lemma resolveRequirements_calls w r call :
  call ∈ calls (factory.resolveRequirements w r) →
  call = CallCreateJXClient
  ∨ (∃ ns, call = CallGetDevEnvironment ns)
  ∨ (∃ settings, call = CallGetRequirementsConfigFromTeamSettings settings)
  ∨ (∃ dir, call = CallLoadRequirementsConfig dir).
Proof.
  unfold factory.resolveRequirements.
  unfold CreateJXClient, GetDevEnvironment, LoadRequirementsConfig,
    GetRequirementsConfigFromTeamSettings, bind, request; cbn.
  destruct (world_CreateJXClient w) as [ns [e|]]; cbn.
  { in_calls. }
  destruct (world_GetDevEnvironment w ns) as [dev err]; cbn.
  destruct (world_LoadRequirementsConfig w (factory.Dir r)) as [[req f] lerr].
  destruct (notFoundIsNil err); cbn.
  { in_calls. }
  destruct dev as [d|]; cbn.
  - destruct (world_GetRequirementsConfigFromTeamSettings w (Settings d))
      as [req' [e|]]; cbn; [|destruct req'; cbn]; try destruct lerr; cbn;
      in_calls.
  - destruct lerr; cbn; in_calls.
Qed.

(** A kind that [resolveKind] returns without an error is one of the two
    kinds. *)
Lemma resolveKind_kinds c w requirements kind :
  result (factory.resolveKind c w requirements) = (kind, None) →
  kind = KindLocal c ∨ kind = KindGoogleSecretManager c.
Proof.
  unfold factory.resolveKind. case_decide; [|cbn; by intros [= <-]; left].
  unfold CreateKubeClient, SecretsGet, bind, request, result; cbn.
  destruct (world_CreateKubeClient w) as [ns [e|]]; cbn; [by intros [=]|].
  destruct (world_SecretsGet w ns (LocalSecret c)) as [s [e|]]; cbn;
    [destruct (IsNotFound e); cbn|]; intros [=]; subst; auto.
Qed.

(** C1. For requirements whose provider is GKE, when the lookup of the
    marker secret (named [LocalSecret], in the namespace the Kubernetes
    client came with) reports "not found", [resolveKind] returns the Google
    secret-manager kind and no error. *)
Theorem resolveKind_gke_secret_not_found c w requirements ns e :
  Provider (Cluster requirements) = GKE c →
  world_CreateKubeClient w = (ns, None) →
  (world_SecretsGet w ns (LocalSecret c)).2 = Some e →
  IsNotFound e = true →
  factory.resolveKind c w requirements
  = ((KindGoogleSecretManager c, None),
     [CallCreateKubeClient; CallSecretsGet ns (LocalSecret c)]).
Proof.
  intros Hprovider Hclient Hget Hnf. unfold factory.resolveKind.
  rewrite decide_True by done.
  unfold CreateKubeClient, SecretsGet, bind, request. rewrite Hclient. cbn.
  destruct (world_SecretsGet w ns (LocalSecret c)) as [s err].
  cbn in *. subst err. by rewrite Hnf.
Qed.

Lemma resolveKind_gke_secret_not_found_witness :
  factory.resolveKind sampleConstants freshCluster gkeRequirements
  = (("google-secret-manager", None),
     [CallCreateKubeClient; CallSecretsGet "jx" "jx-boot-secrets"]).
Proof.
  apply (resolveKind_gke_secret_not_found sampleConstants freshCluster
           gkeRequirements "jx" (notFound "jx-boot-secrets"));
    reflexivity.
Defined.

(** C2. For requirements whose provider is GKE, when the lookup of the
    marker secret succeeds, [resolveKind] returns the local kind and no
    error. *)
Theorem resolveKind_gke_secret_exists c w requirements ns :
  Provider (Cluster requirements) = GKE c →
  world_CreateKubeClient w = (ns, None) →
  (world_SecretsGet w ns (LocalSecret c)).2 = None →
  factory.resolveKind c w requirements
  = ((KindLocal c, None),
     [CallCreateKubeClient; CallSecretsGet ns (LocalSecret c)]).
Proof.
  intros Hprovider Hclient Hget. unfold factory.resolveKind.
  rewrite decide_True by done.
  unfold CreateKubeClient, SecretsGet, bind, request. rewrite Hclient. cbn.
  destruct (world_SecretsGet w ns (LocalSecret c)) as [s err].
  cbn in *. by subst err.
Qed.

Lemma resolveKind_gke_secret_exists_witness :
  factory.resolveKind sampleConstants bootedCluster gkeRequirements
  = (("local", None),
     [CallCreateKubeClient; CallSecretsGet "jx" "jx-boot-secrets"]).
Proof.
  apply (resolveKind_gke_secret_exists sampleConstants bootedCluster
           gkeRequirements "jx"); reflexivity.
Defined.

(** C3. For requirements whose provider is not GKE, [resolveKind] returns
    the local kind and no error whatever the cluster holds, and makes no
    request at all: neither a client is created nor a secret looked up. *)
Theorem resolveKind_other_provider c w requirements :
  Provider (Cluster requirements) ≠ GKE c →
  factory.resolveKind c w requirements = ((KindLocal c, None), []).
Proof.
  intros Hprovider. unfold factory.resolveKind.
  by rewrite decide_False by done.
Qed.

Lemma resolveKind_other_provider_witness :
  factory.resolveKind sampleConstants bootedCluster eksRequirements
  = (("local", None), [])
  ∧ factory.resolveKind sampleConstants freshCluster eksRequirements
    = (("local", None), []).
Proof.
  split.
  - apply (resolveKind_other_provider sampleConstants bootedCluster
             eksRequirements). discriminate.
  - apply (resolveKind_other_provider sampleConstants freshCluster
             eksRequirements). discriminate.
Defined.

(** C9. For requirements whose provider is GKE, when the lookup of the
    marker secret fails with an error that is not "not found",
    [resolveKind] returns that error, wrapped, and the empty kind.
    [CreateSecretManager] then returns the same error and asks the factory
    for no secret manager: no kind is defaulted. *)
Theorem resolveKind_gke_lookup_error c w requirements ns e :
  Provider (Cluster requirements) = GKE c →
  world_CreateKubeClient w = (ns, None) →
  (world_SecretsGet w ns (LocalSecret c)).2 = Some e →
  IsNotFound e = false →
  let failure :=
    Wrap e ("failed to get Secret " +:+ LocalSecret c +:+ " in namespace "
              +:+ ns) in
  result (factory.resolveKind c w requirements) = ("", Some failure)
  ∧ Cause failure = Cause e
  ∧ ∀ r ns',
      factory.Kind r = "" →
      result (factory.resolveRequirements w r) = (Some requirements, ns', None) →
      (result (factory.CreateSecretManager c w r)).2 = (None, Some failure)
      ∧ ∀ kind req,
          CallNewSecretManager kind req
            ∉ calls (factory.CreateSecretManager c w r).
Proof.
  intros Hprovider Hclient Hget Hnf failure.
  assert (Hkind : factory.resolveKind c w requirements
                  = (("", Some failure),
                     [CallCreateKubeClient; CallSecretsGet ns (LocalSecret c)])).
  { unfold factory.resolveKind. rewrite decide_True by done.
    unfold CreateKubeClient, SecretsGet, bind, request. rewrite Hclient. cbn.
    destruct (world_SecretsGet w ns (LocalSecret c)) as [s err].
    cbn in *. subst err. by rewrite Hnf. }
  split; [by rewrite Hkind|]. split; [done|].
  intros r ns' Hempty Hreq. unfold factory.CreateSecretManager. split.
  - rewrite bind_result, Hreq. rewrite decide_True by done.
    by rewrite bind_result, Hkind.
  - intros kind req. rewrite bind_calls, Hreq. rewrite decide_True by done.
    rewrite bind_calls, Hkind. cbn.
    intros [Hin|Hin]%elem_of_app.
    + apply resolveRequirements_calls in Hin.
      destruct Hin as [?|[[? ?]|[[? ?]|[? ?]]]]; discriminate.
    + revert Hin. rewrite !elem_of_cons, elem_of_nil.
      intros [?|[?|[]]]; discriminate.
Qed.

Lemma resolveKind_gke_lookup_error_witness :
  result (factory.resolveKind sampleConstants lockedCluster gkeRequirements)
  = ("", Some (Wrap (forbidden "jx-boot-secrets")
                 "failed to get Secret jx-boot-secrets in namespace jx")).
Proof.
  apply (resolveKind_gke_lookup_error sampleConstants lockedCluster
           gkeRequirements "jx" (forbidden "jx-boot-secrets"));
    reflexivity.
Defined.

(** C10. With non-empty kind constants, a kind that [resolveKind] returns
    without an error is the local kind or the Google secret-manager kind,
    hence not empty, and the defaulting of an empty resolved kind in
    [CreateSecretManager] leaves it as it is; and every kind that
    [CreateSecretManager] passes to the factory is non-empty. *)
Theorem resolveKind_never_empty c w :
  KindLocal c ≠ "" →
  KindGoogleSecretManager c ≠ "" →
  (∀ requirements kind,
     result (factory.resolveKind c w requirements) = (kind, None) →
     (kind = KindLocal c ∨ kind = KindGoogleSecretManager c)
     ∧ kind ≠ ""
     ∧ factory.defaultKind c kind = kind)
  ∧ (∀ r kind requirements,
       CallNewSecretManager kind requirements
         ∈ calls (factory.CreateSecretManager c w r) →
       kind ≠ "").
Proof.
  intros Hlocal Hgsm.
  assert (Hres : ∀ requirements kind,
             result (factory.resolveKind c w requirements) = (kind, None) →
             (kind = KindLocal c ∨ kind = KindGoogleSecretManager c)
             ∧ kind ≠ "" ∧ factory.defaultKind c kind = kind).
  { intros requirements kind Hk.
    pose proof (resolveKind_kinds _ _ _ _ Hk) as Hcases.
    assert (kind ≠ "") by (destruct Hcases; congruence).
    unfold factory.defaultKind. by rewrite decide_False. }
  split; [exact Hres|].
  intros r kind requirements. unfold factory.CreateSecretManager.
  rewrite bind_calls. intros [Hin|Hin]%elem_of_app.
  { apply resolveRequirements_calls in Hin.
    destruct Hin as [?|[[? ?]|[[? ?]|[? ?]]]]; discriminate. }
  revert Hin.
  destruct (result (factory.resolveRequirements w r)) as [[[req|] ns] [e|]];
    cbn; try by intros ?%elem_of_nil.
  case_decide as Hpreset.
  - rewrite bind_calls. intros [Hin|Hin]%elem_of_app.
    { apply resolveKind_calls in Hin.
      destruct Hin as [?|[? [? ?]]]; discriminate. }
    revert Hin.
    destruct (result (factory.resolveKind c w req)) as [k [e|]] eqn:Hk; cbn.
    { by intros ?%elem_of_nil. }
    destruct (Hres _ _ Hk) as (_ & Hne & ->).
    unfold factory.NewSecretManager, bind, request; cbn.
    rewrite !elem_of_cons, elem_of_nil. intros [[= -> _]|[]]. done.
  - unfold factory.NewSecretManager, bind, request; cbn.
    rewrite !elem_of_cons, elem_of_nil. intros [[= -> _]|[]]. done.
Qed.

Lemma resolveKind_never_empty_witness :
  "google-secret-manager" ≠ ""
  ∧ factory.defaultKind sampleConstants "google-secret-manager"
    = "google-secret-manager".
Proof.
  destruct (resolveKind_never_empty sampleConstants freshCluster
              ltac:(discriminate) ltac:(discriminate)) as [Hres _].
  destruct (Hres gkeRequirements "google-secret-manager" eq_refl)
    as (_ & Hne & Hdefault).
  exact (conj Hne Hdefault).
Defined.

(** ** Requirements resolution *)

(** C4, as stated, fails for [KindResolver.resolveRequirements]: with a
    'dev' environment whose team settings do not parse, it returns the
    wrapped parse error and never asks for the requirements file, although
    the directory holds one. *)
Lemma resolveRequirements_unparseable_is_fatal :
  world_LoadRequirementsConfig brokenDevCluster "."
  = (Some gkeRequirements, "./jx-requirements.yml", None)
  ∧ factory.resolveRequirements brokenDevCluster
      {| factory.Kind := ""; factory.Dir := "." |}
    = ((None, "jx",
        Some (Wrap parseFailure
                "failed to unmarshal requirements from 'dev' Environment in namespace jx")),
       [CallCreateJXClient; CallGetDevEnvironment "jx";
        CallGetRequirementsConfigFromTeamSettings (Settings devEnvironment)]).
Proof. split; reflexivity. Qed.

(** C4, amended.  When the 'dev' environment is found and its team settings
    do not parse: [KindResolver.resolveRequirements] returns the parse
    error, wrapped, without asking for the requirements file;
    [HelmBootOptions.findRequirementsAndGitURL] only logs the parse error
    and, when the parser gave no document, goes on to load the requirements
    file from the configured directory, whose requirements it returns; when
    the parser gave a document next to its error, that document is kept and
    no file is loaded. *)
Theorem unparseable_team_settings w ns d parsed e :
  world_CreateJXClient w = (ns, None) →
  world_GetDevEnvironment w ns = (Some d, None) →
  world_GetRequirementsConfigFromTeamSettings w (Settings d) = (parsed, Some e) →
  (∀ r,
     factory.resolveRequirements w r
     = ((None, ns,
         Some (Wrap e ("failed to unmarshal requirements from 'dev' Environment in namespace "
                         +:+ ns))),
        [CallCreateJXClient; CallGetDevEnvironment ns;
         CallGetRequirementsConfigFromTeamSettings (Settings d)]))
  ∧ (∀ o,
       let attempted :=
         [CallCreateJXClient; CallGetDevEnvironment ns;
          CallGetRequirementsConfigFromTeamSettings (Settings d);
          CallDebugf ("failed to load requirements from team settings "
                        +:+ Error e)] in
       let gitURL :=
         if decide (run.GitURL o ≠ "") then run.GitURL o else SourceURL d in
       match parsed with
       | None =>
           let loaded := world_LoadRequirementsConfig w (run.Dir o) in
           (attempted ++ [CallLoadRequirementsConfig (run.Dir o)])
             `prefix_of` calls (run.findRequirementsAndGitURL w o)
           ∧ (result (run.findRequirementsAndGitURL w o)).1.1 = loaded.1.1
           ∧ (loaded.2 = None → gitURL ≠ "" →
              run.findRequirementsAndGitURL w o
              = ((loaded.1.1, gitURL, None),
                 attempted ++ [CallLoadRequirementsConfig (run.Dir o)]))
       | Some requirements =>
           (result (run.findRequirementsAndGitURL w o)).1.1 = Some requirements
           ∧ ∀ dir,
               CallLoadRequirementsConfig dir
                 ∉ calls (run.findRequirementsAndGitURL w o)
       end).
Proof.
  intros Hclient Hdev Hparse. split.
  - intros r. unfold factory.resolveRequirements.
    unfold CreateJXClient, GetDevEnvironment,
      GetRequirementsConfigFromTeamSettings, LoadRequirementsConfig,
      bind, request.
    rewrite Hclient; cbn. rewrite Hdev; cbn. rewrite Hparse; cbn.
    by destruct (world_LoadRequirementsConfig w (factory.Dir r)) as [[??]?].
  - intros o attempted gitURL. subst attempted gitURL.
    unfold run.findRequirementsAndGitURL, run.findGitURLFromDir.
    unfold CreateJXClient, GetDevEnvironment,
      GetRequirementsConfigFromTeamSettings, LoadRequirementsConfig, Debugf,
      run.FindGitConfigDir, run.DiscoverUpstreamGitURL, bind, request,
      result, calls.
    rewrite Hclient; cbn. rewrite Hdev; cbn. rewrite Hparse; cbn.
    destruct parsed as [requirements|]; cbn.
    + destruct (decide (run.GitURL o ≠ "")); cbn;
        repeat (case_decide; cbn);
        try destruct (world_FindGitConfigDir w (run.Dir o)) as [[? conf] [?|]];
        cbn; repeat (case_decide; cbn);
        try destruct (world_DiscoverUpstreamGitURL w conf) as [? [?|]]; cbn;
        (split; [done|]); intros dir; in_calls.
    + destruct (world_LoadRequirementsConfig w (run.Dir o))
        as [[loaded file] lerr]; cbn.
      destruct lerr as [le|]; cbn.
      { split; [by eexists|]. split; [done|]. by intros [=]. }
      destruct (decide (run.GitURL o ≠ "")); cbn.
      * rewrite decide_False by done. cbn.
        split; [by exists []|]. done.
      * destruct (decide (SourceURL d = "")) as [Hsrc|Hsrc]; cbn.
        -- destruct (world_FindGitConfigDir w (run.Dir o))
             as [[? conf] [?|]]; cbn; repeat (case_decide; cbn);
             try destruct (world_DiscoverUpstreamGitURL w conf) as [? [?|]];
             cbn; (split; [by eexists|]); (split; [done|]); done.
        -- split; [by exists []|]. done.
Qed.

Lemma unparseable_team_settings_witness :
  run.findRequirementsAndGitURL brokenDevCluster
    {| run.Dir := "."; run.GitURL := ""; run.BatchMode := false;
       run.JobMode := true |}
  = ((Some gkeRequirements, "https://github.com/acme/environment-dev.git",
      None),
     [CallCreateJXClient; CallGetDevEnvironment "jx";
      CallGetRequirementsConfigFromTeamSettings (Settings devEnvironment);
      CallDebugf ("failed to load requirements from team settings "
                    +:+ Error parseFailure);
      CallLoadRequirementsConfig "."]).
Proof.
  destruct (unparseable_team_settings brokenDevCluster "jx" devEnvironment
              None parseFailure eq_refl eq_refl eq_refl) as [_ Hrun].
  destruct (Hrun {| run.Dir := "."; run.GitURL := ""; run.BatchMode := false;
                    run.JobMode := true |}) as (_ & _ & Hfile).
  apply Hfile; [reflexivity|discriminate].
Defined.

(** ** The log-tailing loop *)

(** A pass of the loop that starts with [err] unset opens with pod
    discovery. *)
Lemma tailJobLogsLoop_discovers_first w fuel attempt ns :
  ∃ more,
    calls (run.tailJobLogsLoop w (S fuel) attempt ns None)
    = CallWaitForReadyPodForSelectorLabels ns :: more.
Proof.
  cbn. rewrite bind_calls. unfold run.tailJobLogsBody.
  rewrite bind_calls. cbn. by eexists.
Qed.

(** As long as a pod is ready and its log stream ends without an error, the
    loop does not return, however many passes it is given. *)
Lemma tailJobLogsLoop_keeps_going w ns :
  (∀ attempt, ∃ pod,
      world_WaitForReadyPodForSelectorLabels w attempt ns = (pod, None)
      ∧ pod ≠ "" ∧ world_TailLogs w attempt ns pod "boot" = None) →
  ∀ fuel attempt, result (run.tailJobLogsLoop w fuel attempt ns None) = None.
Proof.
  intros Hquiet fuel. induction fuel as [|fuel IH]; intros attempt; [done|].
  destruct (Hquiet attempt) as (pod & Hpod & Hne & Htail).
  cbn. rewrite bind_result. unfold run.tailJobLogsBody.
  unfold run.WaitForReadyPodForSelectorLabels, run.TailLogs, bind, request,
    result. cbn. rewrite Hpod. cbn. rewrite decide_False by done. cbn.
  rewrite Htail. cbn. apply IH.
Qed.

(** C5, as stated, fails: the first [TailLogs] call returns (without an
    error), and the loop does not return [nil]: after one pass it is still
    running, and it goes back to pod discovery, whose failure it returns. *)
Lemma tailJobLogs_stream_end_is_retried :
  world_TailLogs finishedJob 0 "jx" "jx-boot-x7k2p" "boot" = None
  ∧ run.tailJobLogs finishedJob 1
    = (None,
       [CallCreateKubeClient; CallWaitForReadyPodForSelectorLabels "jx";
        CallTailLogs "jx" "jx-boot-x7k2p" "boot"])
  ∧ run.tailJobLogs finishedJob 2
    = (Some (Some podGone),
       [CallCreateKubeClient; CallWaitForReadyPodForSelectorLabels "jx";
        CallTailLogs "jx" "jx-boot-x7k2p" "boot";
        CallWaitForReadyPodForSelectorLabels "jx"]).
Proof. repeat split; reflexivity. Qed.

(** C5, amended.  In a pass of the loop in which a ready pod was found:
    when [TailLogs] returns an error the loop returns [nil] at once, the
    error is dropped and nothing is retried; when [TailLogs] returns no
    error the loop does not return: it goes round again, so that its outcome
    is that of the loop from the next attempt on, which opens with another
    pod discovery. *)
Theorem tailJobLogsLoop_after_TailLogs w attempt ns pod fuel :
  world_WaitForReadyPodForSelectorLabels w attempt ns = (pod, None) →
  pod ≠ "" →
  let pass :=
    [CallWaitForReadyPodForSelectorLabels ns; CallTailLogs ns pod "boot"] in
  match world_TailLogs w attempt ns pod "boot" with
  | Some _ =>
      run.tailJobLogsLoop w (S fuel) attempt ns None = (Some None, pass)
  | None =>
      let rest := run.tailJobLogsLoop w fuel (S attempt) ns None in
      run.tailJobLogsLoop w (S fuel) attempt ns None
      = (result rest, pass ++ calls rest)
      ∧ (0 < fuel →
         ∃ more, calls rest = CallWaitForReadyPodForSelectorLabels ns :: more)
  end.
Proof.
  intros Hpod Hne pass. subst pass.
  destruct (world_TailLogs w attempt ns pod "boot") as [e|] eqn:Htail.
  - cbn. unfold run.tailJobLogsBody.
    unfold run.WaitForReadyPodForSelectorLabels, run.TailLogs, bind, request.
    cbn. rewrite Hpod. cbn. rewrite decide_False by done. cbn.
    by rewrite Htail.
  - split.
    + cbn. unfold run.tailJobLogsBody.
      unfold run.WaitForReadyPodForSelectorLabels, run.TailLogs, bind, request.
      cbn. rewrite Hpod. cbn. rewrite decide_False by done. cbn.
      rewrite Htail. cbn.
      by destruct (run.tailJobLogsLoop w fuel (S attempt) ns None).
    + intros Hfuel. destruct fuel as [|fuel]; [lia|].
      apply tailJobLogsLoop_discovers_first.
Qed.

Lemma tailJobLogsLoop_after_TailLogs_witness :
  run.tailJobLogsLoop unreadableJob 1 0 "jx" None
  = (Some None,
     [CallWaitForReadyPodForSelectorLabels "jx";
      CallTailLogs "jx" "jx-boot-x7k2p" "boot"])
  ∧ run.tailJobLogsLoop finishedJob 2 0 "jx" None
    = (result (run.tailJobLogsLoop finishedJob 1 1 "jx" None),
       [CallWaitForReadyPodForSelectorLabels "jx";
        CallTailLogs "jx" "jx-boot-x7k2p" "boot"]
       ++ calls (run.tailJobLogsLoop finishedJob 1 1 "jx" None)).
Proof.
  split.
  - apply (tailJobLogsLoop_after_TailLogs unreadableJob 0 "jx"
             "jx-boot-x7k2p" 0); [reflexivity|discriminate].
  - apply (tailJobLogsLoop_after_TailLogs finishedJob 0 "jx"
             "jx-boot-x7k2p" 1); [reflexivity|discriminate].
Defined.

(** ** Dotted paths *)

Lemma Split_nonempty s sep : Split s sep ≠ [].
Proof.
  destruct s as [|ch rest]; [done|]. cbn.
  case_decide; [done|]. by destruct (Split rest sep).
Qed.

Lemma setPath_step m k k' rest value :
  setPath m (k :: k' :: rest) value
  = <[k := VMap (setPath (childMap m k) (k' :: rest) value)]> m.
Proof. done. Qed.

Lemma lookupPath_step k k' rest m :
  lookupPath (k :: k' :: rest) m = lookupPath (k' :: rest) (childMap m k).
Proof.
  unfold childMap. cbn [lookupPath].
  destruct (m !! k) as [[s|child]|]; try done;
    rewrite lookup_empty; by destruct rest.
Qed.

(** Setting a path makes it readable. *)
Lemma lookupPath_setPath_eq m paths value :
  paths ≠ [] → lookupPath paths (setPath m paths value) = Some value.
Proof.
  revert m. induction paths as [|k rest IH]; intros m Hne; [done|].
  destruct rest as [|k' rest].
  - cbn. apply lookup_insert_eq.
  - rewrite setPath_step, lookupPath_step. unfold childMap at 1.
    rewrite lookup_insert_eq. by apply IH.
Qed.

(** Setting a path leaves every path readable as before, except those it
    runs through and those that run through it. *)
Lemma lookupPath_setPath_ne m paths other value :
  ¬ paths `prefix_of` other → ¬ other `prefix_of` paths →
  lookupPath other (setPath m paths value) = lookupPath other m.
Proof.
  revert m other. induction paths as [|k rest IH]; intros m other Hpo Hop.
  { destruct Hpo. apply prefix_nil. }
  destruct other as [|k' rest']; [destruct Hop; apply prefix_nil|].
  destruct (decide (k = k')) as [<-|Hk].
  - destruct rest as [|r rest]; [destruct Hpo; apply prefix_cons, prefix_nil|].
    destruct rest' as [|r' rest']; [destruct Hop; apply prefix_cons, prefix_nil|].
    rewrite setPath_step, !lookupPath_step. unfold childMap at 1.
    rewrite lookup_insert_eq.
    apply IH; [intros ?; apply Hpo|intros ?; apply Hop]; by apply prefix_cons.
  - assert (Hother : ∀ m' : gmap string Value,
               m' !! k' = m !! k' →
               lookupPath (k' :: rest') m' = lookupPath (k' :: rest') m).
    { intros m' Hm'. cbn [lookupPath]. by rewrite Hm'. }
    destruct rest as [|r rest]; cbn [setPath]; apply Hother;
      by rewrite lookup_insert_ne.
Qed.

(** A tree cannot hold a string at a path and anything below it. *)
Lemma lookupPath_leaf_blocks m paths more s :
  lookupPath paths m = Some (VString s) → more ≠ [] →
  lookupPath (paths ++ more) m = None.
Proof.
  revert m. induction paths as [|k rest IH]; intros m Hleaf Hmore; [done|].
  destruct rest as [|k' rest].
  - destruct more as [|k' more]; [done|]. cbn in *. by rewrite Hleaf.
  - rewrite lookupPath_step in Hleaf.
    change ((k :: k' :: rest) ++ more) with (k :: k' :: (rest ++ more)).
    rewrite lookupPath_step. by apply (IH (childMap m k)).
Qed.

Lemma expandEntries_snoc entries k v :
  expandEntries (entries ++ [(k, v)])
  = SetMapValueViaPath (expandEntries entries) k
      (VString (string_of_list_byte v)).
Proof. unfold expandEntries. by rewrite foldl_snoc. Qed.

(** Entries with distinct keys none of which runs through another are all
    readable, at their paths, in the tree the loop builds. *)
Lemma expandEntries_lookup entries :
  NoDup entries.*1 →
  (∀ k1 v1 k2 v2, (k1, v1) ∈ entries → (k2, v2) ∈ entries →
                  Split k1 "." `prefix_of` Split k2 "." → k1 = k2) →
  ∀ k v, (k, v) ∈ entries →
         lookupPath (Split k ".") (expandEntries entries)
         = Some (VString (string_of_list_byte v)).
Proof.
  induction entries as [|[k0 v0] entries IH] using rev_ind;
    intros Hnodup Hfree k v Hin; [by apply elem_of_nil in Hin|].
  rewrite fmap_app in Hnodup. apply NoDup_app in Hnodup as (Hnd & Hfresh & _).
  rewrite expandEntries_snoc. unfold SetMapValueViaPath.
  apply elem_of_app in Hin as [Hin|Hin].
  - assert (k ≠ k0) as Hk.
    { intros ->. apply (Hfresh k0); [|cbn; left].
      apply list_elem_of_fmap. by exists (k0, v). }
    rewrite lookupPath_setPath_ne.
    + apply IH; [done| |done].
      intros k1 v1 k2 v2 H1 H2. apply (Hfree k1 v1 k2 v2); in_calls.
    + intros Hp. apply Hk. symmetry.
      apply (Hfree k0 v0 k v); [in_calls..|done].
    + intros Hp. apply Hk.
      apply (Hfree k v k0 v0); [in_calls..|done].
  - apply list_elem_of_singleton in Hin as [= -> ->].
    apply lookupPath_setPath_eq, Split_nonempty.
Qed.

(** ** The secrets YAML exporter *)

(** With a non-empty value under the raw-YAML key, whatever else the data
    holds, the value is what is written; nothing is marshalled. *)
Lemma generateSecretsYAML_verbatim c w fileName secretData raw :
  secretData !! LocalSecretKey c = Some raw → raw ≠ [] →
  secrets.generateSecretsYAML c w fileName secretData
  = match world_WriteFile w fileName raw (DefaultFileWritePermissions c) with
    | Some e =>
        (Some (Wrap e ("failed to save file " +:+ fileName)),
         [CallWriteFile fileName raw (DefaultFileWritePermissions c)])
    | None =>
        (None,
         [CallWriteFile fileName raw (DefaultFileWritePermissions c);
          CallInfof ("generated secrets file " +:+ world_ColorInfo w fileName)])
    end.
Proof.
  intros Hraw Hne. unfold secrets.generateSecretsYAML. rewrite Hraw. cbn.
  rewrite decide_False by (by destruct raw).
  unfold secrets.WriteFile, Infof, bind, request. cbn.
  by destruct (world_WriteFile w fileName raw (DefaultFileWritePermissions c)).
Qed.

(** C6. For secret data that holds the raw-YAML key only, with a non-empty
    value, [generateSecretsYAML] makes one write, of that value byte for
    byte, to the output file, and marshals nothing: no key is expanded and
    there is no [secrets] root.  It returns [nil] when the write succeeds
    and the wrapped error of the write otherwise. *)
Theorem generateSecretsYAML_raw_only c w fileName raw :
  raw ≠ [] →
  secrets.generateSecretsYAML c w fileName {[ LocalSecretKey c := raw ]}
  = match world_WriteFile w fileName raw (DefaultFileWritePermissions c) with
    | Some e =>
        (Some (Wrap e ("failed to save file " +:+ fileName)),
         [CallWriteFile fileName raw (DefaultFileWritePermissions c)])
    | None =>
        (None,
         [CallWriteFile fileName raw (DefaultFileWritePermissions c);
          CallInfof ("generated secrets file " +:+ world_ColorInfo w fileName)])
    end.
Proof.
  intros Hne. apply generateSecretsYAML_verbatim; [|done].
  apply lookup_singleton_eq.
Qed.

Lemma generateSecretsYAML_raw_only_witness :
  secrets.generateSecretsYAML sampleConstants freshCluster "/tmp/secrets.yaml"
    {[ "secrets.yaml" := list_byte_of_string "adminUser:
  password: s3cret
" ]}
  = (None,
     [CallWriteFile "/tmp/secrets.yaml"
        (list_byte_of_string "adminUser:
  password: s3cret
") 420;
      CallInfof "generated secrets file /tmp/secrets.yaml"]).
Proof.
  apply (generateSecretsYAML_raw_only sampleConstants freshCluster
           "/tmp/secrets.yaml"). discriminate.
Defined.

(** The key [a.b] with value [v] becomes [a: {b: v}]. *)
Example expandEntries_dotted_key :
  expandEntries [("a.b", list_byte_of_string "v")]
  = {[ "a" := VMap {[ "b" := VString "v" ]} ]}.
Proof. reflexivity. Qed.

(** C7, as stated, fails: the data holds the keys [a] and [a.b] and no
    raw-YAML key, and whichever way the two entries are visited one of them
    is missing from the tree; so it is in the document that is written. *)
Lemma generateSecretsYAML_clashing_keys :
  let x := list_byte_of_string "x" in
  let y := list_byte_of_string "y" in
  let secretData : gmap string (list byte) := {[ "a" := x; "a.b" := y ]} in
  default [] (secretData !! LocalSecretKey sampleConstants) = []
  ∧ expandEntries [("a", x); ("a.b", y)]
    = {[ "a" := VMap {[ "b" := VString "y" ]} ]}
  ∧ expandEntries [("a.b", y); ("a", x)] = {[ "a" := VString "x" ]}
  ∧ calls (secrets.generateSecretsYAML sampleConstants freshCluster
             "/tmp/secrets.yaml" secretData)
    = [CallMarshal (VMap {[ "secrets" := VMap {[ "a" := VString "x" ]} ]});
       CallWriteFile "/tmp/secrets.yaml"
         (list_byte_of_string "secrets:
  a: x
") 420;
       CallInfof "generated secrets file /tmp/secrets.yaml"]
  ∧ lookupPath (Split "a.b" ".")
      (secrets.expandSecrets freshCluster secretData) = None.
Proof. repeat split; vm_compute; reflexivity. Qed.

(** ** What the expansion holds, at every path *)

Lemma lookupPath_empty paths : lookupPath paths ∅ = None.
Proof. destruct paths as [|k [|k' rest]]; cbn; by rewrite ?lookup_empty. Qed.

(** Setting a path puts a map at every piece on the way. *)
Lemma lookupPath_setPath_above m paths more value :
  paths ≠ [] → more ≠ [] → mapAt (setPath m (paths ++ more) value) paths.
Proof.
  revert m. induction paths as [|k rest IH]; intros m Hne Hmore; [done|].
  destruct rest as [|k' rest].
  - destruct more as [|k' more]; [done|]. unfold mapAt.
    change ([k] ++ k' :: more) with (k :: k' :: more).
    rewrite setPath_step. cbn [lookupPath]. rewrite lookup_insert_eq.
    by eexists.
  - change ((k :: k' :: rest) ++ more) with (k :: k' :: (rest ++ more)).
    unfold mapAt. rewrite setPath_step.
    destruct (IH (childMap m k)) as [child Hchild]; [done..|].
    exists child. rewrite lookupPath_step. unfold childMap at 1.
    by rewrite lookup_insert_eq.
Qed.

(** Two paths are equal, or one runs through the other, or neither does. *)
Lemma paths_compared (p q : list string) :
  q = p
  ∨ (∃ more, more ≠ [] ∧ q = p ++ more)
  ∨ (∃ more, more ≠ [] ∧ p = q ++ more)
  ∨ ¬ comparable p q.
Proof.
  destruct (decide (p `prefix_of` q)) as [[more ->]|Hpq].
  - destruct more as [|k more]; [left; by rewrite app_nil_r|].
    right; left. by exists (k :: more).
  - destruct (decide (q `prefix_of` p)) as [[more ->]|Hqp].
    + destruct more as [|k more]; [left; by rewrite app_nil_r|].
      right; right; left. by exists (k :: more).
    + right; right; right. by intros [?|?].
Qed.

Lemma extension_differs (p more : list string) : more ≠ [] → p ++ more ≠ p.
Proof.
  intros Hmore Heq. apply Hmore.
  apply (inj (app p)). by rewrite app_nil_r.
Qed.

(** The strings of a tree after one more entry is set. *)
Lemma setPath_leafAt m p s q s' :
  p ≠ [] →
  leafAt (setPath m p (VString s)) q s'
  ↔ (q = p ∧ s' = s) ∨ (¬ comparable p q ∧ leafAt m q s').
Proof.
  intros Hp. unfold leafAt.
  destruct (paths_compared p q)
    as [->|[(more & Hmore & ->)|[(more & Hmore & ->)|Hpq]]].
  - rewrite lookupPath_setPath_eq by done. split.
    + intros [= ->]. by left.
    + intros [[_ ->]|[Hc _]]; [done|]. destruct Hc. by left.
  - rewrite (lookupPath_leaf_blocks _ p more s)
      by (by rewrite ?lookupPath_setPath_eq). split; [done|].
    intros [[Heq _]|[Hc _]]; [by apply extension_differs in Heq|].
    destruct Hc. left. by exists more.
  - split.
    + intros Hleaf. destruct q as [|k q].
      { by cbn in Hleaf. }
      destruct (lookupPath_setPath_above m (k :: q) more (VString s))
        as [child Hchild]; [done..|]. congruence.
    + intros [[Heq _]|[Hc _]].
      * symmetry in Heq. by apply extension_differs in Heq.
      * destruct Hc. right. by exists more.
  - rewrite lookupPath_setPath_ne
      by (intros ?; apply Hpq; (by left) || (by right)).
    split; [by right|]. intros [[-> _]|[_ ?]]; [|done].
    destruct Hpq. by left.
Qed.

(** The maps of a tree after one more entry is set. *)
Lemma setPath_mapAt m p s q :
  p ≠ [] →
  mapAt (setPath m p (VString s)) q
  ↔ (q ≠ [] ∧ ∃ more, more ≠ [] ∧ p = q ++ more)
    ∨ (¬ comparable p q ∧ mapAt m q).
Proof.
  intros Hp.
  destruct (paths_compared p q)
    as [->|[(more & Hmore & ->)|[(more & Hmore & ->)|Hpq]]].
  - unfold mapAt. rewrite lookupPath_setPath_eq by done. split.
    + by intros [child [=]].
    + intros [(_ & more & Hmore & Heq)|[Hc _]].
      * symmetry in Heq. by apply extension_differs in Heq.
      * destruct Hc. by left.
  - unfold mapAt at 1. rewrite (lookupPath_leaf_blocks _ p more s)
      by (by rewrite ?lookupPath_setPath_eq). split.
    + by intros [child [=]].
    + intros [(_ & more' & Hmore' & Heq)|[Hc _]].
      * rewrite <- (assoc_L (++)) in Heq. symmetry in Heq.
        apply extension_differs in Heq; [done|].
        by destruct more.
      * destruct Hc. left. by exists more.
  - split.
    + intros [child Hchild]. left. split; [|by exists more].
      intros ->. by cbn in Hchild.
    + intros [(Hq & _)|[Hc _]].
      * by apply lookupPath_setPath_above.
      * destruct Hc. right. by exists more.
  - unfold mapAt. rewrite lookupPath_setPath_ne
      by (intros ?; apply Hpq; (by left) || (by right)).
    split; [by right|]. intros [(Hq & more & Hmore & ->)|[_ ?]]; [|done].
    destruct Hpq. right. by exists more.
Qed.

(** Nothing is kept of no entries; of entries and one more, the last one is
    kept, and so is what was kept before and is not in its way. *)
Lemma kept_nil p v : ¬ kept [] p v.
Proof. intros (before & k & after & Heq & _). by destruct before. Qed.

Lemma kept_snoc entries k0 v0 p v :
  kept (entries ++ [(k0, v0)]) p v
  ↔ (Split k0 "." = p ∧ v0 = v)
    ∨ (kept entries p v ∧ ¬ comparable p (Split k0 ".")).
Proof.
  split.
  - intros (before & k & after & Heq & Hk & Hafter).
    destruct after as [|last after _] using rev_ind.
    + apply app_inj_tail in Heq as [_ [= -> ->]]. by left.
    + rewrite app_comm_cons, (assoc_L (++)) in Heq.
      apply app_inj_tail in Heq as [-> <-].
      apply Forall_app in Hafter as [Hafter Hlast].
      rewrite Forall_singleton in Hlast. cbn in Hlast.
      right. split; [|done].
      by exists before, k, after.
  - intros [[Hk ->]|[(before & k & after & -> & Hk & Hafter) Hlast]].
    + exists entries, k0, []. by repeat split.
    + exists before, k, (after ++ [(k0, v0)]). repeat split; [|done|].
      * by rewrite <- (assoc_L (++)), <- app_comm_cons.
      * apply Forall_app. split; [done|]. by apply Forall_singleton.
Qed.

Lemma comparable_sym p q : comparable p q ↔ comparable q p.
Proof. unfold comparable. tauto. Qed.

(** The loop builds the expansion of the entries, in whatever order they
    are visited, whatever the keys. *)
Lemma expandEntries_expansion entries :
  expansionOf entries (expandEntries entries).
Proof.
  induction entries as [|[k0 v0] entries [IHleaf IHmap]] using rev_ind.
  { split.
    - intros p s. unfold leafAt, expandEntries. cbn.
      rewrite lookupPath_empty. split; [done|].
      by intros (v & Hkept%kept_nil & _).
    - intros p. unfold mapAt, expandEntries. cbn.
      rewrite lookupPath_empty. split; [by intros [child [=]]|].
      by intros (_ & v & more & Hkept%kept_nil & _). }
  rewrite expandEntries_snoc. unfold SetMapValueViaPath.
  pose proof (Split_nonempty k0 ".") as Hne. split.
  - intros p s. rewrite setPath_leafAt by done. rewrite IHleaf. split.
    + intros [[-> ->]|[Hc (v & Hkept & ->)]].
      * exists v0. split; [|done]. apply kept_snoc. by left.
      * exists v. split; [|done]. apply kept_snoc. right.
        split; [done|]. by rewrite comparable_sym.
    + intros (v & [[<- ->]|[Hkept Hc]]%kept_snoc & ->); [by left|].
      right. split; [by rewrite comparable_sym|]. by exists v.
  - intros p. rewrite setPath_mapAt by done. rewrite IHmap. split.
    + intros [(Hp & more & Hmore & Heq)|(Hc & Hp & v & more & Hkept & Hmore)].
      * split; [done|]. exists v0, more. split; [|done].
        apply kept_snoc. by left.
      * split; [done|]. exists v, more. split; [|done].
        apply kept_snoc. right. split; [done|].
        intros [Hpre|Hpre]; apply Hc.
        -- right. etrans; [|done]. by apply prefix_app_r.
        -- destruct (prefix_weak_total (Split k0 ".") p (p ++ more));
             [done|by apply prefix_app_r|by left|by right].
    + intros (Hp & v & more & [[Heq ->]|[Hkept Hc]]%kept_snoc & Hmore).
      * left. split; [done|]. by exists more.
      * destruct (paths_compared (Split k0 ".") p)
          as [->|[(more' & Hmore' & ->)|[(more' & Hmore' & Heq)|Hpk]]].
        -- destruct Hc. right. by apply prefix_app_r.
        -- destruct Hc. right. rewrite <- (assoc_L (++)).
           by apply prefix_app_r.
        -- left. split; [done|]. by exists more'.
        -- right. split; [done|]. split; [done|]. by exists v, more.
Qed.
(** A map inside a tree is smaller than the tree. *)
Lemma valueSize_child (m child : gmap string Value) k :
  m !! k = Some (VMap child) → valueSize (VMap child) < valueSize (VMap m).
Proof.
  intros Hk. cbn [valueSize].
  rewrite (map_fold_delete_L _ _ k (VMap child) m); [cbn [valueSize]; lia| |done].
  intros. lia.
Qed.

(** A tree is determined by the strings and the maps it holds at every
    path. *)
Lemma tree_determined n (T1 T2 : gmap string Value) :
  valueSize (VMap T1) < n →
  (∀ p s, leafAt T1 p s ↔ leafAt T2 p s) →
  (∀ p, mapAt T1 p ↔ mapAt T2 p) →
  T1 = T2.
Proof.
  revert T1 T2. induction n as [|n IH]; intros T1 T2 Hsize Hleaf Hmap; [lia|].
  apply map_eq. intros k.
  destruct (T1 !! k) as [[s|c1]|] eqn:H1.
  - symmetry. by apply (Hleaf [k] s).
  - destruct (proj1 (Hmap [k])) as [c2 H2]; [by exists c1|].
    cbn in H2. rewrite H2. do 2 f_equal. apply IH.
    + apply valueSize_child in H1. lia.
    + intros [|k' rest] s; [done|].
      specialize (Hleaf (k :: k' :: rest) s). unfold leafAt in *.
      rewrite !lookupPath_step in Hleaf. unfold childMap in Hleaf.
      by rewrite H1, H2 in Hleaf.
    + intros [|k' rest]; [by split; intros [child [=]]|].
      specialize (Hmap (k :: k' :: rest)). unfold mapAt in *.
      rewrite !lookupPath_step in Hmap. unfold childMap in Hmap.
      by rewrite H1, H2 in Hmap.
  - destruct (T2 !! k) as [[s|c2]|] eqn:H2; [| |done].
    + apply (Hleaf [k] s) in H2. unfold leafAt in H2. cbn in H2. congruence.
    + destruct (proj2 (Hmap [k])) as [c1 Hc1]; [by exists c2|].
      cbn in Hc1. congruence.
Qed.

(** The expansion of entries in a given order is one tree. *)
Lemma expansionOf_unique entries T1 T2 :
  expansionOf entries T1 → expansionOf entries T2 → T1 = T2.
Proof.
  intros [Hleaf1 Hmap1] [Hleaf2 Hmap2].
  apply (tree_determined (S (valueSize (VMap T1)))); [lia| |].
  - intros p s. by rewrite Hleaf1, Hleaf2.
  - intros p. by rewrite Hmap1, Hmap2.
Qed.

(** When the entries are those of the data, each once, and no key runs
    through another, every entry is kept, whatever the order. *)
Lemma kept_of_data entries (secretData : gmap string (list byte)) p v :
  entries ≡ₚ map_to_list secretData →
  prefixFree secretData →
  kept entries p v ↔ ∃ k, secretData !! k = Some v ∧ Split k "." = p.
Proof.
  intros Horder Hfree.
  assert (Hin : ∀ k' v', (k', v') ∈ entries ↔ secretData !! k' = Some v').
  { intros k' v'. rewrite Horder. apply elem_of_map_to_list. }
  split.
  - intros (before & k & after & Heq & Hk & _). exists k. split; [|done].
    apply Hin. rewrite Heq. apply elem_of_app. right. left.
  - intros (k & Hkv & Hk).
    destruct (list_elem_of_split entries (k, v)) as (before & after & Heq);
      [by apply Hin|].
    exists before, k, after. repeat split; [done..|].
    apply Forall_forall. intros [k' v'] Hafter Hc. cbn in Hc.
    assert (Hk' : secretData !! k' = Some v').
    { apply Hin. rewrite Heq. apply elem_of_app. right. by right. }
    assert (k = k') as <-.
    { subst p. destruct Hc as [Hc|Hc];
        [|symmetry]; (apply Hfree; [by eexists..|done]). }
    assert (Hnodup : NoDup entries.*1).
    { rewrite Horder. apply NoDup_fst_map_to_list. }
    rewrite Heq, fmap_app, fmap_cons in Hnodup.
    apply NoDup_app in Hnodup as (_ & _ & Hnodup).
    apply NoDup_cons in Hnodup as [Hfresh _]. apply Hfresh.
    apply list_elem_of_fmap. by exists (k, v').
Qed.

(** Then the expansion is the nested document of the data. *)
Lemma nestedOf_expansionOf entries (secretData : gmap string (list byte)) T :
  entries ≡ₚ map_to_list secretData →
  prefixFree secretData →
  nestedOf secretData T ↔ expansionOf entries T.
Proof.
  intros Horder Hfree.
  assert (Hleaf : ∀ p s,
             (∃ v, kept entries p v ∧ s = string_of_list_byte v)
             ↔ (∃ k v, secretData !! k = Some v ∧ Split k "." = p
                       ∧ s = string_of_list_byte v)).
  { intros p s. split.
    - intros (v & (k & Hkv & Hk)%(kept_of_data _ secretData) & Hs); [|done..].
      by exists k, v.
    - intros (k & v & Hkv & Hk & Hs). exists v. split; [|done].
      apply (kept_of_data _ secretData); [done..|]. by exists k. }
  assert (Hmap : ∀ p,
             (p ≠ [] ∧ ∃ v more, kept entries (p ++ more) v ∧ more ≠ [])
             ↔ (p ≠ [] ∧ ∃ k more, is_Some (secretData !! k)
                                   ∧ Split k "." = p ++ more ∧ more ≠ [])).
  { intros p. split.
    - intros (Hp & v & more
              & (k & Hkv & Hk)%(kept_of_data _ secretData) & Hmore); [|done..].
      split; [done|]. by exists k, more.
    - intros (Hp & k & more & [v Hkv] & Hk & Hmore). split; [done|].
      exists v, more. split; [|done].
      apply (kept_of_data _ secretData); [done..|]. by exists k. }
  unfold nestedOf, expansionOf. split; intros [H1 H2]; split; intros p.
  - intros s. by rewrite H1, Hleaf.
  - by rewrite H2, Hmap.
  - intros s. by rewrite H1, Hleaf.
  - by rewrite H2, Hmap.
Qed.

(** C7, amended.  For secret data without a non-empty value under the
    raw-YAML key, each entry visited once, in any order: the value that is
    marshalled is a map with the single key [secrets] over one nested map,
    and the marshalled bytes are what is written to the output file.  That
    nested map is the only tree that holds, as strings, the values of the
    entries no later entry is in the way of (an entry visited later
    replaces the earlier ones whose paths run through its path, or through
    which its path runs), each at the dotted path of its key, and, as maps,
    what lies on the way to them.  When no key, read as a dotted path, runs
    through another key, it is the only tree that holds the value of every
    key of the data, as a string at the dotted path of the key, maps on the
    way to the keys, and nothing else; so every key is found at its dotted
    path. *)
Theorem generateSecretsYAML_nested c w fileName secretData :
  default [] (secretData !! LocalSecretKey c) = [] →
  world_RangeOrder w secretData ≡ₚ map_to_list secretData →
  let secrets := secrets.expandSecrets w secretData in
  let document := VMap {[ "secrets" := VMap secrets ]} in
  (∀ tree, expansionOf (world_RangeOrder w secretData) tree ↔ tree = secrets)
  ∧ (prefixFree secretData →
     (∀ tree, nestedOf secretData tree ↔ tree = secrets)
     ∧ (∀ k v, secretData !! k = Some v →
               lookupPath (Split k ".") secrets
               = Some (VString (string_of_list_byte v))))
  ∧ secrets.generateSecretsYAML c w fileName secretData
    = match world_Marshal w document with
      | (_, Some e) =>
          (Some (Wrap e "failed to marshal data to YAML"),
           [CallMarshal document])
      | (data, None) =>
          match world_WriteFile w fileName data
                  (DefaultFileWritePermissions c) with
          | Some e =>
              (Some (Wrap e ("failed to save file " +:+ fileName)),
               [CallMarshal document;
                CallWriteFile fileName data (DefaultFileWritePermissions c)])
          | None =>
              (None,
               [CallMarshal document;
                CallWriteFile fileName data (DefaultFileWritePermissions c);
                CallInfof ("generated secrets file "
                             +:+ world_ColorInfo w fileName)])
          end
      end.
Proof.
  intros Hraw Horder secrets document.
  assert (Hexpansion : ∀ tree,
             expansionOf (world_RangeOrder w secretData) tree
             ↔ tree = secrets).
  { intros tree. split.
    - intros Htree. apply (expansionOf_unique _ _ _ Htree).
      apply expandEntries_expansion.
    - intros ->. apply expandEntries_expansion. }
  split; [done|]. split.
  - intros Hfree. split.
    + intros tree. rewrite <- Hexpansion. by apply nestedOf_expansionOf.
    + intros k v Hkv. subst secrets. unfold secrets.expandSecrets.
      apply expandEntries_lookup.
      * rewrite Horder. apply NoDup_fst_map_to_list.
      * intros k1 v1 k2 v2 H1 H2. rewrite Horder in H1, H2.
        apply elem_of_map_to_list in H1, H2. apply Hfree; by eexists.
      * rewrite Horder. by apply elem_of_map_to_list.
  - unfold secrets.generateSecretsYAML. rewrite Hraw. cbn.
    rewrite decide_True by done.
    unfold secrets.Marshal, secrets.WriteFile, Infof, bind, request. cbn.
    fold secrets document.
    destruct (world_Marshal w document) as [data [e|]]; cbn; [done|].
    by destruct (world_WriteFile w fileName data
                   (DefaultFileWritePermissions c)).
Qed.

Lemma generateSecretsYAML_nested_witness :
  (∀ tree,
     nestedOf {[ "a.b" := list_byte_of_string "v" ]} tree
     ↔ tree = secrets.expandSecrets freshCluster
                {[ "a.b" := list_byte_of_string "v" ]})
  ∧ lookupPath (Split "a.b" ".")
      (secrets.expandSecrets freshCluster
         {[ "a.b" := list_byte_of_string "v" ]})
    = Some (VString "v").
Proof.
  assert (Hfree : prefixFree {[ "a.b" := list_byte_of_string "v" ]}).
  { intros k1 k2 [v1 [<- _]%lookup_singleton_Some]
      [v2 [<- _]%lookup_singleton_Some] _. reflexivity. }
  assert (Hraw : default [] (({[ "a.b" := list_byte_of_string "v" ]}
                                : gmap string (list byte))
                               !! LocalSecretKey sampleConstants) = [])
    by (vm_compute; reflexivity).
  destruct (generateSecretsYAML_nested sampleConstants freshCluster
              "/tmp/secrets.yaml" {[ "a.b" := list_byte_of_string "v" ]}
              Hraw (reflexivity _)) as (_ & Hnested & _).
  destruct (Hnested Hfree) as [Htree Hlookup]. split; [exact Htree|].
  apply (Hlookup "a.b" (list_byte_of_string "v")).
  vm_compute; reflexivity.
Defined.

(** [loadSecretFile] only checks for the file and reads it. *)
Lemma loadSecretFile_calls w fileName call :
  call ∈ calls (secrets.loadSecretFile w fileName) →
  call = CallFileExists fileName ∨ call = CallReadFile fileName.
Proof.
  unfold secrets.loadSecretFile, secrets.FileExists, secrets.ReadFile,
    bind, request. cbn.
  destruct (world_FileExists w fileName) as [[|] [e|]]; cbn; try in_calls.
  destruct (world_ReadFile w fileName) as [data [e|]]; cbn; in_calls.
Qed.

(** Comments, blank lines and lines without a colon are skipped; a line is
    cut at its first colon and both sides are trimmed. *)
Example loadSecretFile_entries :
  secrets.loadSecretFile secretsFile "/secrets/boot"
  = (({[ "adminUser.password" := list_byte_of_string "s3cret";
         "pipelineUser.token" := list_byte_of_string "abc:def" ]}, None),
     [CallFileExists "/secrets/boot"; CallReadFile "/secrets/boot"]).
Proof. vm_compute; reflexivity. Qed.

(** A file that is not there is an error. *)
Lemma loadSecretFile_missing w fileName :
  (world_FileExists w fileName).1 = false →
  (result (secrets.loadSecretFile w fileName)).2 ≠ None.
Proof.
  unfold secrets.loadSecretFile, secrets.FileExists, bind, request, result.
  cbn. destruct (world_FileExists w fileName) as [found [e|]]; cbn;
    by intros ->.
Qed.

(** C8. When the secret source yields no data (the secret file is missing,
    or the file as loaded, or the Secret of the cluster, has an empty data
    map), [Run] returns an error and asks for no write at all. *)
Theorem Run_without_data_fails c w o :
  let ns := (world_CreateKubeClient w).1 in
  let secretFile :=
    if decide (secrets.SecretFile o = "") then world_Getenv w "JXL_SECRET_FILE"
    else secrets.SecretFile o in
  let secretName :=
    if decide (secrets.SecretName o = "") then world_Getenv w "JXL_SECRET_NAME"
    else secrets.SecretName o in
  let secretName :=
    if decide (secretName = "") then LocalSecret c else secretName in
  (if decide (secretFile ≠ "") then
     (world_FileExists w secretFile).1 = false
     ∨ (result (secrets.loadSecretFile w secretFile)).1 = ∅
   else Data (world_SecretsGet w ns secretName).1 = ∅) →
  (result (secrets.Run c w o)).2 ≠ None
  ∧ ∀ fileName data perm,
      CallWriteFile fileName data perm ∉ calls (secrets.Run c w o).
Proof.
  intros ns secretFile secretName0 secretName Hnodata.
  unfold secrets.Run.
  rewrite bind_result, bind_calls. unfold CreateKubeClient at 1 2 3.
  unfold request at 1 2 3. cbn [result calls fst snd].
  subst ns. destruct (world_CreateKubeClient w) as [ns [e|]];
    cbn [fst snd] in *.
  { split; [done|]. intros ???. in_calls. }
  rewrite bind_result, bind_calls.
  set (getFile := if decide (secrets.SecretFile o = "")
                  then Getenv w "JXL_SECRET_FILE"
                  else ret (secrets.SecretFile o)).
  assert (Hfile : result getFile = secretFile).
  { subst getFile secretFile.
    by destruct (decide (secrets.SecretFile o = "")). }
  assert (HfileCalls : ∀ f d p, CallWriteFile f d p ∉ calls getFile).
  { subst getFile. intros ???.
    destruct (decide (secrets.SecretFile o = "")); cbn; in_calls. }
  rewrite Hfile. rewrite bind_result, bind_calls.
  destruct (decide (secretFile ≠ "")) as [Hsome|Hnone].
  - rewrite bind_result, bind_calls.
    assert (Hload : ∀ f d p,
               CallWriteFile f d p
                 ∉ calls (secrets.loadSecretFile w secretFile)).
    { intros ??? [?|?]%loadSecretFile_calls; discriminate. }
    destruct (result (secrets.loadSecretFile w secretFile))
      as [data [e|]] eqn:Hres; cbn [fst snd] in *.
    + cbn. split; [done|]. intros f d p. specialize (Hload f d p).
      specialize (HfileCalls f d p). in_calls.
    + destruct Hnodata as [Hmissing| ->].
      { apply loadSecretFile_missing in Hmissing. by rewrite Hres in Hmissing. }
      rewrite decide_True by done. cbn. split; [done|].
      intros f d p. specialize (Hload f d p).
      specialize (HfileCalls f d p). in_calls.
  - rewrite bind_result, bind_calls.
    set (getName := if decide (secrets.SecretName o = "")
                    then Getenv w "JXL_SECRET_NAME"
                    else ret (secrets.SecretName o)).
    assert (Hname : result getName = secretName0).
    { subst getName secretName0.
      by destruct (decide (secrets.SecretName o = "")). }
    assert (HnameCalls : ∀ f d p, CallWriteFile f d p ∉ calls getName).
    { subst getName. intros ???.
      destruct (decide (secrets.SecretName o = "")); cbn; in_calls. }
    rewrite Hname. fold secretName.
    rewrite bind_result, bind_calls. unfold SecretsGet, request.
    cbn [result calls fst snd].
    destruct (world_SecretsGet w ns secretName) as [secret [e|]];
      cbn [fst snd] in *.
    + destruct (IsNotFound e); cbn; (split; [done|]); intros f d p;
        specialize (HfileCalls f d p); specialize (HnameCalls f d p);
        in_calls.
    + rewrite Hnodata. rewrite decide_True by done. cbn. split; [done|].
      intros f d p. specialize (HfileCalls f d p).
      specialize (HnameCalls f d p). in_calls.
Qed.

Lemma Run_without_data_fails_witness :
  (result (secrets.Run sampleConstants missingFile yamlOptions)).2 ≠ None
  ∧ (result (secrets.Run sampleConstants commentsOnlyFile yamlOptions)).2 ≠ None
  ∧ (result (secrets.Run sampleConstants emptySecretCluster yamlOptions)).2
    ≠ None.
Proof.
  split; [|split].
  - apply (Run_without_data_fails sampleConstants missingFile yamlOptions).
    left. vm_compute; reflexivity.
  - apply (Run_without_data_fails sampleConstants commentsOnlyFile yamlOptions).
    right. vm_compute; reflexivity.
  - apply (Run_without_data_fails sampleConstants emptySecretCluster
             yamlOptions).
    vm_compute; reflexivity.
Defined.

(** * Further properties *)

(** ** Kind resolution and the secret-manager factory *)

(** X1. When the cluster has no 'dev' environment (none is returned, with
    no error or with "not found"), or has one that carries no requirements,
    [resolveRequirements] answers from the requirements file of its
    directory: it returns what loading the file returns, with the namespace
    of the jx client, and the error of the load wrapped. *)
Theorem resolveRequirements_from_file w r ns dev err :
  world_CreateJXClient w = (ns, None) →
  world_GetDevEnvironment w ns = (dev, err) →
  notFoundIsNil err = None →
  match dev with
  | Some d =>
      world_GetRequirementsConfigFromTeamSettings w (Settings d) = (None, None)
  | None => True
  end →
  let parsed :=
    match dev with
    | Some d => [CallGetRequirementsConfigFromTeamSettings (Settings d)]
    | None => []
    end in
  let loaded := world_LoadRequirementsConfig w (factory.Dir r) in
  factory.resolveRequirements w r
  = ((loaded.1.1, ns,
      (λ e, Wrap e ("failed to requirements YAML file from " +:+ factory.Dir r))
        <$> loaded.2),
     [CallCreateJXClient; CallGetDevEnvironment ns] ++ parsed
     ++ [CallLoadRequirementsConfig (factory.Dir r)]).
Proof.
  intros Hclient Hdev Herr Hparse parsed loaded. subst parsed loaded.
  unfold factory.resolveRequirements.
  unfold CreateJXClient, GetDevEnvironment,
    GetRequirementsConfigFromTeamSettings, LoadRequirementsConfig,
    bind, request.
  rewrite Hclient; cbn. rewrite Hdev; cbn. rewrite Herr.
  destruct (world_LoadRequirementsConfig w (factory.Dir r))
    as [[requirements file] [le|]];
    destruct dev as [d|]; cbn; rewrite ?Hparse; reflexivity.
Qed.

Lemma resolveRequirements_from_file_witness :
  factory.resolveRequirements checkout {| factory.Kind := ""; factory.Dir := "." |}
  = ((Some gkeRequirements, "jx", None),
     [CallCreateJXClient; CallGetDevEnvironment "jx";
      CallLoadRequirementsConfig "."])
  ∧ factory.resolveRequirements freshCluster
      {| factory.Kind := ""; factory.Dir := "." |}
    = ((None, "jx",
        Some (Wrap (errorString "jx-requirements.yml file not found")
                "failed to requirements YAML file from .")),
       [CallCreateJXClient; CallGetDevEnvironment "jx";
        CallLoadRequirementsConfig "."]).
Proof.
  split.
  - apply (resolveRequirements_from_file checkout
             {| factory.Kind := ""; factory.Dir := "." |} "jx" None
             (Some (notFound "dev"))); reflexivity.
  - apply (resolveRequirements_from_file freshCluster
             {| factory.Kind := ""; factory.Dir := "." |} "jx" None
             (Some (notFound "dev"))); reflexivity.
Defined.

(** X2. When the lookup of the 'dev' environment fails with an error other
    than "not found", [resolveRequirements] returns that error, wrapped,
    and no requirements; it neither parses team settings nor loads the
    file, whatever the lookup returned next to its error. *)
Theorem resolveRequirements_lookup_failure w r ns dev e :
  world_CreateJXClient w = (ns, None) →
  world_GetDevEnvironment w ns = (dev, Some e) →
  IsNotFound e = false →
  factory.resolveRequirements w r
  = ((None, ns,
      Some (Wrap e "failed to find the 'dev' Environment resource")),
     [CallCreateJXClient; CallGetDevEnvironment ns]).
Proof.
  intros Hclient Hdev Hnf. unfold factory.resolveRequirements.
  unfold CreateJXClient, GetDevEnvironment, LoadRequirementsConfig,
    bind, request.
  rewrite Hclient; cbn. rewrite Hdev; cbn. rewrite Hnf.
  by destruct (world_LoadRequirementsConfig w (factory.Dir r)) as [[??]?].
Qed.

Lemma resolveRequirements_lookup_failure_witness :
  factory.resolveRequirements guardedCluster
    {| factory.Kind := ""; factory.Dir := "." |}
  = ((None, "jx",
      Some (Wrap (forbidden "dev")
              "failed to find the 'dev' Environment resource")),
     [CallCreateJXClient; CallGetDevEnvironment "jx"]).
Proof.
  apply (resolveRequirements_lookup_failure guardedCluster
           {| factory.Kind := ""; factory.Dir := "." |} "jx" None
           (forbidden "dev")); reflexivity.
Defined.

(** X3. Requirements found in the cluster win over the file: when the 'dev'
    environment is found and its team settings parse to a document,
    [resolveRequirements] returns that document and never asks for the
    requirements file. *)
Theorem resolveRequirements_cluster_first w r ns d err requirements :
  world_CreateJXClient w = (ns, None) →
  world_GetDevEnvironment w ns = (Some d, err) →
  notFoundIsNil err = None →
  world_GetRequirementsConfigFromTeamSettings w (Settings d)
  = (Some requirements, None) →
  factory.resolveRequirements w r
  = ((Some requirements, ns, None),
     [CallCreateJXClient; CallGetDevEnvironment ns;
      CallGetRequirementsConfigFromTeamSettings (Settings d)]).
Proof.
  intros Hclient Hdev Herr Hparse. unfold factory.resolveRequirements.
  unfold CreateJXClient, GetDevEnvironment,
    GetRequirementsConfigFromTeamSettings, LoadRequirementsConfig,
    bind, request.
  rewrite Hclient; cbn. rewrite Hdev; cbn. rewrite Herr, Hparse.
  by destruct (world_LoadRequirementsConfig w (factory.Dir r)) as [[??]?].
Qed.

Lemma resolveRequirements_cluster_first_witness :
  world_LoadRequirementsConfig devCluster "."
  = (Some eksRequirements, "./jx-requirements.yml", None)
  ∧ factory.resolveRequirements devCluster
      {| factory.Kind := ""; factory.Dir := "." |}
    = ((Some gkeRequirements, "jx", None),
       [CallCreateJXClient; CallGetDevEnvironment "jx";
        CallGetRequirementsConfigFromTeamSettings (Settings devEnvironment)]).
Proof.
  split; [reflexivity|].
  apply (resolveRequirements_cluster_first devCluster
           {| factory.Kind := ""; factory.Dir := "." |} "jx" devEnvironment
           None gkeRequirements); reflexivity.
Defined.

(** X4. Unless [resolveRequirements] returns requirements and no error,
    [CreateSecretManager] stops there: it returns the error of the
    resolution as it is, or, for missing requirements without an error, an
    error that names the namespace; it makes no further request, so no kind
    is resolved and no secret manager is made, and the resolver is left as
    it was. *)
Theorem CreateSecretManager_without_requirements c w r :
  let resolved := factory.resolveRequirements w r in
  match result resolved with
  | (_, _, Some e) =>
      factory.CreateSecretManager c w r = ((r, (None, Some e)), calls resolved)
  | (None, ns, None) =>
      factory.CreateSecretManager c w r
      = ((r, (None,
              Some (Errorf ("failed to resolve the jx-requirements.yml from the file system or the 'dev' Environment in namespace "
                              +:+ ns)))),
         calls resolved)
  | (Some _, _, None) => True
  end.
Proof.
  intros resolved. subst resolved. unfold factory.CreateSecretManager.
  unfold bind at 1.
  destruct (factory.resolveRequirements w r) as [[[requirements ns] err] asked].
  cbn. destruct requirements, err; cbn; by rewrite ?app_nil_r.
Qed.

(** With a kind in the resolver, [resolveKind] is not run. *)
Lemma CreateSecretManager_with_kind c w r requirements ns :
  factory.Kind r ≠ "" →
  result (factory.resolveRequirements w r) = (Some requirements, ns, None) →
  factory.CreateSecretManager c w r
  = ((r, world_NewSecretManager w (factory.Kind r) requirements),
     calls (factory.resolveRequirements w r)
     ++ [CallNewSecretManager (factory.Kind r) requirements]).
Proof.
  intros Hkind Hreq. unfold factory.CreateSecretManager.
  unfold bind at 1. fold (result (factory.resolveRequirements w r)).
  rewrite Hreq. rewrite decide_False by done.
  unfold factory.NewSecretManager, bind, request. by cbn.
Qed.

(** X5. With a kind given beforehand, [CreateSecretManager] hands that kind
    and the resolved requirements to the factory and returns the factory's
    answer, leaving the resolver as it was; beyond requirements resolution
    it makes no request to the cluster: no Kubernetes client is created and
    no secret is looked up. *)
Theorem CreateSecretManager_explicit_kind c w r requirements ns :
  factory.Kind r ≠ "" →
  result (factory.resolveRequirements w r) = (Some requirements, ns, None) →
  factory.CreateSecretManager c w r
  = ((r, world_NewSecretManager w (factory.Kind r) requirements),
     calls (factory.resolveRequirements w r)
     ++ [CallNewSecretManager (factory.Kind r) requirements])
  ∧ (CallCreateKubeClient ∉ calls (factory.CreateSecretManager c w r))
  ∧ ∀ ns' name,
      CallSecretsGet ns' name ∉ calls (factory.CreateSecretManager c w r).
Proof.
  intros Hkind Hreq.
  rewrite (CreateSecretManager_with_kind c w r requirements ns Hkind Hreq).
  split; [done|].
  assert (Hother : ∀ call,
             call ∈ calls (factory.resolveRequirements w r)
                    ++ [CallNewSecretManager (factory.Kind r) requirements] →
             call ≠ CallCreateKubeClient
             ∧ ∀ ns' name, call ≠ CallSecretsGet ns' name).
  { intros call [Hin|Hin]%elem_of_app.
    - apply resolveRequirements_calls in Hin.
      destruct Hin as [->|[[? ->]|[[? ->]|[? ->]]]]; by split.
    - apply list_elem_of_singleton in Hin as ->. by split. }
  split.
  - intros Hin. by destruct (Hother _ Hin) as [Hne _].
  - intros ns' name Hin. destruct (Hother _ Hin) as [_ Hne].
    by apply (Hne ns' name).
Qed.

Lemma CreateSecretManager_explicit_kind_witness :
  factory.CreateSecretManager sampleConstants devCluster
    {| factory.Kind := "vault"; factory.Dir := "." |}
  = (({| factory.Kind := "vault"; factory.Dir := "." |},
      (Some "vault", None)),
     [CallCreateJXClient; CallGetDevEnvironment "jx";
      CallGetRequirementsConfigFromTeamSettings (Settings devEnvironment);
      CallNewSecretManager "vault" gkeRequirements]).
Proof.
  apply (CreateSecretManager_explicit_kind sampleConstants devCluster
           {| factory.Kind := "vault"; factory.Dir := "." |}
           gkeRequirements "jx"); [discriminate|reflexivity].
Defined.

(** X6. With no kind given and non-empty kind constants, a kind that
    [resolveKind] returns without an error is stored in the resolver and
    handed to the factory, whose answer is returned; a second call on the
    resolver so left asks the factory for the same kind without creating a
    Kubernetes client or looking up the secret again. *)
Theorem CreateSecretManager_remembers_kind c w r requirements ns kind :
  KindLocal c ≠ "" →
  KindGoogleSecretManager c ≠ "" →
  factory.Kind r = "" →
  result (factory.resolveRequirements w r) = (Some requirements, ns, None) →
  result (factory.resolveKind c w requirements) = (kind, None) →
  let r' := {| factory.Kind := kind; factory.Dir := factory.Dir r |} in
  factory.CreateSecretManager c w r
  = ((r', world_NewSecretManager w kind requirements),
     calls (factory.resolveRequirements w r)
     ++ calls (factory.resolveKind c w requirements)
     ++ [CallNewSecretManager kind requirements])
  ∧ factory.CreateSecretManager c w r'
    = ((r', world_NewSecretManager w kind requirements),
       calls (factory.resolveRequirements w r)
       ++ [CallNewSecretManager kind requirements]).
Proof.
  intros Hlocal Hgsm Hempty Hreq Hkind r'.
  assert (Hne : kind ≠ "").
  { destruct (resolveKind_kinds _ _ _ _ Hkind); congruence. }
  split.
  - unfold factory.CreateSecretManager.
    unfold bind at 1. fold (result (factory.resolveRequirements w r)).
    rewrite Hreq. rewrite decide_True by done.
    unfold bind at 1. fold (result (factory.resolveKind c w requirements)).
    rewrite Hkind. cbn. unfold factory.defaultKind.
    rewrite decide_False by done.
    unfold factory.NewSecretManager, bind, request. cbn.
    fold (calls (factory.resolveRequirements w r)).
    fold (calls (factory.resolveKind c w requirements)).
    reflexivity.
  - assert (Hsame : factory.resolveRequirements w r'
                    = factory.resolveRequirements w r) by done.
    rewrite <- Hsame.
    apply CreateSecretManager_with_kind with (ns := ns); [done|].
    by rewrite Hsame.
Qed.

Lemma CreateSecretManager_remembers_kind_witness :
  factory.CreateSecretManager sampleConstants checkout
    {| factory.Kind := ""; factory.Dir := "." |}
  = (({| factory.Kind := "google-secret-manager"; factory.Dir := "." |},
      (Some "google-secret-manager", None)),
     [CallCreateJXClient; CallGetDevEnvironment "jx";
      CallLoadRequirementsConfig "."; CallCreateKubeClient;
      CallSecretsGet "jx" "jx-boot-secrets";
      CallNewSecretManager "google-secret-manager" gkeRequirements])
  ∧ factory.CreateSecretManager sampleConstants checkout
      {| factory.Kind := "google-secret-manager"; factory.Dir := "." |}
    = (({| factory.Kind := "google-secret-manager"; factory.Dir := "." |},
        (Some "google-secret-manager", None)),
       [CallCreateJXClient; CallGetDevEnvironment "jx";
        CallLoadRequirementsConfig ".";
        CallNewSecretManager "google-secret-manager" gkeRequirements]).
Proof.
  apply (CreateSecretManager_remembers_kind sampleConstants checkout
           {| factory.Kind := ""; factory.Dir := "." |} gkeRequirements "jx"
           "google-secret-manager");
    solve [discriminate | reflexivity].
Defined.

(** ** The secrets YAML exporter, step by step *)

Lemma Run_steps c w o : secrets.Run c w o = runSteps c w o.
Proof. reflexivity. Qed.

Lemma chooseSecretFile_result w o :
  result (chooseSecretFile w o) = secretFileOf w o.
Proof. unfold chooseSecretFile, secretFileOf. by case_decide. Qed.

Lemma chooseSecretFile_calls w o call :
  call ∈ calls (chooseSecretFile w o) → call = CallGetenv "JXL_SECRET_FILE".
Proof. unfold chooseSecretFile. case_decide; cbn; in_calls. Qed.

Lemma chooseOutFile_result w o :
  secrets.OutFile (result (chooseOutFile w o)) = outFileOf w o.
Proof. unfold chooseOutFile, outFileOf. by case_decide. Qed.

Lemma chooseOutFile_calls w o call :
  call ∈ calls (chooseOutFile w o) → call = CallGetenv "JX_SECRETS_YAML".
Proof. unfold chooseOutFile. case_decide; cbn; in_calls. Qed.

Lemma dataFromFile_calls w secretFile call :
  call ∈ calls (dataFromFile w secretFile) →
  call = CallFileExists secretFile ∨ call = CallReadFile secretFile.
Proof.
  unfold dataFromFile. rewrite bind_calls.
  intros [Hin|Hin]%elem_of_app; [by apply loadSecretFile_calls in Hin|].
  revert Hin.
  destruct (result (secrets.loadSecretFile w secretFile)) as [data [e|]];
    [|case_decide]; cbn; by intros ?%elem_of_nil.
Qed.

Lemma dataFromFile_result w secretFile :
  result (dataFromFile w secretFile)
  = match result (secrets.loadSecretFile w secretFile) with
    | (data, Some e) => (data, Some e)
    | (data, None) =>
        if decide (size data = 0) then
          (data, Some (Errorf ("no data for secret file " +:+ secretFile)))
        else (data, None)
    end.
Proof.
  unfold dataFromFile. rewrite bind_result.
  destruct (result (secrets.loadSecretFile w secretFile)) as [data [e|]];
    [done|]. by case_decide.
Qed.

Lemma dataFromCluster_calls c w o ns call :
  call ∈ calls (dataFromCluster c w o ns) →
  call = CallGetenv "JXL_SECRET_NAME"
  ∨ call = CallSecretsGet ns (secretNameOf c w o).
Proof.
  unfold dataFromCluster, secretNameOf, Getenv, SecretsGet, bind, request.
  destruct (decide (secrets.SecretName o = "")) as [Hname|Hname]; cbn;
    match goal with
    | |- context [world_SecretsGet w ns ?n] =>
        destruct (world_SecretsGet w ns n) as [secret [e|]]
    end; cbn;
    try destruct (IsNotFound e); try case_decide; cbn; in_calls.
Qed.

Lemma dataFromCluster_result c w o ns :
  let secretName := secretNameOf c w o in
  result (dataFromCluster c w o ns)
  = match world_SecretsGet w ns secretName with
    | (_, Some e) =>
        if IsNotFound e then
          (∅, Some (Errorf ("could not read Secret " +:+ secretName
                              +:+ " in namespace " +:+ ns)))
        else
          (∅, Some (Wrap e ("failed to read Secret " +:+ secretName
                              +:+ " in namespace " +:+ ns)))
    | (secret, None) =>
        if decide (size (Data secret) = 0) then
          (Data secret,
           Some (Errorf ("no data for Secret " +:+ secretName
                           +:+ " in namespace " +:+ ns)))
        else (Data secret, None)
    end.
Proof.
  unfold dataFromCluster, secretNameOf, Getenv, SecretsGet, bind, request,
    result.
  destruct (decide (secrets.SecretName o = "")) as [Hname|Hname]; cbn;
    match goal with
    | |- context [world_SecretsGet w ns ?n] =>
        destruct (world_SecretsGet w ns n) as [secret [e|]]
    end; cbn;
    try destruct (IsNotFound e); try case_decide; done.
Qed.

Lemma generateSecretsYAML_calls c w fileName secretData call :
  call ∈ calls (secrets.generateSecretsYAML c w fileName secretData) →
  (∃ values, call = CallMarshal values)
  ∨ (∃ data, call = CallWriteFile fileName data (DefaultFileWritePermissions c))
  ∨ (∃ message, call = CallInfof message).
Proof.
  unfold secrets.generateSecretsYAML, secrets.Marshal, secrets.WriteFile,
    Infof, bind, request.
  case_decide; cbn.
  - match goal with
    | |- context [world_Marshal w ?v] =>
        destruct (world_Marshal w v) as [data [e|]]
    end; cbn; [in_calls|].
    destruct (world_WriteFile w fileName data (DefaultFileWritePermissions c));
      cbn; in_calls.
  - match goal with
    | |- context [world_WriteFile w fileName ?d ?p] =>
        destruct (world_WriteFile w fileName d p)
    end; cbn; in_calls.
Qed.

(** Every request of [Run], by the step that makes it. *)
Lemma Run_calls c w o call :
  call ∈ calls (secrets.Run c w o) →
  call = CallCreateKubeClient
  ∨ call = CallGetenv "JXL_SECRET_FILE"
  ∨ (secretFileOf w o ≠ ""
     ∧ (call = CallFileExists (secretFileOf w o)
        ∨ call = CallReadFile (secretFileOf w o)))
  ∨ (secretFileOf w o = ""
     ∧ (call = CallGetenv "JXL_SECRET_NAME"
        ∨ call = CallSecretsGet (world_CreateKubeClient w).1
                   (secretNameOf c w o)))
  ∨ call = CallGetenv "JX_SECRETS_YAML"
  ∨ (outFileOf w o ≠ ""
     ∧ ∃ data,
         call ∈ calls (secrets.generateSecretsYAML c w (outFileOf w o) data)).
Proof.
  rewrite Run_steps. unfold runSteps.
  rewrite bind_calls. intros [Hin|Hin]%elem_of_app.
  { left. revert Hin. cbn. in_calls. }
  revert Hin. unfold CreateKubeClient, request. cbn [result fst snd].
  destruct (world_CreateKubeClient w) as [ns [e|]]; cbn [fst snd].
  { by intros ?%elem_of_nil. }
  rewrite bind_calls. intros [Hin|Hin]%elem_of_app.
  { right; left. by apply chooseSecretFile_calls in Hin. }
  revert Hin. rewrite chooseSecretFile_result, bind_calls.
  intros [Hin|Hin]%elem_of_app.
  { case_decide as Hfile.
    - right; right; left. split; [done|]. by apply dataFromFile_calls in Hin.
    - right; right; right; left. split; [by destruct (decide (secretFileOf w o = "")); [|destruct Hfile]|].
      by apply dataFromCluster_calls in Hin. }
  revert Hin.
  match goal with
  | |- context [result ?m] => destruct (result m) as [data [e|]]
  end.
  { by intros ?%elem_of_nil. }
  rewrite bind_calls. intros [Hin|Hin]%elem_of_app.
  { do 4 right; left. by apply chooseOutFile_calls in Hin. }
  revert Hin. rewrite chooseOutFile_result. case_decide as Hout.
  { by intros ?%elem_of_nil. }
  rewrite bind_calls. intros [Hin|Hin]%elem_of_app; [|by apply elem_of_nil in Hin].
  do 5 right. split; [done|]. by exists data.
Qed.

(** Where [Run] takes its data from, once it has a Kubernetes client in
    namespace [ns]. *)
Lemma Run_source c w o ns :
  world_CreateKubeClient w = (ns, None) →
  let source :=
    if decide (secretFileOf w o ≠ "") then dataFromFile w (secretFileOf w o)
    else dataFromCluster c w o ns in
  secrets.Run c w o
  = match result source with
    | (_, Some e) =>
        ((o, Some e),
         [CallCreateKubeClient] ++ calls (chooseSecretFile w o) ++ calls source)
    | (data, None) =>
        let o' := result (chooseOutFile w o) in
        if decide (outFileOf w o = "") then
          ((o', Some (MissingOption w "out")),
           [CallCreateKubeClient] ++ calls (chooseSecretFile w o)
           ++ calls source ++ calls (chooseOutFile w o))
        else
          let written :=
            secrets.generateSecretsYAML c w (outFileOf w o) data in
          ((o', result written),
           [CallCreateKubeClient] ++ calls (chooseSecretFile w o)
           ++ calls source ++ calls (chooseOutFile w o) ++ calls written)
    end.
Proof.
  intros Hclient source. rewrite Run_steps. unfold runSteps.
  unfold bind at 1. unfold CreateKubeClient, request. cbn [fst snd].
  rewrite Hclient.
  unfold bind at 1. fold (result (chooseSecretFile w o)).
  fold (calls (chooseSecretFile w o)). rewrite chooseSecretFile_result.
  fold source.
  unfold bind at 1. fold (result source). fold (calls source).
  destruct (result source) as [data [e|]]; cbn [ret fst snd].
  { cbn. by rewrite !app_nil_r. }
  unfold bind at 1. fold (result (chooseOutFile w o)).
  fold (calls (chooseOutFile w o)). rewrite chooseOutFile_result.
  case_decide as Hout; cbn [ret fst snd].
  { cbn. by rewrite !app_nil_r. }
  unfold bind at 1. cbn [ret fst snd].
  fold (result (secrets.generateSecretsYAML c w (outFileOf w o) data)).
  fold (calls (secrets.generateSecretsYAML c w (outFileOf w o) data)).
  cbn. by rewrite !app_nil_r.
Qed.

(** X7. [Run] touches nothing but what it was pointed at: it writes no file
    other than the chosen output file, and that one with the default file
    mode; it reads no file other than the chosen secret file; and it reads a
    Secret only when no secret file is chosen, and then only the chosen
    Secret, in the namespace of the Kubernetes client. *)
Theorem Run_touches_only_chosen c w o :
  (∀ fileName data perm,
     CallWriteFile fileName data perm ∈ calls (secrets.Run c w o) →
     fileName = outFileOf w o ∧ fileName ≠ ""
     ∧ perm = DefaultFileWritePermissions c)
  ∧ (∀ fileName,
       CallReadFile fileName ∈ calls (secrets.Run c w o) →
       fileName = secretFileOf w o ∧ fileName ≠ "")
  ∧ (∀ ns name,
       CallSecretsGet ns name ∈ calls (secrets.Run c w o) →
       secretFileOf w o = "" ∧ name = secretNameOf c w o
       ∧ ns = (world_CreateKubeClient w).1).
Proof.
  split; [|split].
  - intros fileName data perm Hin. apply Run_calls in Hin.
    destruct Hin as [?|[?|[[_ [?|?]]|[[_ [?|?]]|[?|[Hout [data' Hin]]]]]]];
      try discriminate.
    apply generateSecretsYAML_calls in Hin.
    destruct Hin as [[? ?]|[[? [= -> _ ->]]|[? ?]]]; try discriminate.
    done.
  - intros fileName Hin. apply Run_calls in Hin.
    destruct Hin as [?|[?|[[Hfile [?|[= ->]]]|[[_ [?|?]]|[?|[_ [data' Hin]]]]]]];
      try discriminate; [done|].
    apply generateSecretsYAML_calls in Hin.
    destruct Hin as [[? ?]|[[? ?]|[? ?]]]; discriminate.
  - intros ns name Hin. apply Run_calls in Hin.
    destruct Hin as [?|[?|[[_ [?|?]]|[[Hfile [?|[= -> ->]]]|[?|[_ [data' Hin]]]]]]];
      try discriminate; [done|].
    apply generateSecretsYAML_calls in Hin.
    destruct Hin as [[? ?]|[[? ?]|[? ?]]]; discriminate.
Qed.

Lemma Run_touches_only_chosen_witness :
  "/tmp/secrets.yaml" = outFileOf secretsFile yamlOptions
  ∧ "/tmp/secrets.yaml" ≠ ""
  ∧ 420%Z = DefaultFileWritePermissions sampleConstants.
Proof.
  apply (proj1 (Run_touches_only_chosen sampleConstants secretsFile
                  yamlOptions)
           "/tmp/secrets.yaml"
           (world_Marshal secretsFile
              (VMap {[ "secrets" :=
                         VMap (secrets.expandSecrets secretsFile
                                 {[ "adminUser.password" :=
                                      list_byte_of_string "s3cret";
                                    "pipelineUser.token" :=
                                      list_byte_of_string "abc:def" ]}) ]})).1).
  apply list_elem_of_In. vm_compute. do 6 right. left. reflexivity.
Defined.

(** X8. Without an output path (neither the option nor [JX_SECRETS_YAML]
    gives one) [Run] returns an error, whatever the secret source holds,
    and neither marshals nor writes anything. *)
Theorem Run_without_output_path c w o :
  outFileOf w o = "" →
  (result (secrets.Run c w o)).2 ≠ None
  ∧ (∀ fileName data perm,
       CallWriteFile fileName data perm ∉ calls (secrets.Run c w o))
  ∧ (∀ values, CallMarshal values ∉ calls (secrets.Run c w o)).
Proof.
  intros Hout. split; [|split].
  - destruct (world_CreateKubeClient w) as [ns [e|]] eqn:Hclient.
    + rewrite Run_steps. unfold runSteps. rewrite bind_result.
      unfold CreateKubeClient, request. cbn [result fst snd].
      by rewrite Hclient.
    + rewrite (Run_source c w o ns Hclient). cbn zeta.
      destruct (result (if decide (secretFileOf w o ≠ "")
                        then dataFromFile w (secretFileOf w o)
                        else dataFromCluster c w o ns)) as [data [e|]];
        [done|]. by rewrite decide_True.
  - intros fileName data perm Hin. apply Run_calls in Hin.
    destruct Hin as [?|[?|[[_ [?|?]]|[[_ [?|?]]|[?|[Hne _]]]]]];
      try discriminate. done.
  - intros values Hin. apply Run_calls in Hin.
    destruct Hin as [?|[?|[[_ [?|?]]|[[_ [?|?]]|[?|[Hne _]]]]]];
      try discriminate. done.
Qed.

Lemma Run_without_output_path_witness :
  (result (secrets.Run sampleConstants bootedCluster yamlOptions)).2 ≠ None.
Proof.
  apply (Run_without_output_path sampleConstants bootedCluster yamlOptions).
  reflexivity.
Defined.

(** X9. [Run] needs a Kubernetes client even when its data comes from a
    secret file: when none can be created it returns that error as it is
    and makes no other request. *)
Theorem Run_client_failure c w o ns e :
  world_CreateKubeClient w = (ns, Some e) →
  secrets.Run c w o = ((o, Some e), [CallCreateKubeClient]).
Proof.
  intros Hclient. rewrite Run_steps. unfold runSteps.
  unfold CreateKubeClient, bind, request. by rewrite Hclient.
Qed.

Lemma Run_client_failure_witness :
  secretFileOf offline yamlOptions = "/secrets/boot"
  ∧ secrets.Run sampleConstants offline yamlOptions
    = ((yamlOptions, Some noKubeConfig), [CallCreateKubeClient]).
Proof.
  split; [reflexivity|].
  apply (Run_client_failure sampleConstants offline yamlOptions ""
           noKubeConfig). reflexivity.
Defined.

(** X10. With a secret file chosen that loads to a non-empty map, and an
    output path, [Run] returns what [generateSecretsYAML] returns for the
    output path and the loaded data, and its requests end with those of
    [generateSecretsYAML]; the options it leaves carry the output path. *)
Theorem Run_exports_secret_file c w o ns data :
  world_CreateKubeClient w = (ns, None) →
  secretFileOf w o ≠ "" →
  result (secrets.loadSecretFile w (secretFileOf w o)) = (data, None) →
  data ≠ ∅ →
  outFileOf w o ≠ "" →
  let written := secrets.generateSecretsYAML c w (outFileOf w o) data in
  (result (secrets.Run c w o)).2 = result written
  ∧ secrets.OutFile (result (secrets.Run c w o)).1 = outFileOf w o
  ∧ calls (secrets.Run c w o)
    = [CallCreateKubeClient] ++ calls (chooseSecretFile w o)
      ++ calls (secrets.loadSecretFile w (secretFileOf w o))
      ++ calls (chooseOutFile w o) ++ calls written.
Proof.
  intros Hclient Hfile Hload Hdata Hout written.
  rewrite (Run_source c w o ns Hclient). cbn zeta.
  rewrite decide_True by done. rewrite dataFromFile_result, Hload.
  rewrite decide_False by (by rewrite map_size_empty_iff).
  rewrite decide_False by done. cbn [result calls fst snd].
  split; [done|]. split; [apply chooseOutFile_result|].
  do 2 f_equal. unfold dataFromFile. rewrite bind_calls.
  fold (result (secrets.loadSecretFile w (secretFileOf w o))).
  rewrite Hload.
  rewrite decide_False by (by rewrite map_size_empty_iff).
  cbn. by rewrite app_nil_r.
Qed.

Lemma Run_exports_secret_file_witness :
  (result (secrets.Run sampleConstants secretsFile yamlOptions)).2
  = result (secrets.generateSecretsYAML sampleConstants secretsFile
              "/tmp/secrets.yaml"
              {[ "adminUser.password" := list_byte_of_string "s3cret";
                 "pipelineUser.token" := list_byte_of_string "abc:def" ]}).
Proof.
  refine (proj1 (Run_exports_secret_file sampleConstants secretsFile
                   yamlOptions "jx"
                   {[ "adminUser.password" := list_byte_of_string "s3cret";
                      "pipelineUser.token" := list_byte_of_string "abc:def" ]}
                   _ _ _ _ _)).
  - reflexivity.
  - discriminate.
  - vm_compute; reflexivity.
  - apply insert_non_empty.
  - discriminate.
Defined.

(** X11. With no secret file chosen, a Secret that is found with data, and
    an output path, [Run] returns what [generateSecretsYAML] returns for the
    output path and the data of the Secret; the Secret is the only thing it
    reads: no file is checked for or read. *)
Theorem Run_exports_cluster_secret c w o ns secret :
  world_CreateKubeClient w = (ns, None) →
  secretFileOf w o = "" →
  world_SecretsGet w ns (secretNameOf c w o) = (secret, None) →
  Data secret ≠ ∅ →
  outFileOf w o ≠ "" →
  let written :=
    secrets.generateSecretsYAML c w (outFileOf w o) (Data secret) in
  (result (secrets.Run c w o)).2 = result written
  ∧ calls (secrets.Run c w o)
    = [CallCreateKubeClient] ++ calls (chooseSecretFile w o)
      ++ calls (dataFromCluster c w o ns)
      ++ calls (chooseOutFile w o) ++ calls written
  ∧ ∀ fileName,
      (CallFileExists fileName ∉ calls (secrets.Run c w o))
      ∧ (CallReadFile fileName ∉ calls (secrets.Run c w o)).
Proof.
  intros Hclient Hfile Hget Hdata Hout written. split; [|split].
  - rewrite (Run_source c w o ns Hclient). cbn zeta.
    rewrite decide_False by (by intros []).
    pose proof (dataFromCluster_result c w o ns) as Hres. cbn zeta in Hres.
    rewrite Hget in Hres. rewrite Hres.
    rewrite decide_False by (by rewrite map_size_empty_iff).
    by rewrite decide_False by done.
  - rewrite (Run_source c w o ns Hclient). cbn zeta.
    rewrite decide_False by (by intros []).
    pose proof (dataFromCluster_result c w o ns) as Hres. cbn zeta in Hres.
    rewrite Hget in Hres. rewrite Hres.
    rewrite decide_False by (by rewrite map_size_empty_iff).
    by rewrite decide_False by done.
  - intros fileName. split; intros Hin; apply Run_calls in Hin;
      destruct Hin as [?|[?|[[Hne _]|[[_ [?|?]]|[?|[_ [data' Hin]]]]]]];
      try discriminate; try done;
      apply generateSecretsYAML_calls in Hin;
      destruct Hin as [[? ?]|[[? ?]|[? ?]]]; discriminate.
Qed.

Lemma Run_exports_cluster_secret_witness :
  (result (secrets.Run sampleConstants devCluster yamlOptions)).2
  = result (secrets.generateSecretsYAML sampleConstants devCluster
              "/tmp/secrets.yaml"
              {[ "adminUser.password" := list_byte_of_string "s3cret" ]}).
Proof.
  refine (proj1 (Run_exports_cluster_secret sampleConstants devCluster
                   yamlOptions "jx"
                   {| Data := {[ "adminUser.password" :=
                                   list_byte_of_string "s3cret" ]} |}
                   _ _ _ _ _)).
  - reflexivity.
  - reflexivity.
  - vm_compute; reflexivity.
  - apply map_non_empty_singleton.
  - discriminate.
Defined.

(** X12. With no secret file chosen, when reading the Secret fails, [Run]
    returns an error and leaves the options as they were: for "not found" a
    new error that names the Secret and the namespace, in which the cause is
    not kept; for any other error that error, wrapped. *)
Theorem Run_secret_lookup_failure c w o ns secret e :
  world_CreateKubeClient w = (ns, None) →
  secretFileOf w o = "" →
  world_SecretsGet w ns (secretNameOf c w o) = (secret, Some e) →
  let name := secretNameOf c w o in
  result (secrets.Run c w o)
  = (o,
     Some (if IsNotFound e then
             Errorf ("could not read Secret " +:+ name +:+ " in namespace "
                       +:+ ns)
           else
             Wrap e ("failed to read Secret " +:+ name +:+ " in namespace "
                       +:+ ns))).
Proof.
  intros Hclient Hfile Hget name. subst name.
  rewrite (Run_source c w o ns Hclient). cbn zeta.
  rewrite decide_False by (by intros []).
  pose proof (dataFromCluster_result c w o ns) as Hres. cbn zeta in Hres.
  rewrite Hget in Hres. rewrite Hres. by destruct (IsNotFound e).
Qed.

Lemma Run_secret_lookup_failure_witness :
  result (secrets.Run sampleConstants freshCluster yamlOptions)
  = (yamlOptions,
     Some (Errorf "could not read Secret jx-boot-secrets in namespace jx"))
  ∧ result (secrets.Run sampleConstants lockedCluster yamlOptions)
    = (yamlOptions,
       Some (Wrap (forbidden "jx-boot-secrets")
               "failed to read Secret jx-boot-secrets in namespace jx")).
Proof.
  split.
  - apply (Run_secret_lookup_failure sampleConstants freshCluster yamlOptions
             "jx" {| Data := ∅ |} (notFound "jx-boot-secrets"));
      reflexivity.
  - apply (Run_secret_lookup_failure sampleConstants lockedCluster yamlOptions
             "jx" {| Data := ∅ |} (forbidden "jx-boot-secrets"));
      reflexivity.
Defined.

(** X13. A non-empty value under the raw-YAML key makes every other key of
    the data irrelevant: [generateSecretsYAML] does what it does for the
    data that holds that key alone. *)
Theorem generateSecretsYAML_raw_wins c w fileName secretData raw :
  secretData !! LocalSecretKey c = Some raw →
  raw ≠ [] →
  secrets.generateSecretsYAML c w fileName secretData
  = secrets.generateSecretsYAML c w fileName {[ LocalSecretKey c := raw ]}.
Proof.
  intros Hraw Hne.
  rewrite (generateSecretsYAML_verbatim c w fileName secretData raw Hraw Hne).
  symmetry. apply generateSecretsYAML_verbatim; [|done].
  apply lookup_singleton_eq.
Qed.

Lemma generateSecretsYAML_raw_wins_witness :
  secrets.generateSecretsYAML sampleConstants freshCluster "/tmp/secrets.yaml"
    {[ "secrets.yaml" := list_byte_of_string "a: b";
       "adminUser.password" := list_byte_of_string "s3cret" ]}
  = secrets.generateSecretsYAML sampleConstants freshCluster
      "/tmp/secrets.yaml" {[ "secrets.yaml" := list_byte_of_string "a: b" ]}.
Proof.
  apply (generateSecretsYAML_raw_wins sampleConstants freshCluster
           "/tmp/secrets.yaml" _ (list_byte_of_string "a: b"));
    [vm_compute; reflexivity|discriminate].
Defined.

(** X14. [generateSecretsYAML] writes at most once, and only to the output
    file with the default permissions: the writes in its log are none or
    exactly one.  It returns [nil] exactly when it made its one write and
    the write succeeded: a failure to marshal or to write is never passed
    over. *)
Theorem generateSecretsYAML_nil_iff_written c w fileName secretData :
  let run := secrets.generateSecretsYAML c w fileName secretData in
  let perm := DefaultFileWritePermissions c in
  (fileWrites (calls run) = []
   ∨ ∃ data, fileWrites (calls run) = [(fileName, data, perm)])
  ∧ (result run = None
     ↔ ∃ data, fileWrites (calls run) = [(fileName, data, perm)]
               ∧ world_WriteFile w fileName data perm = None).
Proof.
  intros run perm. subst run perm.
  unfold secrets.generateSecretsYAML, secrets.Marshal, secrets.WriteFile,
    Infof, bind, request, result, calls, fileWrites.
  case_decide; cbn.
  - match goal with
    | |- context [world_Marshal w ?v] =>
        destruct (world_Marshal w v) as [data [e|]]
    end; cbn.
    { split; [by left|]. split; [done|]. by intros (d & [=] & _). }
    destruct (world_WriteFile w fileName data (DefaultFileWritePermissions c))
      as [e|] eqn:Hwrite; cbn.
    + split; [right; by exists data|]. split; [done|].
      intros (d & [= <-] & Hok). congruence.
    + split; [right; by exists data|]. split; [|done].
      intros _. by exists data.
  - set (raw := default [] (secretData !! LocalSecretKey c)).
    destruct (world_WriteFile w fileName raw (DefaultFileWritePermissions c))
      as [e|] eqn:Hwrite; cbn.
    + split; [right; by exists raw|]. split; [done|].
      intros (d & [= <-] & Hok). congruence.
    + split; [right; by exists raw|]. split; [|done].
      intros _. by exists raw.
Qed.

Lemma generateSecretsYAML_nil_iff_written_witness :
  result (secrets.generateSecretsYAML sampleConstants freshCluster
            "/tmp/secrets.yaml"
            {[ "secrets.yaml" := list_byte_of_string "a: b" ]})
  = None.
Proof.
  apply (proj2 (generateSecretsYAML_nil_iff_written sampleConstants
                  freshCluster "/tmp/secrets.yaml"
                  {[ "secrets.yaml" := list_byte_of_string "a: b" ]})).
  exists (list_byte_of_string "a: b"). split; reflexivity.
Defined.

(** ** Secret files, line by line *)

Lemma SplitN2_cut s sep :
  SplitN2 s sep
  = match cut s sep with
    | Some (before, after) => [before; after]
    | None => [s]
    end.
Proof. done. Qed.

(** The body of the loop inserts the entry of the line, if it has one. *)
Lemma loadSecretLine_entry w answer l :
  secrets.loadSecretLine w answer l
  = match entryOf w l with
    | Some (key, value) => <[key := value]> answer
    | None => answer
    end.
Proof.
  unfold secrets.loadSecretLine, entryOf, secrets.TrimSpace.
  destruct (bool_decide (world_TrimSpace w l = "")
            || HasPrefix (world_TrimSpace w l) "#"); [done|].
  rewrite SplitN2_cut.
  by destruct (cut (world_TrimSpace w l) ":") as [[key value]|].
Qed.

(** A key that is set stays as it is over lines that are no entry for
    it. *)
Lemma loadSecretLines_keep w lines answer key value :
  answer !! key = Some value →
  (∀ l value', l ∈ lines → entryOf w l ≠ Some (key, value')) →
  foldl (secrets.loadSecretLine w) answer lines !! key = Some value.
Proof.
  revert answer. induction lines as [|l lines IH]; intros answer Hkey Hother;
    [done|].
  cbn. apply IH.
  - rewrite loadSecretLine_entry.
    destruct (entryOf w l) as [[key' value']|] eqn:Hentry; [|done].
    rewrite lookup_insert_ne; [done|].
    intros ->. apply (Hother l value'); [left|done].
  - intros l' value' Hin. apply Hother. by right.
Qed.

(** A key of the loaded map was there before or comes from a line. *)
Lemma loadSecretLines_origin w lines answer key value :
  foldl (secrets.loadSecretLine w) answer lines !! key = Some value →
  answer !! key = Some value
  ∨ ∃ l, l ∈ lines ∧ entryOf w l = Some (key, value).
Proof.
  revert answer. induction lines as [|l lines IH]; intros answer; [by left|].
  cbn. intros [Hin|(l' & Hin & Hentry)]%IH.
  - rewrite loadSecretLine_entry in Hin.
    destruct (entryOf w l) as [[key' value']|] eqn:Hentry; [|by left].
    destruct (decide (key' = key)) as [->|Hne].
    + rewrite lookup_insert_eq in Hin. injection Hin as ->.
      right. exists l. split; [left|done].
    + rewrite lookup_insert_ne in Hin by done. by left.
  - right. exists l'. split; [by right|done].
Qed.

Lemma loadSecretFile_read w fileName data :
  world_FileExists w fileName = (true, None) →
  world_ReadFile w fileName = (data, None) →
  secrets.loadSecretFile w fileName
  = ((foldl (secrets.loadSecretLine w) ∅
        (Split (string_of_list_byte data) "010"), None),
     [CallFileExists fileName; CallReadFile fileName]).
Proof.
  intros Hexists Hread.
  unfold secrets.loadSecretFile, secrets.FileExists, secrets.ReadFile,
    bind, request.
  cbn. rewrite Hexists. cbn. by rewrite Hread.
Qed.

(** X15. For a secret file that exists and can be read, the loaded map
    holds the entries of its lines and nothing else, and where several
    lines give the same key the last of them decides: a line gives an entry
    when, trimmed, it is not blank, does not start with [#] and has a colon;
    the key is what stands before its first colon and the value what stands
    after, both trimmed. *)
Theorem loadSecretFile_last_entry_wins w fileName data :
  world_FileExists w fileName = (true, None) →
  world_ReadFile w fileName = (data, None) →
  let lines := Split (string_of_list_byte data) "010" in
  let loaded := (result (secrets.loadSecretFile w fileName)).1 in
  (∀ before l after key value,
     lines = before ++ l :: after →
     entryOf w l = Some (key, value) →
     (∀ l' value', l' ∈ after → entryOf w l' ≠ Some (key, value')) →
     loaded !! key = Some value)
  ∧ (∀ key value,
       loaded !! key = Some value →
       ∃ l, l ∈ lines ∧ entryOf w l = Some (key, value)).
Proof.
  intros Hexists Hread lines loaded. subst loaded.
  rewrite (loadSecretFile_read w fileName data Hexists Hread).
  cbn [result fst snd]. fold lines. split.
  - intros before l after key value -> Hentry Hlast.
    rewrite foldl_app. cbn. apply loadSecretLines_keep; [|done].
    rewrite loadSecretLine_entry, Hentry. apply lookup_insert_eq.
  - intros key value [Hin|?]%loadSecretLines_origin; [|done].
    by rewrite lookup_empty in Hin.
Qed.

Lemma loadSecretFile_last_entry_wins_witness :
  (result (secrets.loadSecretFile secretsFile "/secrets/boot")).1
    !! "pipelineUser.token"
  = Some (list_byte_of_string "abc:def").
Proof.
  destruct (loadSecretFile_last_entry_wins secretsFile "/secrets/boot"
              (list_byte_of_string "# boot secrets
adminUser.password: s3cret
  pipelineUser.token : abc:def
not an entry") ltac:(vm_compute; reflexivity) ltac:(vm_compute; reflexivity))
    as [Hlast _].
  apply (Hlast ["# boot secrets"; "adminUser.password: s3cret"]
           "  pipelineUser.token : abc:def" ["not an entry"]).
  - vm_compute; reflexivity.
  - vm_compute; reflexivity.
  - intros l' value' ->%list_elem_of_singleton. vm_compute. discriminate.
Defined.

(** X16. [loadSecretFile] fails exactly when the file cannot be checked
    for, does not exist or cannot be read, never because of what the file
    holds; and it reads the file only after finding that it exists. *)
Theorem loadSecretFile_nil_iff_readable w fileName :
  ((result (secrets.loadSecretFile w fileName)).2 = None
   ↔ world_FileExists w fileName = (true, None)
     ∧ (world_ReadFile w fileName).2 = None)
  ∧ (CallReadFile fileName ∈ calls (secrets.loadSecretFile w fileName) →
     world_FileExists w fileName = (true, None)).
Proof.
  unfold secrets.loadSecretFile, secrets.FileExists, secrets.ReadFile,
    bind, request, result, calls.
  cbn. destruct (world_FileExists w fileName) as [[|] [e|]]; cbn.
  - split; [split; [done|by intros [[=] _]]|]. in_calls.
  - destruct (world_ReadFile w fileName) as [data [e|]]; cbn.
    + split; [split; [done|by intros [_ [=]]]|done].
    + done.
  - split; [split; [done|by intros [[=] _]]|]. in_calls.
  - split; [split; [done|by intros [[=] _]]|]. in_calls.
Qed.

Lemma loadSecretFile_nil_iff_readable_witness :
  world_FileExists secretsFile "/secrets/boot" = (true, None).
Proof.
  apply (proj2 (loadSecretFile_nil_iff_readable secretsFile "/secrets/boot")).
  apply list_elem_of_In. vm_compute. right. left. reflexivity.
Defined.

(** ** Cutting and splitting text *)

Lemma cut_Some s sep before after :
  cut s sep = Some (before, after)
  ↔ s = before +:+ String sep after ∧ sep ∉ list_ascii_of_string before.
Proof.
  revert before. induction s as [|ch s IH]; intros before; cbn.
  - split; [done|]. intros [Heq _]. by destruct before.
  - case_decide as Hch.
    + subst ch. split.
      * intros [= <- <-]. split; [done|]. cbn. apply not_elem_of_nil.
      * intros [Heq Hfree]. destruct before as [|ch before].
        -- cbn in Heq. by injection Heq as ->.
        -- cbn in Heq, Hfree. injection Heq as <- _.
           destruct Hfree. left.
    + destruct (cut s sep) as [[before' after']|] eqn:Hcut.
      * split.
        -- intros [= <- <-]. destruct (proj1 (IH before') eq_refl) as [-> Hfree].
           split; [done|]. cbn. rewrite not_elem_of_cons. done.
        -- intros [Heq Hfree]. destruct before as [|ch' before].
           { cbn in Heq. injection Heq as -> _. done. }
           cbn in Heq, Hfree. injection Heq as <- ->.
           apply not_elem_of_cons in Hfree as [_ Hfree].
           assert (Some (before', after') = Some (before, after)) as [= -> ->];
             [|done].
           apply IH. by split.
      * split; [done|]. intros [Heq Hfree]. destruct before as [|ch' before].
        { cbn in Heq. injection Heq as -> _. done. }
        cbn in Heq, Hfree. injection Heq as <- ->.
        apply not_elem_of_cons in Hfree as [_ Hfree].
        assert (None = Some (before, after)) as [=]. apply IH. by split.
Qed.

(** X17. A line is cut at its first colon, and only there: [SplitN2] gives
    two pieces exactly when the text is the first piece, the separator and
    the second piece, with no separator in the first; further separators
    stay in the second piece. *)
Theorem SplitN2_first_separator s sep key value :
  SplitN2 s sep = [key; value]
  ↔ s = key +:+ String sep value ∧ sep ∉ list_ascii_of_string key.
Proof.
  rewrite SplitN2_cut, <- cut_Some.
  destruct (cut s sep) as [[before after]|]; split; congruence.
Qed.

Lemma Split_unfold ch rest sep :
  Split (String ch rest) sep
  = if decide (ch = sep) then "" :: Split rest sep
    else match Split rest sep with
         | piece :: pieces => String ch piece :: pieces
         | [] => [String ch ""]
         end.
Proof. done. Qed.

(** Splitting at a separator loses nothing and leaves no separator
    behind. *)
Lemma Split_join s sep :
  String.concat (String sep "") (Split s sep) = s
  ∧ Forall (λ piece, sep ∉ list_ascii_of_string piece) (Split s sep).
Proof.
  induction s as [|ch rest [IHjoin IHfree]].
  - split; [done|]. repeat constructor. apply not_elem_of_nil.
  - rewrite Split_unfold. pose proof (Split_nonempty rest sep) as Hne.
    destruct (Split rest sep) as [|piece pieces]; [done|].
    case_decide as Hch.
    + subst ch. split.
      * cbn in *. by rewrite IHjoin.
      * constructor; [apply not_elem_of_nil|done].
    + split.
      * destruct pieces as [|piece' pieces]; cbn in *; by rewrite <- IHjoin.
      * apply Forall_cons in IHfree as [Hfree Hrest]. constructor; [|done].
        cbn. rewrite not_elem_of_cons. by split; [intros ->|].
Qed.

Lemma Split_free piece sep :
  sep ∉ list_ascii_of_string piece → Split piece sep = [piece].
Proof.
  induction piece as [|ch piece IH]; [done|]. cbn.
  intros [Hch Hfree]%not_elem_of_cons.
  rewrite decide_False by done. by rewrite IH.
Qed.

Lemma Split_app piece rest sep :
  sep ∉ list_ascii_of_string piece →
  Split (piece +:+ String sep rest) sep = piece :: Split rest sep.
Proof.
  induction piece as [|ch piece IH].
  - intros _. change ("" +:+ String sep rest) with (String sep rest).
    by rewrite Split_unfold, decide_True.
  - intros [Hch Hfree]%not_elem_of_cons.
    change (String ch piece +:+ String sep rest)
      with (String ch (piece +:+ String sep rest)).
    rewrite Split_unfold, decide_False by done. by rewrite IH.
Qed.

(** Pieces that hold no separator, at least one of them, are what
    splitting their join gives. *)
Lemma Split_of_join pieces sep :
  pieces ≠ [] →
  Forall (λ piece, sep ∉ list_ascii_of_string piece) pieces →
  Split (String.concat (String sep "") pieces) sep = pieces.
Proof.
  induction pieces as [|piece pieces IH]; [done|]. intros _ Hfree.
  apply Forall_cons in Hfree as [Hpiece Hfree].
  destruct pieces as [|piece' pieces]; [by apply Split_free|].
  change (String.concat (String sep "") (piece :: piece' :: pieces))
    with (piece +:+ String sep
            (String.concat (String sep "") (piece' :: pieces))).
  rewrite Split_app by done. by rewrite IH.
Qed.

(** X18. Splitting and joining are inverse to each other: the pieces of a
    text, joined by the separator, give back the text, and no piece holds
    the separator; and pieces that hold no separator, at least one of them,
    are exactly what splitting their join gives.  So the lines of a file
    lose nothing of it, and a dotted key stands for one path only. *)
Theorem Split_round_trip sep :
  (∀ s,
     String.concat (String sep "") (Split s sep) = s
     ∧ Forall (λ piece, sep ∉ list_ascii_of_string piece) (Split s sep))
  ∧ (∀ pieces,
       pieces ≠ [] →
       Forall (λ piece, sep ∉ list_ascii_of_string piece) pieces →
       Split (String.concat (String sep "") pieces) sep = pieces).
Proof.
  split; [intros s; apply Split_join|intros pieces; apply Split_of_join].
Qed.

Lemma Split_round_trip_witness :
  Split (String.concat "." ["adminUser"; ""; "password"]) "."
  = ["adminUser"; ""; "password"].
Proof.
  apply (proj2 (Split_round_trip ".") ["adminUser"; ""; "password"]);
    [discriminate|].
  apply (bool_decide_unpack _). vm_compute. exact I.
Defined.

(** ** Finding the boot configuration *)

(** Case analysis on the answers of the world that a computation looks
    at, innermost first. *)
Ltac split_answers :=
  repeat (cbn;
          match goal with
          | |- context [match ?x with _ => _ end] =>
              lazymatch x with
              | context [match _ with _ => _ end] => fail
              | _ => destruct x eqn:?
              end
          end).

Ltac unfold_find :=
  unfold run.findRequirementsAndGitURL, run.findGitURLFromDir,
    CreateJXClient, GetDevEnvironment, GetRequirementsConfigFromTeamSettings,
    LoadRequirementsConfig, Debugf, run.FindGitConfigDir,
    run.DiscoverUpstreamGitURL, bind, request, result, calls.

(** Every request of [findRequirementsAndGitURL]. *)
Lemma findRequirementsAndGitURL_calls w o call :
  call ∈ calls (run.findRequirementsAndGitURL w o) →
  call = CallCreateJXClient
  ∨ (∃ ns, call = CallGetDevEnvironment ns)
  ∨ (∃ settings, call = CallGetRequirementsConfigFromTeamSettings settings)
  ∨ (∃ message, call = CallDebugf message)
  ∨ call = CallLoadRequirementsConfig (run.Dir o)
  ∨ call = CallFindGitConfigDir (run.Dir o)
  ∨ (∃ gitConfDir, call = CallDiscoverUpstreamGitURL gitConfDir).
Proof.
  unfold_find. split_answers; in_calls.
Qed.

(** X19. The git URL comes from the option if it is set, else from the
    source of the 'dev' environment if there is one with a URL; when either
    gives a URL, that is the URL [findRequirementsAndGitURL] returns, and
    the directory is never searched for a git configuration. *)
Theorem findRequirementsAndGitURL_git_url_precedence w o ns dev err :
  world_CreateJXClient w = (ns, None) →
  world_GetDevEnvironment w ns = (dev, err) →
  notFoundIsNil err = None →
  let chosen :=
    if decide (run.GitURL o ≠ "") then run.GitURL o
    else match dev with Some d => SourceURL d | None => "" end in
  chosen ≠ "" →
  (result (run.findRequirementsAndGitURL w o)).1.2 = chosen
  ∧ (∀ dir,
       CallFindGitConfigDir dir ∉ calls (run.findRequirementsAndGitURL w o))
  ∧ (∀ gitConfDir,
       CallDiscoverUpstreamGitURL gitConfDir
         ∉ calls (run.findRequirementsAndGitURL w o)).
Proof.
  intros Hclient Hdev Herr chosen Hchosen. subst chosen. revert Hchosen.
  unfold_find. rewrite Hclient. cbn. rewrite Hdev. cbn. rewrite Herr.
  split_answers; intros Hchosen; try done;
    (split; [done|]); split; intros ?; in_calls.
Qed.

Lemma findRequirementsAndGitURL_git_url_precedence_witness :
  (result (run.findRequirementsAndGitURL devCluster bootOptions)).1.2
  = "https://github.com/acme/environment-dev.git"
  ∧ (result (run.findRequirementsAndGitURL devCluster
               {| run.Dir := "."; run.GitURL := "https://example.org/fork.git";
                  run.BatchMode := true; run.JobMode := true |})).1.2
    = "https://example.org/fork.git".
Proof.
  split.
  - refine (proj1 (findRequirementsAndGitURL_git_url_precedence devCluster
                     bootOptions "jx" (Some devEnvironment) None _ _ _ _));
      solve [reflexivity | discriminate].
  - refine (proj1 (findRequirementsAndGitURL_git_url_precedence devCluster
                     {| run.Dir := "."; run.GitURL := "https://example.org/fork.git";
                        run.BatchMode := true; run.JobMode := true |}
                     "jx" (Some devEnvironment) None _ _ _ _));
      solve [reflexivity | discriminate].
Defined.

(** X20. An upstream git URL is discovered only as a last resort and only
    from a git configuration that was found: when
    [findRequirementsAndGitURL] asks for it, the option gave no URL, and the
    search from the directory returned that non-empty git configuration
    directory without an error. *)
Theorem findRequirementsAndGitURL_discovery w o gitConfDir :
  CallDiscoverUpstreamGitURL gitConfDir
    ∈ calls (run.findRequirementsAndGitURL w o) →
  run.GitURL o = ""
  ∧ gitConfDir ≠ ""
  ∧ (world_FindGitConfigDir w (run.Dir o)).1.2 = gitConfDir
  ∧ (world_FindGitConfigDir w (run.Dir o)).2 = None.
Proof.
  unfold_find. split_answers; cbn; rewrite ?elem_of_cons, ?elem_of_nil;
    intros Hin;
    repeat (destruct Hin as [Hin|Hin]; try discriminate Hin); try done;
    injection Hin as ->; (split; [by apply dec_stable|done]).
Qed.

Lemma findRequirementsAndGitURL_discovery_witness :
  run.GitURL bootOptions = "" ∧ "./.git" ≠ "".
Proof.
  destruct (findRequirementsAndGitURL_discovery checkout bootOptions "./.git")
    as (Hoption & Hfound & _).
  - apply list_elem_of_In. vm_compute. do 4 right. left. reflexivity.
  - exact (conj Hoption Hfound).
Defined.

(** X21. Failures to reach the cluster are passed on as they are: when no
    jx client can be created, or the lookup of the 'dev' environment fails
    with an error other than "not found", [findRequirementsAndGitURL]
    returns that very error (not wrapped), no requirements and no git URL,
    and asks for nothing more. *)
Theorem findRequirementsAndGitURL_transport_failure w o ns e :
  (world_CreateJXClient w = (ns, Some e) →
   run.findRequirementsAndGitURL w o
   = ((None, "", Some e), [CallCreateJXClient]))
  ∧ (∀ dev,
       world_CreateJXClient w = (ns, None) →
       world_GetDevEnvironment w ns = (dev, Some e) →
       IsNotFound e = false →
       run.findRequirementsAndGitURL w o
       = ((None, "", Some e), [CallCreateJXClient; CallGetDevEnvironment ns])).
Proof.
  split.
  - intros Hclient. unfold_find. by rewrite Hclient.
  - intros dev Hclient Hdev Hnf. unfold_find. rewrite Hclient. cbn.
    rewrite Hdev. cbn. by rewrite Hnf.
Qed.

Lemma findRequirementsAndGitURL_transport_failure_witness :
  run.findRequirementsAndGitURL offline bootOptions
  = ((None, "", Some noKubeConfig), [CallCreateJXClient])
  ∧ run.findRequirementsAndGitURL guardedCluster bootOptions
    = ((None, "", Some (forbidden "dev")),
       [CallCreateJXClient; CallGetDevEnvironment "jx"]).
Proof.
  split.
  - refine (proj1 (findRequirementsAndGitURL_transport_failure offline
                     bootOptions "" noKubeConfig) _). reflexivity.
  - refine (proj2 (findRequirementsAndGitURL_transport_failure guardedCluster
                     bootOptions "jx" (forbidden "dev")) None _ _ _);
      reflexivity.
Defined.

(** X22. Requirements found in the cluster win over the file here too:
    when the 'dev' environment is found and its team settings parse to a
    document without an error, [findRequirementsAndGitURL] returns that
    document and never loads the requirements file. *)
Theorem findRequirementsAndGitURL_cluster_first w o ns d err requirements :
  world_CreateJXClient w = (ns, None) →
  world_GetDevEnvironment w ns = (Some d, err) →
  notFoundIsNil err = None →
  world_GetRequirementsConfigFromTeamSettings w (Settings d)
  = (Some requirements, None) →
  (result (run.findRequirementsAndGitURL w o)).1.1 = Some requirements
  ∧ ∀ dir,
      CallLoadRequirementsConfig dir
        ∉ calls (run.findRequirementsAndGitURL w o).
Proof.
  intros Hclient Hdev Herr Hparse.
  unfold_find. rewrite Hclient. cbn. rewrite Hdev. cbn. rewrite Herr. cbn.
  rewrite Hparse.
  split_answers; cbn; (split; [done|]); intros dir; in_calls.
Qed.

Lemma findRequirementsAndGitURL_cluster_first_witness :
  world_LoadRequirementsConfig devCluster "."
  = (Some eksRequirements, "./jx-requirements.yml", None)
  ∧ (result (run.findRequirementsAndGitURL devCluster bootOptions)).1.1
    = Some gkeRequirements.
Proof.
  split; [reflexivity|].
  refine (proj1 (findRequirementsAndGitURL_cluster_first devCluster
                   bootOptions "jx" devEnvironment None gkeRequirements
                   _ _ _ _)); reflexivity.
Defined.

(** ** The log-tailing loop, further *)

Lemma tailJobLogs_loop w fuel ns :
  world_CreateKubeClient w = (ns, None) →
  run.tailJobLogs w fuel
  = (result (run.tailJobLogsLoop w fuel 0 ns None),
     CallCreateKubeClient :: calls (run.tailJobLogsLoop w fuel 0 ns None)).
Proof.
  intros Hclient. unfold run.tailJobLogs, CreateKubeClient, bind, request.
  cbn. rewrite Hclient.
  by destruct (run.tailJobLogsLoop w fuel 0 ns None).
Qed.

(** X23. [tailJobLogs] returns an error, without tailing any log, when no
    Kubernetes client can be created, when the first pod discovery fails,
    and when that discovery names no pod. *)
Theorem tailJobLogs_fails_before_tailing w fuel :
  match world_CreateKubeClient w with
  | (_, Some e) =>
      run.tailJobLogs w fuel = (Some (Some e), [CallCreateKubeClient])
  | (ns, None) =>
      let discovered :=
        [CallCreateKubeClient; CallWaitForReadyPodForSelectorLabels ns] in
      match world_WaitForReadyPodForSelectorLabels w 0 ns with
      | (_, Some e) =>
          run.tailJobLogs w (S fuel) = (Some (Some e), discovered)
      | (pod, None) =>
          pod = "" →
          run.tailJobLogs w (S fuel)
          = (Some (Some (Errorf ("No pod found for namespace " +:+ ns
                                   +:+ " with selector map[job-name:jx-boot]"))),
             discovered)
      end
  end.
Proof.
  unfold run.tailJobLogs, CreateKubeClient, bind at 1, request.
  destruct (world_CreateKubeClient w) as [ns [e|]]; cbn; [done|].
  unfold run.tailJobLogsBody, run.WaitForReadyPodForSelectorLabels, bind,
    request. cbn.
  destruct (world_WaitForReadyPodForSelectorLabels w 0 ns) as [pod [e|]];
    cbn; [done|].
  intros ->. by cbn.
Qed.

Lemma tailJobLogs_fails_before_tailing_witness :
  run.tailJobLogs noPodJob 1
  = (Some (Some (Errorf "No pod found for namespace jx with selector map[job-name:jx-boot]")),
     [CallCreateKubeClient; CallWaitForReadyPodForSelectorLabels "jx"]).
Proof.
  apply (tailJobLogs_fails_before_tailing noPodJob 0). reflexivity.
Defined.

Lemma tailJobLogsLoop_polls w ns :
  (∀ attempt, ∃ pod,
      world_WaitForReadyPodForSelectorLabels w attempt ns = (pod, None)
      ∧ pod ≠ "" ∧ world_TailLogs w attempt ns pod "boot" = None) →
  ∀ fuel attempt,
    length (calls (run.tailJobLogsLoop w fuel attempt ns None)) = 2 * fuel.
Proof.
  intros Hquiet fuel. induction fuel as [|fuel IH]; intros attempt; [done|].
  destruct (Hquiet attempt) as (pod & Hpod & Hne & Htail).
  cbn [run.tailJobLogsLoop]. rewrite bind_calls, length_app.
  unfold run.tailJobLogsBody at 1 2.
  unfold run.WaitForReadyPodForSelectorLabels, run.TailLogs, bind, request,
    result, calls. cbn. rewrite Hpod. cbn. rewrite decide_False by done. cbn.
  rewrite Htail. cbn.
  change (run.tailJobLogsLoop w fuel (S attempt) ns None).2
    with (calls (run.tailJobLogsLoop w fuel (S attempt) ns None)).
  rewrite IH. lia.
Qed.

(** One pass of the quiet loop after the other: a pod discovery, then the
    tailing of the log of the pod that was discovered. *)
Lemma tailJobLogsLoop_passes w ns :
  (∀ attempt, ∃ pod,
      world_WaitForReadyPodForSelectorLabels w attempt ns = (pod, None)
      ∧ pod ≠ "" ∧ world_TailLogs w attempt ns pod "boot" = None) →
  ∀ fuel attempt,
    calls (run.tailJobLogsLoop w fuel attempt ns None)
    = flat_map
        (λ pass,
           [CallWaitForReadyPodForSelectorLabels ns;
            CallTailLogs ns
              (world_WaitForReadyPodForSelectorLabels w pass ns).1 "boot"])
        (seq attempt fuel).
Proof.
  intros Hquiet fuel. induction fuel as [|fuel IH]; intros attempt; [done|].
  destruct (Hquiet attempt) as (pod & Hpod & Hne & Htail).
  cbn [run.tailJobLogsLoop seq flat_map]. rewrite bind_calls.
  unfold run.tailJobLogsBody at 1 2.
  unfold run.WaitForReadyPodForSelectorLabels, run.TailLogs, bind, request,
    result, calls. cbn. rewrite Hpod. cbn. rewrite decide_False by done. cbn.
  rewrite Htail. cbn.
  change (run.tailJobLogsLoop w fuel (S attempt) ns None).2
    with (calls (run.tailJobLogsLoop w fuel (S attempt) ns None)).
  by rewrite IH.
Qed.

(** X24. While a pod of the Job is ready at every discovery and its log
    stream ends without an error every time, [tailJobLogs] never returns:
    however many passes its loop is given it is still going.  Its requests
    are the creation of the client and then, pass after pass, one pod
    discovery followed by one tailing of the [boot] container of the pod
    just discovered, and nothing else: [1 + 2 * fuel] requests after [fuel]
    passes. *)
Theorem tailJobLogs_never_returns w ns :
  world_CreateKubeClient w = (ns, None) →
  (∀ attempt, ∃ pod,
      world_WaitForReadyPodForSelectorLabels w attempt ns = (pod, None)
      ∧ pod ≠ "" ∧ world_TailLogs w attempt ns pod "boot" = None) →
  ∀ fuel,
    result (run.tailJobLogs w fuel) = None
    ∧ calls (run.tailJobLogs w fuel)
      = CallCreateKubeClient
        :: flat_map
             (λ pass,
                [CallWaitForReadyPodForSelectorLabels ns;
                 CallTailLogs ns
                   (world_WaitForReadyPodForSelectorLabels w pass ns).1
                   "boot"])
             (seq 0 fuel)
    ∧ length (calls (run.tailJobLogs w fuel)) = 1 + 2 * fuel.
Proof.
  intros Hclient Hquiet fuel. rewrite (tailJobLogs_loop w fuel ns Hclient).
  cbn [result calls fst snd length]. split; [|split].
  - by apply tailJobLogsLoop_keeps_going.
  - f_equal. by apply tailJobLogsLoop_passes.
  - by rewrite tailJobLogsLoop_polls.
Qed.

Lemma tailJobLogs_never_returns_witness :
  result (run.tailJobLogs devCluster 2) = None
  ∧ calls (run.tailJobLogs devCluster 2)
    = [CallCreateKubeClient;
       CallWaitForReadyPodForSelectorLabels "jx";
       CallTailLogs "jx" "jx-boot-x7k2p" "boot";
       CallWaitForReadyPodForSelectorLabels "jx";
       CallTailLogs "jx" "jx-boot-x7k2p" "boot"]
  ∧ length (calls (run.tailJobLogs devCluster 2)) = 5.
Proof.
  apply (tailJobLogs_never_returns devCluster "jx"); [reflexivity|].
  intros attempt. exists "jx-boot-x7k2p".
  split; [reflexivity|]. split; [discriminate|reflexivity].
Defined.

Lemma tailJobLogsLoop_tails w fuel attempt ns ns' pod containerName :
  CallTailLogs ns' pod containerName
    ∈ calls (run.tailJobLogsLoop w fuel attempt ns None) →
  ns' = ns ∧ containerName = "boot" ∧ pod ≠ ""
  ∧ ∃ earlier, attempt ≤ earlier < attempt + fuel
               ∧ world_WaitForReadyPodForSelectorLabels w earlier ns
                 = (pod, None).
Proof.
  revert attempt. induction fuel as [|fuel IH]; intros attempt.
  { by intros ?%elem_of_nil. }
  cbn [run.tailJobLogsLoop]. rewrite bind_calls.
  unfold run.tailJobLogsBody at 1 2.
  unfold run.WaitForReadyPodForSelectorLabels, run.TailLogs, bind, request,
    result, calls. cbn.
  destruct (world_WaitForReadyPodForSelectorLabels w attempt ns)
    as [pod0 [e|]] eqn:Hpod; cbn.
  { in_calls. }
  destruct (decide (pod0 = "")) as [->|Hne]; cbn.
  { in_calls. }
  assert (Hhere : ∀ ns'' pod'' cn'',
             CallTailLogs ns'' pod'' cn'' = CallTailLogs ns pod0 "boot" →
             ns'' = ns ∧ cn'' = "boot" ∧ pod'' ≠ ""
             ∧ ∃ earlier, attempt ≤ earlier < attempt + S fuel
                          ∧ world_WaitForReadyPodForSelectorLabels w earlier ns
                            = (pod'', None)).
  { intros ??? [= -> -> ->]. repeat split; [done|].
    exists attempt. split; [lia|done]. }
  destruct (world_TailLogs w attempt ns pod0 "boot") as [e|]; cbn.
  - rewrite !elem_of_cons, elem_of_nil.
    intros [?|[Heq|[]]]; [discriminate|]. by apply Hhere.
  - rewrite !elem_of_cons.
    intros [?|[Heq|Hin]]; [discriminate|by apply Hhere|].
    apply IH in Hin as (-> & -> & Hpod' & earlier & Hrange & Hearlier).
    repeat split; [done|]. exists earlier. split; [lia|done].
Qed.

(** X25. [tailJobLogs] tails nothing but the [boot] container of a pod that
    an earlier discovery of the same call returned, without an error and
    with a non-empty name, in the namespace of the Kubernetes client. *)
Theorem tailJobLogs_tails_discovered_pods w fuel ns pod containerName :
  CallTailLogs ns pod containerName ∈ calls (run.tailJobLogs w fuel) →
  ns = (world_CreateKubeClient w).1
  ∧ containerName = "boot"
  ∧ pod ≠ ""
  ∧ ∃ attempt, attempt < fuel
               ∧ world_WaitForReadyPodForSelectorLabels w attempt ns
                 = (pod, None).
Proof.
  destruct (world_CreateKubeClient w) as [ns0 [e|]] eqn:Hclient.
  - unfold run.tailJobLogs, CreateKubeClient, bind, request. cbn.
    rewrite Hclient. cbn. in_calls.
  - rewrite (tailJobLogs_loop w fuel ns0 Hclient). cbn [calls snd fst].
    rewrite elem_of_cons. intros [?|Hin]; [discriminate|].
    apply tailJobLogsLoop_tails in Hin
      as (-> & -> & Hpod & attempt & Hrange & Hfound).
    repeat split; [done|]. exists attempt. split; [lia|done].
Qed.

Lemma tailJobLogs_tails_discovered_pods_witness :
  "jx" = (world_CreateKubeClient finishedJob).1 ∧ "jx-boot-x7k2p" ≠ "".
Proof.
  destruct (tailJobLogs_tails_discovered_pods finishedJob 2 "jx"
              "jx-boot-x7k2p" "boot") as (Hns & _ & Hpod & _).
  - apply list_elem_of_In. vm_compute. do 2 right. left. reflexivity.
  - exact (conj Hns Hpod).
Defined.

(** ** Launching the boot Job *)

Lemma bindJob_outcome {A B} (m : Job A) (f : A → Job B) :
  outcome (bindJob m f) = outcome (f (outcome m)).
Proof. unfold bindJob, outcome. by destruct (f m.1). Qed.

Lemma bindJob_events {A B} (m : Job A) (f : A → Job B) :
  events (bindJob m f) = events m ++ events (f (outcome m)).
Proof. unfold bindJob, events, outcome. by destruct (f m.1). Qed.

Lemma hostCalls_app log1 log2 :
  hostCalls (log1 ++ log2) = hostCalls log1 ++ hostCalls log2.
Proof. unfold hostCalls. apply omap_app. Qed.

Lemma hostCalls_cluster (asked : list Call) : hostCalls (inl <$> asked) = [].
Proof. induction asked as [|call asked IH]; [done|]. done. Qed.

Lemma hostCalls_inl call log : hostCalls (inl call :: log) = hostCalls log.
Proof. done. Qed.

Lemma hostCalls_inr call log :
  hostCalls (inr call :: log) = call :: hostCalls log.
Proof. done. Qed.

(** The calls to the machine in a log that is given piece by piece. *)
Ltac host_calls :=
  repeat first [rewrite hostCalls_app | rewrite hostCalls_cluster
               | rewrite hostCalls_inl | rewrite hostCalls_inr];
  try reflexivity.

Lemma hasLine_true w releaseName lines :
  run.hasLine w releaseName lines = true
  ↔ ∃ line, line ∈ lines ∧ world_TrimSpace w line = releaseName.
Proof.
  induction lines as [|line lines IH]; cbn.
  - split; [done|]. by intros (? & ?%elem_of_nil & _).
  - case_decide as Hline.
    + split; [|done]. intros _. exists line. split; [left|done].
    + rewrite IH. split.
      * intros (l & Hin & Hl). exists l. split; [by right|done].
      * intros (l & [->|Hin]%elem_of_cons & Hl); [done|]. by exists l.
Qed.

(** X26. [hasHelmRelease] reports a release when, and only when,
    [helm list --short] succeeds and one of the lines of its trimmed
    output, trimmed, is the release name: a release whose name merely
    contains the name does not count.  When the command fails it reports
    the error, wrapped, and no release. *)
Theorem hasHelmRelease_whole_line w h releaseName :
  let helmList := {| CommandDir := ""; CommandName := "helm";
                     CommandArgs := ["list"; "--short"] |} in
  events (run.hasHelmRelease w h releaseName)
  = [inr (CallRunWithoutRetry helmList)]
  ∧ match host_RunWithoutRetry h helmList with
    | (_, Some e) =>
        outcome (run.hasHelmRelease w h releaseName)
        = (false, Some (Wrap e "failed to run: helm list"))
    | (text, None) =>
        (outcome (run.hasHelmRelease w h releaseName)).2 = None
        ∧ ((outcome (run.hasHelmRelease w h releaseName)).1 = true
           ↔ ∃ line, line ∈ Split (world_TrimSpace w text) "010"
                     ∧ world_TrimSpace w line = releaseName)
    end.
Proof.
  intros helmList. subst helmList.
  unfold run.hasHelmRelease, run.RunWithoutRetry, bindJob, hostRequest,
    outcome, events. cbn.
  match goal with
  | |- context [host_RunWithoutRetry h ?c] =>
      destruct (host_RunWithoutRetry h c) as [text [e|]]
  end; cbn; [done|].
  split; [done|]. split; [done|]. apply hasLine_true.
Qed.

Ltac unfold_job :=
  unfold run.RunBootJob, run.hasHelmRelease, run.TempDir, run.Clone,
    run.RunWithoutRetry, Infof, bindJob, cluster, hostRequest, retJob, request,
    outcome, events.

(** X27. Without a boot configuration [RunBootJob] touches nothing on the
    machine: when [findRequirementsAndGitURL] fails it returns that error,
    and when no git URL was found it returns the error of
    [util.MissingOption] for [git-url], whose text names the option the way
    [util.ColorInfo] renders it (with escape codes on a terminal with
    colours); in both cases no temporary directory is made, nothing is
    cloned and no command is run. *)
Theorem RunBootJob_without_configuration w h fuel o :
  let found := run.findRequirementsAndGitURL w o in
  match result found with
  | (_, _, Some e) =>
      run.RunBootJob w h fuel o = (Returned (Some e), inl <$> calls found)
  | (_, gitURL, None) =>
      gitURL = "" →
      run.RunBootJob w h fuel o
      = (Returned (Some (MissingOption w "git-url")), inl <$> calls found)
  end.
Proof.
  intros found. subst found. unfold_job. unfold result, calls.
  destruct (run.findRequirementsAndGitURL w o)
    as [[[requirements gitURL] [e|]] asked]; cbn.
  - f_equal. apply app_nil_r.
  - intros ->. cbn. f_equal. apply app_nil_r.
Qed.

Lemma RunBootJob_without_configuration_witness :
  run.RunBootJob offline cleanHost 3 bootOptions
  = (Returned (Some noKubeConfig), [inl CallCreateJXClient])
  ∧ run.RunBootJob noUpstream cleanHost 3 bootOptions
    = (Returned (Some (Errorf "Missing option: --git-url")),
       [inl CallCreateJXClient; inl (CallGetDevEnvironment "jx");
        inl (CallLoadRequirementsConfig ".");
        inl (CallFindGitConfigDir ".");
        inl (CallDiscoverUpstreamGitURL "./.git")])
  ∧ run.RunBootJob (coloured noUpstream) cleanHost 3 bootOptions
    = (Returned (Some (Errorf ("Missing option: --"
                                 +:+ String (ascii_of_nat 27) "[32mgit-url"
                                 +:+ String (ascii_of_nat 27) "[0m"))),
       [inl CallCreateJXClient; inl (CallGetDevEnvironment "jx");
        inl (CallLoadRequirementsConfig ".");
        inl (CallFindGitConfigDir ".");
        inl (CallDiscoverUpstreamGitURL "./.git")]).
Proof.
  split; [|split].
  - exact (RunBootJob_without_configuration offline cleanHost 3 bootOptions).
  - exact (RunBootJob_without_configuration noUpstream cleanHost 3
             bootOptions eq_refl).
  - exact (RunBootJob_without_configuration (coloured noUpstream) cleanHost 3
             bootOptions eq_refl).
Defined.

(** X28. [RunBootJob] does not check that requirements were found: when
    [findRequirementsAndGitURL] returns a git URL and no error but no
    requirements, reading the cluster name dereferences nil; this happens
    before anything is done on the machine. *)
Theorem RunBootJob_nil_requirements w h fuel o gitURL :
  result (run.findRequirementsAndGitURL w o) = (None, gitURL, None) →
  gitURL ≠ "" →
  run.RunBootJob w h fuel o
  = (Panicked, inl <$> calls (run.findRequirementsAndGitURL w o)).
Proof.
  intros Hfound Hurl. unfold_job. unfold result, calls in *.
  destruct (run.findRequirementsAndGitURL w o) as [found asked].
  cbn in *. subst found. rewrite decide_False by done. cbn.
  f_equal. apply app_nil_r.
Qed.

Lemma RunBootJob_nil_requirements_witness :
  run.RunBootJob noRequirements cleanHost 3 bootOptions
  = (Panicked,
     [inl CallCreateJXClient; inl (CallGetDevEnvironment "jx");
      inl (CallGetRequirementsConfigFromTeamSettings (Settings devEnvironment));
      inl (CallLoadRequirementsConfig ".")]).
Proof.
  apply (RunBootJob_nil_requirements noRequirements cleanHost 3 bootOptions
           "https://github.com/acme/environment-dev.git");
    [reflexivity|discriminate].
Defined.

(** X29. When every step succeeds, [RunBootJob] does on the machine, in
    this order: make a temporary directory, clone the installer into it,
    list the helm releases, uninstall the old [jx-boot] chart if (and only
    if) it is listed, and run the boot command in the temporary directory;
    it then returns what tailing the logs of the Job returns. *)
Theorem RunBootJob_full_run w h fuel o requirements gitURL tempDir releases :
  let installer :=
    "https://github.com/jenkins-x-labs/jenkins-x-installer.git" in
  let helmList := {| CommandDir := ""; CommandName := "helm";
                     CommandArgs := ["list"; "--short"] |} in
  let uninstall := {| CommandDir := tempDir; CommandName := "helm";
                      CommandArgs := ["uninstall"; "jx-boot"] |} in
  let command := host_GetBootJobCommand h requirements gitURL in
  let boot := {| CommandDir := tempDir; CommandName := CommandName command;
                 CommandArgs := CommandArgs command |} in
  let listed :=
    run.hasLine w "jx-boot" (Split (world_TrimSpace w releases) "010") in
  result (run.findRequirementsAndGitURL w o)
  = (Some requirements, gitURL, None) →
  gitURL ≠ "" →
  host_TempDir h "" "jx-boot-" = (tempDir, None) →
  host_Clone h installer tempDir = None →
  host_RunWithoutRetry h helmList = (releases, None) →
  (listed = true → (host_RunWithoutRetry h uninstall).2 = None) →
  (host_RunWithoutRetry h boot).2 = None →
  outcome (run.RunBootJob w h fuel o)
  = match result (run.tailJobLogs w fuel) with
    | Some err => Returned err
    | None => StillTailing
    end
  ∧ hostCalls (events (run.RunBootJob w h fuel o))
    = [CallTempDir "" "jx-boot-"; CallClone installer tempDir;
       CallRunWithoutRetry helmList]
      ++ (if listed then [CallRunWithoutRetry uninstall] else [])
      ++ [CallRunWithoutRetry boot].
Proof.
  intros installer helmList uninstall command boot listed
    Hfound Hurl Htemp Hclone Hlist Huninstall Hboot.
  subst installer helmList uninstall command boot listed.
  unfold_job. unfold result, calls in *.
  destruct (run.findRequirementsAndGitURL w o) as [found asked].
  destruct (run.tailJobLogs w fuel) as [tailed tailing].
  cbn in *. subst found. rewrite decide_False by done. cbn.
  rewrite Htemp. cbn. rewrite Hclone. cbn. rewrite Hlist. cbn.
  destruct (run.hasLine w "jx-boot" (Split (world_TrimSpace w releases) "010"));
    cbn.
  - specialize (Huninstall eq_refl).
    destruct (host_RunWithoutRetry h _) as [out1 err1] in Huninstall |- *.
    cbn in Huninstall. subst err1. cbn.
    destruct (host_RunWithoutRetry h _) as [out2 err2] in Hboot |- *.
    cbn in Hboot. subst err2. cbn.
    destruct tailed as [err|]; cbn; (split; [done|]); host_calls.
  - destruct (host_RunWithoutRetry h _) as [out2 err2] in Hboot |- *.
    cbn in Hboot. subst err2. cbn.
    destruct tailed as [err|]; cbn; (split; [done|]); host_calls.
Qed.

Lemma RunBootJob_full_run_witness :
  hostCalls (events (run.RunBootJob devCluster upgradedHost 0 bootOptions))
  = [CallTempDir "" "jx-boot-";
     CallClone "https://github.com/jenkins-x-labs/jenkins-x-installer.git"
       "/tmp/jx-boot-402911";
     CallRunWithoutRetry {| CommandDir := ""; CommandName := "helm";
                            CommandArgs := ["list"; "--short"] |};
     CallRunWithoutRetry {| CommandDir := "/tmp/jx-boot-402911";
                            CommandName := "helm";
                            CommandArgs := ["uninstall"; "jx-boot"] |};
     CallRunWithoutRetry
       {| CommandDir := "/tmp/jx-boot-402911"; CommandName := "helm";
          CommandArgs :=
            ["install"; "jx-boot"; "--set"; "boot.clusterName=prod"; "--set";
             "boot.bootGitURL=https://github.com/acme/environment-dev.git";
             "."] |}].
Proof.
  refine (proj2 (RunBootJob_full_run devCluster upgradedHost 0 bootOptions
                   gkeRequirements
                   "https://github.com/acme/environment-dev.git"
                   "/tmp/jx-boot-402911" "jenkins
jx-boot
" _ _ _ _ _ _ _)); solve [reflexivity | discriminate].
Defined.

(** X30. [RunBootJob] runs no command unless the temporary directory was
    made and the installer was cloned into it, and it goes to the cluster
    for the pod of the Job only after listing the helm releases and running
    the boot command, both without an error. *)
Theorem RunBootJob_steps_in_order w h fuel o :
  let installer :=
    "https://github.com/jenkins-x-labs/jenkins-x-installer.git" in
  let helmList := {| CommandDir := ""; CommandName := "helm";
                     CommandArgs := ["list"; "--short"] |} in
  let tempDir := (host_TempDir h "" "jx-boot-").1 in
  (∀ command,
     inr (CallRunWithoutRetry command) ∈ events (run.RunBootJob w h fuel o) →
     (host_TempDir h "" "jx-boot-").2 = None
     ∧ host_Clone h installer tempDir = None)
  ∧ (∀ ns,
       inl (CallWaitForReadyPodForSelectorLabels ns)
         ∈ events (run.RunBootJob w h fuel o) →
       (host_RunWithoutRetry h helmList).2 = None
       ∧ ∃ requirements gitURL,
           result (run.findRequirementsAndGitURL w o)
           = (Some requirements, gitURL, None)
           ∧ let command := host_GetBootJobCommand h requirements gitURL in
             (host_RunWithoutRetry h
                {| CommandDir := tempDir; CommandName := CommandName command;
                   CommandArgs := CommandArgs command |}).2 = None).
Proof.
  intros installer helmList tempDir. subst installer helmList tempDir.
  pose proof (findRequirementsAndGitURL_calls w o) as Hcalls.
  unfold_job. unfold result, calls in *.
  destruct (run.findRequirementsAndGitURL w o) as [found asked].
  destruct (run.tailJobLogs w fuel) as [tailed tailing].
  cbn [fst snd] in *.
  assert (Hfound : ∀ ns,
             inl (CallWaitForReadyPodForSelectorLabels ns)
               ∉ (inl <$> asked : list Event)).
  { intros ns (call & [= <-] & Hin)%list_elem_of_fmap.
    apply Hcalls in Hin.
    destruct Hin as [?|[[? ?]|[[? ?]|[[? ?]|[?|[?|[? ?]]]]]]]; discriminate. }
  assert (Hasked : ∀ command,
             inr (CallRunWithoutRetry command) ∉ (inl <$> asked : list Event)).
  { intros command (? & [=] & _)%list_elem_of_fmap. }
  assert (Htailing : ∀ command,
             inr (CallRunWithoutRetry command)
               ∉ (inl <$> tailing : list Event)).
  { intros command (? & [=] & _)%list_elem_of_fmap. }
  clear Hcalls. revert Hfound Hasked Htailing.
  generalize (inl <$> asked : list Event) as before.
  generalize (inl <$> tailing : list Event) as after.
  intros after before Hfound Hasked Htailing.
  split.
  - intros command. specialize (Hasked command).
    specialize (Htailing command).
    split_answers; cbn;
      repeat first [rewrite elem_of_app | rewrite elem_of_cons
                   | rewrite elem_of_nil];
      intros Hin;
      repeat match goal with
             | H : _ ∨ _ |- _ => destruct H as [H|H]
             end;
      try discriminate; try done.
  - intros ns. specialize (Hfound ns).
    split_answers; cbn;
      repeat first [rewrite elem_of_app | rewrite elem_of_cons
                   | rewrite elem_of_nil];
      intros Hin;
      repeat match goal with
             | H : _ ∨ _ |- _ => destruct H as [H|H]
             end;
      try discriminate; try done;
      (split; [done|]); eexists _, _; (split; [reflexivity|]); cbn;
      by repeat match goal with
                | H : host_RunWithoutRetry h ?c = _
                  |- context [host_RunWithoutRetry h ?c] => rewrite H
                end.
Qed.

Lemma RunBootJob_steps_in_order_witness :
  (host_TempDir cleanHost "" "jx-boot-").2 = None
  ∧ host_Clone cleanHost
      "https://github.com/jenkins-x-labs/jenkins-x-installer.git"
      (host_TempDir cleanHost "" "jx-boot-").1
    = None.
Proof.
  apply (proj1 (RunBootJob_steps_in_order devCluster cleanHost 0 bootOptions)
           {| CommandDir := ""; CommandName := "helm";
              CommandArgs := ["list"; "--short"] |}).
  apply list_elem_of_In. vm_compute. do 7 right. left. reflexivity.
Defined.
